(** * PCC-RL packet-level network simulator: a shallow embedding

    The development follows the Python sources

      - [common/utils.py]       (module [Utils]:  the Aurora reward),
      - [simulator/trace.py]    (module [Trace]:  the trace object),
      - [simulator/network.py]  (modules [EmuReplay], [Sender], [Network]
                                 and [SimulatedNetworkEnv]).

    Conventions.

      - The reward of [common/utils.py] is a pure function of binary64
        numbers and is embedded over Rocq's primitive floats, so that its
        theorem speaks about the very bits Python computes; each number
        carries whether it is a Python [float] or a [numpy.float64],
        because only the former raise [ZeroDivisionError].
      - The simulator's clock, latencies and rates are Python floats that the
        code only adds, divides and compares; they are embedded as exact
        rationals [Q], Python's [==] being [Qeq_bool].  Python's [int]s are
        [Z], list indices are [nat].  The arithmetic is exact: the rounding
        of binary64 is left out, so two event times that a run of the code
        makes equal or different by rounding may compare otherwise here,
        and the theorems do not rest on such ties.  Where the code turns a
        float into an [int] ([Sender.set_cwnd]), a rational beyond the
        range of binary64 stands for an infinity and raises as it does.
      - A Python exception is a value of [exn]; stateful code lives in the
        monad [M], whose results keep the state reached when an exception is
        raised, because Python mutates objects in place.
      - [while True] loops take a fuel argument; running out of fuel is the
        outcome [OutOfFuel], which is no behaviour of the program.
      - [simulator/link.py], [common/sender_obs.py] and
        [simulator/constants.py] are imported by the sources but are not part
        of them: they are the interfaces [LinkClass], [SenderObsClass] and
        [Constants] the model is parameterised over.                        *)

From Stdlib Require Import Floats String.
From Stdlib Require Import ZArith QArith Qround Qabs List Bool Lia Lqa.
From Stdlib Require Import Sorted Permutation.
Import ListNotations.

Set Implicit Arguments.

(** ** Python exceptions and results of pure code *)

Inductive exn : Type :=
| AssertionError
| ZeroDivisionError
| IndexError
| TypeError
| ValueError
| NotImplementedError
| RuntimeError
| OverflowError.

(** [Ret a]: the call returned [a]; [Exc e]: it raised [e]. *)
Inductive pyres (A : Type) : Type :=
| Ret (a : A)
| Exc (e : exn).
Arguments Ret {A} a.
Arguments Exc {A} e.

(** ** [common/utils.py] *)

Module Utils.

Local Open Scope float_scope.

(** The numbers that reach the reward are binary64 values held either by
    a Python [float] or by a [numpy.float64].  Both callers
    ([Network.run_for_dur] and [aurora.py]) pass [avg_bw] and [min_rtt] as
    [numpy.float64] ([np.mean(...) * 1e6 / 8 / BYTES_PER_PACKET]); a direct
    call with literals passes [float]s.  [numpy.float64] is a subclass of
    [float] whose operators take over as soon as one operand is a
    [numpy.float64], and whose results are [numpy.float64] again. *)
Record num : Type := mkNum {
  numpy : bool;
  value : float
}.

Definition py_float (f : float) : num := mkNum false f.
Definition np_float64 (f : float) : num := mkNum true f.

(** A Python [int] literal that meets a float operand is converted to the
    float of the same value. *)
Definition float_of_int (z : Z) : float :=
  PrimFloat.of_uint63 (Uint63.of_Z z).

Definition of_int (z : Z) : num := py_float (float_of_int z).

(** [a * b] and [a - b]: IEEE 754, never an exception. *)
Definition mul (a b : num) : num :=
  mkNum (numpy a || numpy b) (value a * value b).
Definition sub (a b : num) : num :=
  mkNum (numpy a || numpy b) (value a - value b).

(** [a / b].  Between two Python [float]s a divisor that compares equal
    to zero (0.0 or -0.0) raises [ZeroDivisionError]; with a
    [numpy.float64] on either side the division is IEEE 754's and gives an
    infinity or a nan (numpy only warns). *)
Definition truediv (a b : num) : pyres num :=
  if negb (numpy a) && negb (numpy b) && (value b =? 0)
  then Exc ZeroDivisionError
  else Ret (mkNum (numpy a || numpy b) (value a / value b)).

(** [def pcc_aurora_reward(throughput, delay, loss, avg_bw=None, min_rtt=None):
       assert avg_bw is not None
       return 10 * 50 * throughput/avg_bw - 1000 * delay - 2000 * loss]

    [*] and [/] associate to the left, so the first summand is
    [((10 * 50) * throughput) / avg_bw], where [10 * 50] is a product of
    two [int]s; the division is the only operation that can raise. *)
Definition pcc_aurora_reward (throughput delay loss : num)
           (avg_bw min_rtt : option num) : pyres num :=
  match avg_bw with
  | None => Exc AssertionError
  | Some avg_bw =>
      match truediv (mul (of_int (10 * 50)) throughput) avg_bw with
      | Exc e => Exc e
      | Ret x =>
          Ret (sub (sub x (mul (of_int 1000) delay))
                   (mul (of_int 2000) loss))
      end
  end.

Local Close Scope float_scope.

(** The part of the process that [set_tf_loglevel] writes: [os.environ]
    and the level of the logger [logging.getLogger('tensorflow')]. *)
Record process : Type := mkProcess {
  environ : string -> option string;
  tensorflow_level : Z
}.

(** [os.environ[k] = v]. *)
Definition setenv (k v : string) (p : process) : process :=
  mkProcess (fun k' => if String.eqb k' k then Some v else environ p k')
            (tensorflow_level p).

(** [logging.FATAL], [logging.ERROR] and [logging.WARNING] of the
    standard library. *)
Definition FATAL : Z := 50.
Definition ERROR : Z := 40.
Definition WARNING : Z := 30.

(** [def set_tf_loglevel(level):
       if level >= logging.FATAL:
           os.environ['TF_CPP_MIN_LOG_LEVEL'] = '3'
       if level >= logging.ERROR:
           os.environ['TF_CPP_MIN_LOG_LEVEL'] = '2'
       if level >= logging.WARNING:
           os.environ['TF_CPP_MIN_LOG_LEVEL'] = '1'
       else:
           os.environ['TF_CPP_MIN_LOG_LEVEL'] = '0'
       logging.getLogger('tensorflow').setLevel(level)]
    for an [int] level. *)
Definition set_tf_loglevel (level : Z) (p : process) : process :=
  let p := if (FATAL <=? level)%Z
           then setenv "TF_CPP_MIN_LOG_LEVEL" "3" p else p in
  let p := if (ERROR <=? level)%Z
           then setenv "TF_CPP_MIN_LOG_LEVEL" "2" p else p in
  let p := if (WARNING <=? level)%Z
           then setenv "TF_CPP_MIN_LOG_LEVEL" "1" p
           else setenv "TF_CPP_MIN_LOG_LEVEL" "0" p in
  mkProcess (environ p) level.

End Utils.

(** ** Numbers of the simulator *)

(** A Python float has one representation for each value; the rational
    that stands for it is kept in lowest terms, so the arithmetic of the
    simulator is [Q]'s followed by [Qred] ([Qplus'], [Qminus'] and [Qmult']
    of the standard library, and [Qdiv'] for a division whose divisor is a
    non-zero literal). *)
Definition Qdiv' (a b : Q) : Q := Qred (a / b).

Infix "+'" := Qplus' (at level 50, left associativity).
Infix "-'" := Qminus' (at level 50, left associativity).
Infix "*'" := Qmult' (at level 40, left associativity).
Infix "/'" := Qdiv' (at level 40, left associativity).

Definition Qgeb (a b : Q) : bool := Qle_bool b a.
Definition Qgtb (a b : Q) : bool := negb (Qle_bool a b).
Definition Qltb (a b : Q) : bool := negb (Qle_bool b a).

(** [a / b] on Python floats raises when [b == 0]. *)
Definition py_div (a b : Q) : pyres Q :=
  if Qeq_bool b 0 then Exc ZeroDivisionError else Ret (a /' b).

(** The rationals stand for finite floats.  The largest binary64 is
    [2^1024 - 2^971], and a result whose magnitude reaches
    [2^1024 - 2^970] rounds to an infinity: such a rational stands for
    [inf] or [-inf] where the code can tell the difference, which is where
    it converts a float to an [int]. *)
Definition float_overflow : Q := inject_Z (2 ^ 1024 - 2 ^ 970).

Definition is_inf (x : Q) : bool := Qle_bool float_overflow (Qabs x).

(** [min(a, b)] and [max(a, b)] keep the first argument on a tie. *)
Definition py_min (a b : Q) : Q := if Qltb b a then b else a.
Definition py_max (a b : Q) : Q := if Qgtb b a then b else a.

(** [max(l)] of a non-empty list; [ValueError] on the empty one. *)
Definition py_max_list (l : list Q) : pyres Q :=
  match l with
  | [] => Exc ValueError
  | x :: xs => Ret (fold_left py_max xs x)
  end.

(** [l[-1]] and [l[0]]. *)
Definition py_last {A} (l : list A) : pyres A :=
  match rev l with
  | [] => Exc IndexError
  | x :: _ => Ret x
  end.

Definition py_first {A} (l : list A) : pyres A :=
  match l with
  | [] => Exc IndexError
  | x :: _ => Ret x
  end.

(** [l[i]] for an index [i >= 0]. *)
Definition py_index {A} (l : list A) (i : nat) : pyres A :=
  match nth_error l i with
  | Some x => Ret x
  | None => Exc IndexError
  end.

(** [l[i]] for an [int] index: a negative one counts from the end. *)
Definition py_getitem {A} (l : list A) (i : Z) : pyres A :=
  let n := Z.of_nat (length l) in
  if (0 <=? i)%Z then py_index l (Z.to_nat i)
  else if (- n <=? i)%Z then py_index l (Z.to_nat (n + i))
  else Exc IndexError.

Definition Qsum (l : list Q) : Q := fold_right Qplus' 0 l.

(** [np.mean(l)]: the mean of a non-empty list; of an empty one numpy
    returns nan (with a warning), which is [None] here. *)
Definition np_mean (l : list Q) : option Q :=
  match l with
  | [] => None
  | _ => Some (Qsum l /' inject_Z (Z.of_nat (length l)))
  end.

(** [round(x, 3)]: to three decimals, ties to the even neighbour. *)
Definition py_round3 (x : Q) : Q :=
  let y := x *' 1000 in
  let f := Qfloor y in
  let d := y -' inject_Z f in
  let n := if Qltb d (1 # 2) then f
           else if Qltb (1 # 2) d then (f + 1)%Z
           else if Z.even f then f else (f + 1)%Z in
  inject_Z n /' 1000.

(** A float that may be nan: the target duration of a monitor interval is
    the one quantity of the simulator that can become nan (through
    [np.mean([])]). *)
Inductive pyfloat : Type :=
| PyFloat (q : Q)
| PyNaN.

(** ** [simulator/trace.py] *)

Module Trace.

(** The attributes [Trace.__init__] sets. *)
Record t : Type := mk {
  timestamps : list Q;
  bandwidths : list Q;
  delays : list Q;
  loss_rate : Q;
  queue_size : Z;
  ack_delay_prob : Q;
  idx : nat
}.

(** [def __init__(self, timestamps, bandwidths, delays, loss_rate, queue_size):
       assert len(timestamps) == len(bandwidths)
       self.timestamps = timestamps ... self.ack_delay_prob = 0
       self.idx = 0] *)
Definition init (timestamps bandwidths delays : list Q) (loss_rate : Q)
           (queue_size : Z) : pyres t :=
  if Nat.eqb (length timestamps) (length bandwidths)
  then Ret (mk timestamps bandwidths delays loss_rate queue_size 0 0)
  else Exc AssertionError.

Definition set_idx (i : nat) (tr : t) : t :=
  mk (timestamps tr) (bandwidths tr) (delays tr) (loss_rate tr)
     (queue_size tr) (ack_delay_prob tr) i.

(** [while self.idx + 1 < len(self.timestamps)
           and self.timestamps[self.idx + 1] <= ts: self.idx += 1]
    The cursor moves at most [len(timestamps)] times, which is the fuel. *)
Fixpoint advance (fuel : nat) (tss : list Q) (i : nat) (ts : Q) : nat :=
  match fuel with
  | O => i
  | S fuel' =>
      match nth_error tss (i + 1) with
      | Some t1 => if Qle_bool t1 ts then advance fuel' tss (i + 1) ts else i
      | None => i
      end
  end.

Definition seek (tr : t) (ts : Q) : t :=
  set_idx (advance (length (timestamps tr)) (timestamps tr) (idx tr) ts) tr.

(** [def get_bandwidth(self, ts)]: the value and the trace with its cursor
    moved.  The fall-back really reads [self.delays[-1]]. *)
Definition get_bandwidth (tr : t) (ts : Q) : pyres Q * t :=
  let tr' := seek tr ts in
  (if Nat.leb (length (delays tr')) (idx tr')
   then py_last (delays tr')
   else py_index (bandwidths tr') (idx tr'),
   tr').

(** [def get_delay(self, ts)]. *)
Definition get_delay (tr : t) (ts : Q) : pyres Q * t :=
  let tr' := seek tr ts in
  (if Nat.leb (length (delays tr')) (idx tr')
   then py_last (delays tr')
   else py_index (delays tr') (idx tr'),
   tr').

Definition get_loss_rate (tr : t) : Q := loss_rate tr.
Definition get_queue_size (tr : t) : Z := queue_size tr.

(** [def is_finished(self, ts): return ts >= self.timestamps[-1]]. *)
Definition is_finished (tr : t) (ts : Q) : pyres bool :=
  match py_last (timestamps tr) with
  | Ret l => Ret (Qgeb ts l)
  | Exc e => Exc e
  end.

(** [def reset(self): self.idx = 0]. *)
Definition reset (tr : t) : t := set_idx 0 tr.

End Trace.

(** ** The interfaces of the modules that are imported but absent *)

(** [simulator/constants.py].  The two event-type constants are only
    compared, with [==] by the dispatcher and with [<] by the tuple order of
    the heap; they are the two constructors of [event_type], and
    [EVENT_TYPE_ACK_lt_SEND] says which of the two Python values is the
    smaller one.  A packet has a positive size: the sources divide by
    [BYTES_PER_PACKET] wherever they convert bytes to packets (also in the
    arguments of [debug_print], which Python evaluates with [DEBUG] off). *)
Class Constants : Type := {
  BYTES_PER_PACKET : Z;
  MAX_RATE : Q;
  MIN_RATE : Q;
  MI_RTT_PROPORTION : Q;
  EVENT_TYPE_ACK_lt_SEND : bool;
  BYTES_PER_PACKET_pos : (0 < BYTES_PER_PACKET)%Z
}.

Inductive event_type : Type :=
| EVENT_TYPE_SEND
| EVENT_TYPE_ACK.

(** The keyword arguments [Sender.get_run_data] passes to
    [sender_obs.SenderMonitorInterval]. *)
Record SenderMonitorInterval : Type := mkMI {
  mi_sender_id : Z;
  bytes_sent : Z;
  bytes_acked : Z;
  bytes_lost : Z;
  send_start : Q;
  send_end : Q;
  recv_start : Q;
  recv_end : Q;
  mi_rtt_samples : list Q;
  mi_queue_delay_samples : list Q;
  packet_size : Z
}.

(** [common/sender_obs.py]: the history object of a sender
    ([SenderHistory(length, features, sender_id)], [step], [back],
    [as_array]) and the metrics of a monitor interval ([mi.get(name)]). *)
Class SenderObsClass : Type := {
  SenderHistory : Type;
  SenderHistory_init : nat -> list string -> Z -> SenderHistory;
  history_step : SenderHistory -> SenderMonitorInterval -> SenderHistory;
  history_back : SenderHistory -> pyres SenderMonitorInterval;
  history_as_array : SenderHistory -> list Q;
  mi_get : SenderMonitorInterval -> string -> Q
}.

(** [simulator/link.py].  [LinkWorld] is the state of the objects in
    [self.links] together with whatever else the methods of [Link] read and
    write (a random generator for the loss draws, say), except the trace:
    both links are built from [self.current_trace] and share that one
    object with the environment, so every method takes the trace and gives
    it back.  Links are named by their position in [self.links]. *)
Class LinkClass : Type := {
  LinkWorld : Type;
  Link_new : LinkWorld * Trace.t -> LinkWorld * Trace.t;
  Link_reset : nat -> LinkWorld * Trace.t -> LinkWorld * Trace.t;
  get_cur_queue_delay : nat -> Q -> LinkWorld * Trace.t -> Q * (LinkWorld * Trace.t);
  get_cur_latency : nat -> Q -> LinkWorld * Trace.t -> Q * (LinkWorld * Trace.t);
  packet_enters_link : nat -> Q -> LinkWorld * Trace.t -> bool * (LinkWorld * Trace.t);
  get_bandwidth : nat -> Q -> LinkWorld * Trace.t -> Q * (LinkWorld * Trace.t);
  pkt_in_queue : nat -> LinkWorld -> Q
}.

(** [numpy.random] as the environment uses it: [np.random.choice(traces)]
    draws a position in a list of the given length, and [generate_traces]
    (which reads a configuration file and draws the traces) is a draw of a
    list of traces. *)
Class RandomClass : Type := {
  RandomState : Type;
  random_choice : RandomState -> nat -> nat * RandomState;
  generate_traces : RandomState -> list Trace.t * RandomState
}.

(** ** Stateful code: a state monad whose errors keep the state *)

Inductive outcome (S A : Type) : Type :=
| Ok (a : A) (s : S)
| Raise (e : exn) (s : S)
| OutOfFuel.
Arguments Ok {S A} a s.
Arguments Raise {S A} e s.
Arguments OutOfFuel {S A}.

Definition M (S A : Type) : Type := S -> outcome S A.

Definition ret {S A} (a : A) : M S A := fun s => Ok a s.

Definition bind {S A B} (c : M S A) (k : A -> M S B) : M S B :=
  fun s =>
    match c s with
    | Ok a s' => k a s'
    | Raise e s' => Raise e s'
    | OutOfFuel => OutOfFuel
    end.

Definition get {S} : M S S := fun s => Ok s s.
Definition gets {S A} (f : S -> A) : M S A := fun s => Ok (f s) s.
Definition modify {S} (f : S -> S) : M S unit := fun s => Ok tt (f s).
Definition raise {S A} (e : exn) : M S A := fun s => Raise e s.

(** The result of pure code, inside stateful code. *)
Definition lift {S A} (r : pyres A) : M S A :=
  match r with
  | Ret a => ret a
  | Exc e => raise e
  end.

Declare Scope monad_scope.
Delimit Scope monad_scope with monad.
Notation "x <- c ;; k" := (bind c (fun x => k))
  (at level 61, c at next level, right associativity) : monad_scope.
Notation "c ;;; k" := (bind c (fun _ => k))
  (at level 61, right associativity) : monad_scope.

(** ** [class EmuReplay] of [simulator/network.py] *)

Module EmuReplay.

(** The attributes of the object: the two columns of the log and the
    cursor. *)
Record t : Type := mk {
  ts : list Q;
  send_rate : list Q;
  idx : Z
}.

(** [def __init__(self): df = pd.read_csv(...);
       self.ts = df['timestamp'].tolist();
       self.send_rate = df['send_rate'].tolist(); self.idx = 0],
    on the two columns of the file. *)
Definition init (timestamp send_rate : list Q) : t := mk timestamp send_rate 0.

(** [def get_ts(self):
       if self.idx > len(self.ts): self.idx = len(self.ts) - 1
       ts = self.ts[self.idx]
       self.idx += 1
       return ts] *)
Definition get_ts (r : t) : pyres Q * t :=
  let r := if (Z.of_nat (length (ts r)) <? idx r)%Z
           then mk (ts r) (send_rate r) (Z.of_nat (length (ts r)) - 1)
           else r in
  match py_getitem (ts r) (idx r) with
  | Ret x => (Ret x, mk (ts r) (send_rate r) (idx r + 1))
  | Exc e => (Exc e, r)
  end.

(** [def get_rate(self):
       return self.send_rate[self.idx] / 8 / BYTES_PER_PACKET] *)
Definition get_rate `{Constants} (r : t) : pyres Q :=
  match py_getitem (send_rate r) (idx r) with
  | Ret x => py_div (x /' 8) (inject_Z BYTES_PER_PACKET)
  | Exc e => Exc e
  end.

(** [def reset(self): self.idx = 0]. *)
Definition reset (r : t) : t := mk (ts r) (send_rate r) 0.

(** [n] calls of [get_ts] in a row: what each returned or raised, and the
    object after the last. *)
Fixpoint get_ts_times (n : nat) (r : t) : list (pyres Q) * t :=
  match n with
  | O => ([], r)
  | S n' =>
      let '(x, r1) := get_ts r in
      let '(xs, r2) := get_ts_times n' r1 in
      (x :: xs, r2)
  end.

End EmuReplay.

(** ** Events and the event queue *)

Module Event.

(** The tuple pushed on the heap,
    [(time, sender, type, next_hop, cur_latency, dropped, event_id, rto,
      event_queue_delay)].
    The environment builds one sender, so the second component is the
    same object in every tuple and is left out. *)
Record t : Type := mk {
  time : Q;
  type : event_type;
  next_hop : nat;
  cur_latency : Q;
  dropped : bool;
  event_id : Z;
  rto : Q;
  event_queue_delay : Q
}.

Section Order.
Context `{Constants}.

Definition type_eqb (a b : event_type) : bool :=
  match a, b with
  | EVENT_TYPE_SEND, EVENT_TYPE_SEND => true
  | EVENT_TYPE_ACK, EVENT_TYPE_ACK => true
  | _, _ => false
  end.

Definition type_ltb (a b : event_type) : bool :=
  match a, b with
  | EVENT_TYPE_ACK, EVENT_TYPE_SEND => EVENT_TYPE_ACK_lt_SEND
  | EVENT_TYPE_SEND, EVENT_TYPE_ACK => negb EVENT_TYPE_ACK_lt_SEND
  | _, _ => false
  end.

(** Python's [a < b] on tuples: the first position where the two differ
    ([!=]) decides, by [<] of the items there; equal tuples are not
    smaller.  [False < True] on [bool]. *)
Definition ltb (a b : t) : bool :=
  if negb (Qeq_bool (time a) (time b)) then Qltb (time a) (time b)
  else if negb (type_eqb (type a) (type b)) then type_ltb (type a) (type b)
  else if negb (Nat.eqb (next_hop a) (next_hop b))
       then Nat.ltb (next_hop a) (next_hop b)
  else if negb (Qeq_bool (cur_latency a) (cur_latency b))
       then Qltb (cur_latency a) (cur_latency b)
  else if negb (Bool.eqb (dropped a) (dropped b))
       then negb (dropped a) && dropped b
  else if negb (Z.eqb (event_id a) (event_id b))
       then Z.ltb (event_id a) (event_id b)
  else if negb (Qeq_bool (rto a) (rto b)) then Qltb (rto a) (rto b)
  else if negb (Qeq_bool (event_queue_delay a) (event_queue_delay b))
       then Qltb (event_queue_delay a) (event_queue_delay b)
  else false.

(** [heapq] keeps [q[0]] a least tuple, and [heappop] removes it.  The
    queue is kept as the list of its tuples in increasing order, which
    has the same [q[0]] and the same [heappop] as any heap layout of the
    same tuples: two tuples neither of which is smaller are equal in
    every position. *)
Fixpoint heappush (q : list t) (e : t) : list t :=
  match q with
  | [] => [e]
  | x :: q' => if ltb e x then e :: x :: q' else x :: heappush q' e
  end.

Definition heappop (q : list t) : pyres (t * list t) :=
  match q with
  | [] => Exc IndexError
  | x :: q' => Ret (x, q')
  end.

End Order.

End Event.

(** ** [class Sender] *)

Module Sender.

Section Sender.
Context `{Constants} `{SenderObsClass}.

(** The attributes of a sender.  [sample_time] and [ssthresh] are never
    read by the simulation and [net] is the back reference to the network
    (the one method it serves, [get_cur_time], is passed as the argument
    [now]); [obs_start_time] is first set by [reset_obs], which
    [Network.queue_initial_packets] calls before anything reads it. *)
Record t : Type := mk {
  id : Z;
  delta_scale : Q;
  starting_rate : Q;
  rate : Q;
  sent : Z;
  acked : Z;
  lost : Z;
  bytes_in_flight : Z;
  min_latency : option Q;
  rtt_samples : list Q;
  rtt_samples_ts : list Q;
  queue_delay_samples : list Q;
  prev_rtt_samples : list Q;
  path : list nat;
  dest : nat;
  history_len : nat;
  features : list string;
  history : SenderHistory;
  cwnd : Z;
  use_cwnd : bool;
  rto : Q;
  pkt_loss_wait_time : Q;
  estRTT : Q;
  RTTVar : Q;
  got_data : bool;
  min_rtt : Q;
  max_tput : Q;
  start_stage : bool;
  lat_diff : Q;
  recv_rate : Q;
  send_rate : Q;
  avg_latency : Q;
  latest_rtt : Q;
  obs_start_time : Q
}.

Definition with_rate (v : Q) (s : t) : t :=
  mk (id s) (delta_scale s) (starting_rate s) v (sent s) (acked s) (lost s)
  (bytes_in_flight s) (min_latency s) (rtt_samples s) (rtt_samples_ts s)
  (queue_delay_samples s) (prev_rtt_samples s) (path s) (dest s)
  (history_len s) (features s) (history s) (cwnd s) (use_cwnd s) (rto s)
  (pkt_loss_wait_time s) (estRTT s) (RTTVar s) (got_data s) (min_rtt s)
  (max_tput s) (start_stage s) (lat_diff s) (recv_rate s) (send_rate s)
  (avg_latency s) (latest_rtt s) (obs_start_time s).

Definition with_sent (v : Z) (s : t) : t :=
  mk (id s) (delta_scale s) (starting_rate s) (rate s) v (acked s) (lost s)
  (bytes_in_flight s) (min_latency s) (rtt_samples s) (rtt_samples_ts s)
  (queue_delay_samples s) (prev_rtt_samples s) (path s) (dest s)
  (history_len s) (features s) (history s) (cwnd s) (use_cwnd s) (rto s)
  (pkt_loss_wait_time s) (estRTT s) (RTTVar s) (got_data s) (min_rtt s)
  (max_tput s) (start_stage s) (lat_diff s) (recv_rate s) (send_rate s)
  (avg_latency s) (latest_rtt s) (obs_start_time s).

Definition with_acked (v : Z) (s : t) : t :=
  mk (id s) (delta_scale s) (starting_rate s) (rate s) (sent s) v (lost s)
  (bytes_in_flight s) (min_latency s) (rtt_samples s) (rtt_samples_ts s)
  (queue_delay_samples s) (prev_rtt_samples s) (path s) (dest s)
  (history_len s) (features s) (history s) (cwnd s) (use_cwnd s) (rto s)
  (pkt_loss_wait_time s) (estRTT s) (RTTVar s) (got_data s) (min_rtt s)
  (max_tput s) (start_stage s) (lat_diff s) (recv_rate s) (send_rate s)
  (avg_latency s) (latest_rtt s) (obs_start_time s).

Definition with_lost (v : Z) (s : t) : t :=
  mk (id s) (delta_scale s) (starting_rate s) (rate s) (sent s) (acked s) v
  (bytes_in_flight s) (min_latency s) (rtt_samples s) (rtt_samples_ts s)
  (queue_delay_samples s) (prev_rtt_samples s) (path s) (dest s)
  (history_len s) (features s) (history s) (cwnd s) (use_cwnd s) (rto s)
  (pkt_loss_wait_time s) (estRTT s) (RTTVar s) (got_data s) (min_rtt s)
  (max_tput s) (start_stage s) (lat_diff s) (recv_rate s) (send_rate s)
  (avg_latency s) (latest_rtt s) (obs_start_time s).

Definition with_bytes_in_flight (v : Z) (s : t) : t :=
  mk (id s) (delta_scale s) (starting_rate s) (rate s) (sent s) (acked s)
  (lost s) v (min_latency s) (rtt_samples s) (rtt_samples_ts s)
  (queue_delay_samples s) (prev_rtt_samples s) (path s) (dest s)
  (history_len s) (features s) (history s) (cwnd s) (use_cwnd s) (rto s)
  (pkt_loss_wait_time s) (estRTT s) (RTTVar s) (got_data s) (min_rtt s)
  (max_tput s) (start_stage s) (lat_diff s) (recv_rate s) (send_rate s)
  (avg_latency s) (latest_rtt s) (obs_start_time s).

Definition with_min_latency (v : option Q) (s : t) : t :=
  mk (id s) (delta_scale s) (starting_rate s) (rate s) (sent s) (acked s)
  (lost s) (bytes_in_flight s) v (rtt_samples s) (rtt_samples_ts s)
  (queue_delay_samples s) (prev_rtt_samples s) (path s) (dest s)
  (history_len s) (features s) (history s) (cwnd s) (use_cwnd s) (rto s)
  (pkt_loss_wait_time s) (estRTT s) (RTTVar s) (got_data s) (min_rtt s)
  (max_tput s) (start_stage s) (lat_diff s) (recv_rate s) (send_rate s)
  (avg_latency s) (latest_rtt s) (obs_start_time s).

Definition with_rtt_samples (v : list Q) (s : t) : t :=
  mk (id s) (delta_scale s) (starting_rate s) (rate s) (sent s) (acked s)
  (lost s) (bytes_in_flight s) (min_latency s) v (rtt_samples_ts s)
  (queue_delay_samples s) (prev_rtt_samples s) (path s) (dest s)
  (history_len s) (features s) (history s) (cwnd s) (use_cwnd s) (rto s)
  (pkt_loss_wait_time s) (estRTT s) (RTTVar s) (got_data s) (min_rtt s)
  (max_tput s) (start_stage s) (lat_diff s) (recv_rate s) (send_rate s)
  (avg_latency s) (latest_rtt s) (obs_start_time s).

Definition with_rtt_samples_ts (v : list Q) (s : t) : t :=
  mk (id s) (delta_scale s) (starting_rate s) (rate s) (sent s) (acked s)
  (lost s) (bytes_in_flight s) (min_latency s) (rtt_samples s) v
  (queue_delay_samples s) (prev_rtt_samples s) (path s) (dest s)
  (history_len s) (features s) (history s) (cwnd s) (use_cwnd s) (rto s)
  (pkt_loss_wait_time s) (estRTT s) (RTTVar s) (got_data s) (min_rtt s)
  (max_tput s) (start_stage s) (lat_diff s) (recv_rate s) (send_rate s)
  (avg_latency s) (latest_rtt s) (obs_start_time s).

Definition with_queue_delay_samples (v : list Q) (s : t) : t :=
  mk (id s) (delta_scale s) (starting_rate s) (rate s) (sent s) (acked s)
  (lost s) (bytes_in_flight s) (min_latency s) (rtt_samples s)
  (rtt_samples_ts s) v (prev_rtt_samples s) (path s) (dest s)
  (history_len s) (features s) (history s) (cwnd s) (use_cwnd s) (rto s)
  (pkt_loss_wait_time s) (estRTT s) (RTTVar s) (got_data s) (min_rtt s)
  (max_tput s) (start_stage s) (lat_diff s) (recv_rate s) (send_rate s)
  (avg_latency s) (latest_rtt s) (obs_start_time s).

Definition with_prev_rtt_samples (v : list Q) (s : t) : t :=
  mk (id s) (delta_scale s) (starting_rate s) (rate s) (sent s) (acked s)
  (lost s) (bytes_in_flight s) (min_latency s) (rtt_samples s)
  (rtt_samples_ts s) (queue_delay_samples s) v (path s) (dest s)
  (history_len s) (features s) (history s) (cwnd s) (use_cwnd s) (rto s)
  (pkt_loss_wait_time s) (estRTT s) (RTTVar s) (got_data s) (min_rtt s)
  (max_tput s) (start_stage s) (lat_diff s) (recv_rate s) (send_rate s)
  (avg_latency s) (latest_rtt s) (obs_start_time s).

Definition with_history (v : SenderHistory) (s : t) : t :=
  mk (id s) (delta_scale s) (starting_rate s) (rate s) (sent s) (acked s)
  (lost s) (bytes_in_flight s) (min_latency s) (rtt_samples s)
  (rtt_samples_ts s) (queue_delay_samples s) (prev_rtt_samples s) (path s)
  (dest s) (history_len s) (features s) v (cwnd s) (use_cwnd s) (rto s)
  (pkt_loss_wait_time s) (estRTT s) (RTTVar s) (got_data s) (min_rtt s)
  (max_tput s) (start_stage s) (lat_diff s) (recv_rate s) (send_rate s)
  (avg_latency s) (latest_rtt s) (obs_start_time s).

Definition with_cwnd (v : Z) (s : t) : t :=
  mk (id s) (delta_scale s) (starting_rate s) (rate s) (sent s) (acked s)
  (lost s) (bytes_in_flight s) (min_latency s) (rtt_samples s)
  (rtt_samples_ts s) (queue_delay_samples s) (prev_rtt_samples s) (path s)
  (dest s) (history_len s) (features s) (history s) v (use_cwnd s) (rto s)
  (pkt_loss_wait_time s) (estRTT s) (RTTVar s) (got_data s) (min_rtt s)
  (max_tput s) (start_stage s) (lat_diff s) (recv_rate s) (send_rate s)
  (avg_latency s) (latest_rtt s) (obs_start_time s).

Definition with_estRTT (v : Q) (s : t) : t :=
  mk (id s) (delta_scale s) (starting_rate s) (rate s) (sent s) (acked s)
  (lost s) (bytes_in_flight s) (min_latency s) (rtt_samples s)
  (rtt_samples_ts s) (queue_delay_samples s) (prev_rtt_samples s) (path s)
  (dest s) (history_len s) (features s) (history s) (cwnd s) (use_cwnd s)
  (rto s) (pkt_loss_wait_time s) v (RTTVar s) (got_data s) (min_rtt s)
  (max_tput s) (start_stage s) (lat_diff s) (recv_rate s) (send_rate s)
  (avg_latency s) (latest_rtt s) (obs_start_time s).

Definition with_RTTVar (v : Q) (s : t) : t :=
  mk (id s) (delta_scale s) (starting_rate s) (rate s) (sent s) (acked s)
  (lost s) (bytes_in_flight s) (min_latency s) (rtt_samples s)
  (rtt_samples_ts s) (queue_delay_samples s) (prev_rtt_samples s) (path s)
  (dest s) (history_len s) (features s) (history s) (cwnd s) (use_cwnd s)
  (rto s) (pkt_loss_wait_time s) (estRTT s) v (got_data s) (min_rtt s)
  (max_tput s) (start_stage s) (lat_diff s) (recv_rate s) (send_rate s)
  (avg_latency s) (latest_rtt s) (obs_start_time s).

Definition with_got_data (v : bool) (s : t) : t :=
  mk (id s) (delta_scale s) (starting_rate s) (rate s) (sent s) (acked s)
  (lost s) (bytes_in_flight s) (min_latency s) (rtt_samples s)
  (rtt_samples_ts s) (queue_delay_samples s) (prev_rtt_samples s) (path s)
  (dest s) (history_len s) (features s) (history s) (cwnd s) (use_cwnd s)
  (rto s) (pkt_loss_wait_time s) (estRTT s) (RTTVar s) v (min_rtt s)
  (max_tput s) (start_stage s) (lat_diff s) (recv_rate s) (send_rate s)
  (avg_latency s) (latest_rtt s) (obs_start_time s).

Definition with_min_rtt (v : Q) (s : t) : t :=
  mk (id s) (delta_scale s) (starting_rate s) (rate s) (sent s) (acked s)
  (lost s) (bytes_in_flight s) (min_latency s) (rtt_samples s)
  (rtt_samples_ts s) (queue_delay_samples s) (prev_rtt_samples s) (path s)
  (dest s) (history_len s) (features s) (history s) (cwnd s) (use_cwnd s)
  (rto s) (pkt_loss_wait_time s) (estRTT s) (RTTVar s) (got_data s) v
  (max_tput s) (start_stage s) (lat_diff s) (recv_rate s) (send_rate s)
  (avg_latency s) (latest_rtt s) (obs_start_time s).

Definition with_max_tput (v : Q) (s : t) : t :=
  mk (id s) (delta_scale s) (starting_rate s) (rate s) (sent s) (acked s)
  (lost s) (bytes_in_flight s) (min_latency s) (rtt_samples s)
  (rtt_samples_ts s) (queue_delay_samples s) (prev_rtt_samples s) (path s)
  (dest s) (history_len s) (features s) (history s) (cwnd s) (use_cwnd s)
  (rto s) (pkt_loss_wait_time s) (estRTT s) (RTTVar s) (got_data s)
  (min_rtt s) v (start_stage s) (lat_diff s) (recv_rate s) (send_rate s)
  (avg_latency s) (latest_rtt s) (obs_start_time s).

Definition with_start_stage (v : bool) (s : t) : t :=
  mk (id s) (delta_scale s) (starting_rate s) (rate s) (sent s) (acked s)
  (lost s) (bytes_in_flight s) (min_latency s) (rtt_samples s)
  (rtt_samples_ts s) (queue_delay_samples s) (prev_rtt_samples s) (path s)
  (dest s) (history_len s) (features s) (history s) (cwnd s) (use_cwnd s)
  (rto s) (pkt_loss_wait_time s) (estRTT s) (RTTVar s) (got_data s)
  (min_rtt s) (max_tput s) v (lat_diff s) (recv_rate s) (send_rate s)
  (avg_latency s) (latest_rtt s) (obs_start_time s).

Definition with_lat_diff (v : Q) (s : t) : t :=
  mk (id s) (delta_scale s) (starting_rate s) (rate s) (sent s) (acked s)
  (lost s) (bytes_in_flight s) (min_latency s) (rtt_samples s)
  (rtt_samples_ts s) (queue_delay_samples s) (prev_rtt_samples s) (path s)
  (dest s) (history_len s) (features s) (history s) (cwnd s) (use_cwnd s)
  (rto s) (pkt_loss_wait_time s) (estRTT s) (RTTVar s) (got_data s)
  (min_rtt s) (max_tput s) (start_stage s) v (recv_rate s) (send_rate s)
  (avg_latency s) (latest_rtt s) (obs_start_time s).

Definition with_recv_rate (v : Q) (s : t) : t :=
  mk (id s) (delta_scale s) (starting_rate s) (rate s) (sent s) (acked s)
  (lost s) (bytes_in_flight s) (min_latency s) (rtt_samples s)
  (rtt_samples_ts s) (queue_delay_samples s) (prev_rtt_samples s) (path s)
  (dest s) (history_len s) (features s) (history s) (cwnd s) (use_cwnd s)
  (rto s) (pkt_loss_wait_time s) (estRTT s) (RTTVar s) (got_data s)
  (min_rtt s) (max_tput s) (start_stage s) (lat_diff s) v (send_rate s)
  (avg_latency s) (latest_rtt s) (obs_start_time s).

Definition with_send_rate (v : Q) (s : t) : t :=
  mk (id s) (delta_scale s) (starting_rate s) (rate s) (sent s) (acked s)
  (lost s) (bytes_in_flight s) (min_latency s) (rtt_samples s)
  (rtt_samples_ts s) (queue_delay_samples s) (prev_rtt_samples s) (path s)
  (dest s) (history_len s) (features s) (history s) (cwnd s) (use_cwnd s)
  (rto s) (pkt_loss_wait_time s) (estRTT s) (RTTVar s) (got_data s)
  (min_rtt s) (max_tput s) (start_stage s) (lat_diff s) (recv_rate s) v
  (avg_latency s) (latest_rtt s) (obs_start_time s).

Definition with_avg_latency (v : Q) (s : t) : t :=
  mk (id s) (delta_scale s) (starting_rate s) (rate s) (sent s) (acked s)
  (lost s) (bytes_in_flight s) (min_latency s) (rtt_samples s)
  (rtt_samples_ts s) (queue_delay_samples s) (prev_rtt_samples s) (path s)
  (dest s) (history_len s) (features s) (history s) (cwnd s) (use_cwnd s)
  (rto s) (pkt_loss_wait_time s) (estRTT s) (RTTVar s) (got_data s)
  (min_rtt s) (max_tput s) (start_stage s) (lat_diff s) (recv_rate s)
  (send_rate s) v (latest_rtt s) (obs_start_time s).

Definition with_latest_rtt (v : Q) (s : t) : t :=
  mk (id s) (delta_scale s) (starting_rate s) (rate s) (sent s) (acked s)
  (lost s) (bytes_in_flight s) (min_latency s) (rtt_samples s)
  (rtt_samples_ts s) (queue_delay_samples s) (prev_rtt_samples s) (path s)
  (dest s) (history_len s) (features s) (history s) (cwnd s) (use_cwnd s)
  (rto s) (pkt_loss_wait_time s) (estRTT s) (RTTVar s) (got_data s)
  (min_rtt s) (max_tput s) (start_stage s) (lat_diff s) (recv_rate s)
  (send_rate s) (avg_latency s) v (obs_start_time s).

Definition with_obs_start_time (v : Q) (s : t) : t :=
  mk (id s) (delta_scale s) (starting_rate s) (rate s) (sent s) (acked s)
  (lost s) (bytes_in_flight s) (min_latency s) (rtt_samples s)
  (rtt_samples_ts s) (queue_delay_samples s) (prev_rtt_samples s) (path s)
  (dest s) (history_len s) (features s) (history s) (cwnd s) (use_cwnd s)
  (rto s) (pkt_loss_wait_time s) (estRTT s) (RTTVar s) (got_data s)
  (min_rtt s) (max_tput s) (start_stage s) (lat_diff s) (recv_rate s)
  (send_rate s) (avg_latency s) (latest_rtt s) v.

(** [def __init__(self, rate, path, dest, features, cwnd=25,
                  history_len=10, delta_scale=1)];
    [sender_id] is the value [Sender._get_next_id()] returns. *)
Definition init (sender_id : Z) (rate : Q) (path : list nat) (dest : nat)
           (features : list string) (cwnd : Z) (history_len : nat)
           (delta_scale : Q) : t :=
  {| id := sender_id; delta_scale := delta_scale; starting_rate := rate;
     rate := rate; sent := 0; acked := 0; lost := 0; bytes_in_flight := 0;
     min_latency := None; rtt_samples := []; rtt_samples_ts := [];
     queue_delay_samples := []; prev_rtt_samples := [];
     path := path; dest := dest; history_len := history_len;
     features := features;
     history := SenderHistory_init history_len features sender_id;
     cwnd := cwnd; use_cwnd := false; rto := -1;
     pkt_loss_wait_time := -1; estRTT := 1000000 /' 1000000;
     RTTVar := (1000000 /' 1000000) /' 2; got_data := false;
     min_rtt := 10; max_tput := 0; start_stage := true; lat_diff := 0;
     recv_rate := 0; send_rate := 0; avg_latency := 0; latest_rtt := 0;
     obs_start_time := 0 |}.

(** [def set_rate(self, new_rate)]. *)
Definition set_rate (new_rate : Q) (s : t) : t :=
  let s := with_rate new_rate s in
  let s := if Qgtb (rate s) MAX_RATE then with_rate MAX_RATE s else s in
  if Qltb (rate s) MIN_RATE then with_rate MIN_RATE s else s.

(** [def apply_rate_delta(self, delta)]. *)
Definition apply_rate_delta (delta : Q) (s : t) : pyres t :=
  let delta := delta *' delta_scale s in
  if Qgeb delta 0
  then Ret (set_rate (rate s *' (1 +' delta)) s)
  else match py_div (rate s) (1 -' delta) with
       | Ret r => Ret (set_rate r s)
       | Exc e => Exc e
       end.

(** [int(x)] of a float: towards zero; [OverflowError] ("cannot convert
    float infinity to integer") when the float is an infinity. *)
Definition py_int (x : Q) : pyres Z :=
  if is_inf x then Exc OverflowError
  else Ret (Z.quot (Qnum x) (Zpos (Qden x))).

(** The nearest integer with 53 significant bits, ties to the even
    one: the value of [float(n)]. *)
Definition round_int (n : Z) : Z :=
  let a := Z.abs n in
  if (a <? 2 ^ 53)%Z then n
  else
    let k := (Z.log2 a - 52)%Z in
    let m := Z.shiftr a k in
    let r := (a - Z.shiftl m k)%Z in
    let half := (2 ^ (k - 1))%Z in
    let m' := if (half <? r)%Z || ((r =? half)%Z && Z.odd m)
              then (m + 1)%Z else m in
    (Z.sgn n * Z.shiftl m' k)%Z.

(** The float that [*] and [/] make of an [int] operand that meets a
    float: the nearest float, and [OverflowError] ("int too large to
    convert to float") beyond the floats. *)
Definition float_of_int (n : Z) : pyres Q :=
  if is_inf (inject_Z n) then Exc OverflowError
  else Ret (inject_Z (round_int n)).

(** [def set_cwnd(self, new_cwnd): self.cwnd = int(new_cwnd)]. *)
Definition set_cwnd (new_cwnd : Q) (s : t) : pyres t :=
  match py_int new_cwnd with
  | Ret c => Ret (with_cwnd c s)
  | Exc e => Exc e
  end.

(** [def apply_cwnd_delta(self, delta):
       delta *= self.delta_scale
       if delta >= 0.0:
           self.set_cwnd(self.cwnd * (1.0 + delta))
       else:
           self.set_cwnd(self.cwnd / (1.0 - delta))]
    [self.cwnd] is an [int].  When [delta] has overflowed to [inf], the
    product with a window of 0 is nan, on which [int()] raises
    [ValueError]; with any other window it is an infinity, as the rational
    product shows.  A [delta] of [-inf] divides the window down to 0.0,
    as the rational quotient does.  The sum, the product and the quotient
    themselves are exact, as everywhere in the simulator. *)
Definition apply_cwnd_delta (delta : Q) (s : t) : pyres t :=
  let delta := delta *' delta_scale s in
  if Qgeb delta 0
  then match float_of_int (cwnd s) with
       | Ret c =>
           if is_inf delta && Qeq_bool c 0 then Exc ValueError
           else set_cwnd (c *' (1 +' delta)) s
       | Exc e => Exc e
       end
  else match float_of_int (cwnd s) with
       | Ret c =>
           match py_div c (1 -' delta) with
           | Ret c' => set_cwnd c' s
           | Exc e => Exc e
           end
       | Exc e => Exc e
       end.

(** [def can_send_packet(self)]. *)
Definition can_send_packet (s : t) : pyres bool :=
  if use_cwnd s
  then match py_div (inject_Z (bytes_in_flight s))
                    (inject_Z BYTES_PER_PACKET) with
       | Ret x => Ret (Qltb x (inject_Z (cwnd s)))
       | Exc e => Exc e
       end
  else Ret true.

(** [def on_packet_sent(self)]. *)
Definition on_packet_sent (s : t) : t :=
  let s := with_sent (sent s + 1) s in
  with_bytes_in_flight (bytes_in_flight s + BYTES_PER_PACKET) s.

(** [def on_packet_acked(self, rtt)]; [now] is [self.net.get_cur_time()]. *)
Definition on_packet_acked (rtt now : Q) (s : t) : t :=
  let s := with_min_rtt (py_min (min_rtt s) rtt) s in
  let s := with_estRTT ((7 *' estRTT s +' rtt) /' 8) s in
  let s := with_RTTVar
             ((RTTVar s *' 7 +' Qabs (rtt -' estRTT s) *' 1) /' 8) s in
  let s := with_acked (acked s + 1) s in
  let s := with_rtt_samples (rtt_samples s ++ [rtt]) s in
  let s := with_rtt_samples_ts (rtt_samples_ts s ++ [now]) s in
  let s := match min_latency s with
           | None => with_min_latency (Some rtt) s
           | Some m => if Qltb rtt m then with_min_latency (Some rtt) s
                       else s
           end in
  let s := with_bytes_in_flight (bytes_in_flight s - BYTES_PER_PACKET) s in
  if negb (got_data s)
  then with_got_data (Nat.leb 1 (length (rtt_samples s))) s
  else s.

(** [def on_packet_lost(self, rtt)]. *)
Definition on_packet_lost (rtt : Q) (s : t) : t :=
  let s := with_lost (lost s + 1) s in
  with_bytes_in_flight (bytes_in_flight s - BYTES_PER_PACKET) s.

(** [def timeout(self): pass]. *)
Definition timeout (s : t) : t := s.

(** [def reset_obs(self)]. *)
Definition reset_obs (now : Q) (s : t) : t :=
  let s := with_sent 0 s in
  let s := with_acked 0 s in
  let s := with_lost 0 s in
  let s := match rtt_samples s with
           | [] => s
           | _ :: _ => with_prev_rtt_samples (rtt_samples s) s
           end in
  let s := with_rtt_samples [] s in
  let s := with_rtt_samples_ts [] s in
  let s := with_queue_delay_samples [] s in
  with_obs_start_time now s.

(** [def get_run_data(self)]; [now] is [self.net.get_cur_time()]. *)
Definition get_run_data (now : Q) (s : t) : pyres SenderMonitorInterval :=
  let obs_end_time := now in
  let rtt_samples_r :=
    match rtt_samples s, np_mean (prev_rtt_samples s) with
    | [], Some m => Ret [m]
    | _, _ => Ret (rtt_samples s)
    end in
  match rtt_samples_r with
  | Exc e => Exc e
  | Ret rtt_samples' =>
  let recv_start_r :=
    if Nat.leb 1 (length (rtt_samples s))
    then match history_back (history s) with
         | Ret mi => Ret (recv_end mi)
         | Exc e => Exc e
         end
    else Ret (obs_start_time s) in
  match recv_start_r with
  | Exc e => Exc e
  | Ret recv_start0 =>
  let recv_end_r :=
    if Nat.leb 1 (length (rtt_samples s))
    then py_last (rtt_samples_ts s)
    else Ret obs_end_time in
  match recv_end_r with
  | Exc e => Exc e
  | Ret recv_end' =>
  let bytes_acked0 := (acked s * BYTES_PER_PACKET)%Z in
  let fix_r :=
    if Qeq_bool recv_start0 0
    then match py_first (rtt_samples_ts s) with
         | Ret ts0 => Ret (ts0, ((acked s - 1) * BYTES_PER_PACKET)%Z)
         | Exc e => Exc e
         end
    else Ret (recv_start0, bytes_acked0) in
  match fix_r with
  | Exc e => Exc e
  | Ret (recv_start', bytes_acked') =>
      Ret {| mi_sender_id := id s;
             bytes_sent := (sent s * BYTES_PER_PACKET)%Z;
             bytes_acked := bytes_acked';
             bytes_lost := (lost s * BYTES_PER_PACKET)%Z;
             send_start := obs_start_time s;
             send_end := obs_end_time;
             recv_start := recv_start';
             recv_end := recv_end';
             mi_rtt_samples := rtt_samples';
             mi_queue_delay_samples := queue_delay_samples s;
             packet_size := BYTES_PER_PACKET |}
  end end end end.

(** [def record_run(self): smi = self.get_run_data();
                           self.history.step(smi)]. *)
Definition record_run (now : Q) (s : t) : pyres t :=
  match get_run_data now s with
  | Ret smi => Ret (with_history (history_step (history s) smi) s)
  | Exc e => Exc e
  end.

(** [def get_obs(self): return self.history.as_array()]. *)
Definition get_obs (s : t) : list Q := history_as_array (history s).

(** [def reset(self)]. *)
Definition reset (now : Q) (s : t) : t :=
  let s := with_rate (starting_rate s) s in
  let s := with_bytes_in_flight 0 s in
  let s := with_min_latency None s in
  let s := reset_obs now s in
  let s := with_history
             (SenderHistory_init (history_len s) (features s) (id s)) s in
  let s := with_estRTT (1000000 /' 1000000) s in
  let s := with_RTTVar (estRTT s /' 2) s in
  let s := with_got_data false s in
  let s := with_min_rtt 10 s in
  let s := with_max_tput 0 s in
  let s := with_start_stage true s in
  let s := with_lat_diff 0 s in
  let s := with_recv_rate 0 s in
  let s := with_send_rate 0 s in
  let s := with_avg_latency 0 s in
  with_latest_rtt 0 s.

End Sender.

End Sender.

(** ** [class Network] *)

Module Network.

(** A row of [self.pkt_log]:
    [[cur_time, event_id, kind, BYTES_PER_PACKET, cur_latency,
      event_queue_delay, links[0].pkt_in_queue, send rate, bandwidth]]. *)
Record PktLog : Type := mkLog {
  log_time : Q;
  log_event_id : Z;
  log_kind : string;
  log_size : Z;
  log_latency : Q;
  log_queue_delay : Q;
  log_pkt_in_queue : Q;
  log_send_rate : Q;
  log_bandwidth : Q
}.

(** The methods of the sender that the dispatcher calls. *)
Inductive callback : Type :=
| CB_on_packet_sent
| CB_on_packet_acked
| CB_on_packet_lost
| CB_timeout.

Section Network.
Context `{Constants} `{SenderObsClass} `{LinkClass} `{RandomClass}.

(** The attributes of the network that are its own. *)
Record t : Type := mk {
  event_count : Z;
  q : list Event.t;
  cur_time : Q;
  pkt_log : list PktLog;
  recv_rate_cache : list Q
}.

Definition with_event_count (v : Z) (n : t) : t :=
  mk v (q n) (cur_time n) (pkt_log n) (recv_rate_cache n).

Definition with_q (v : list Event.t) (n : t) : t :=
  mk (event_count n) v (cur_time n) (pkt_log n) (recv_rate_cache n).

Definition with_cur_time (v : Q) (n : t) : t :=
  mk (event_count n) (q n) v (pkt_log n) (recv_rate_cache n).

Definition with_pkt_log (v : list PktLog) (n : t) : t :=
  mk (event_count n) (q n) (cur_time n) v (recv_rate_cache n).

Definition with_recv_rate_cache (v : list Q) (n : t) : t :=
  mk (event_count n) (q n) (cur_time n) (pkt_log n) v.

(** The environment object, [self.env], with everything reachable from
    it.  [self.senders] and [self.links] are the same list objects in the
    network and in the environment whenever the network runs, so they are
    stored once, here; the environment builds one sender ([senders] is
    that sender).  [next_id] is the class attribute [Sender._next_id] and
    [np_random] the state of [numpy.random].  The reward accumulators
    ([reward_sum], [reward_ewma]) and the gym spaces are left out: nothing
    in the simulation reads them. *)
Record env : Type := mkEnv {
  config_file : bool;
  delta_scale : Q;
  traces : list Trace.t;
  current_trace : Trace.t;
  train_flag : bool;
  congestion_control_type : string;
  use_cwnd : bool;
  history_len : nat;
  features : list string;
  links : LinkWorld;
  senders : Sender.t;
  net : t;
  run_dur : option pyfloat;
  steps_taken : Z;
  episodes_run : Z;
  next_id : Z;
  np_random : RandomState
}.

Definition with_traces (v : list Trace.t) (e : env) : env :=
  mkEnv (config_file e) (delta_scale e) v (current_trace e) (train_flag e)
  (congestion_control_type e) (use_cwnd e) (history_len e) (features e)
  (links e) (senders e) (net e) (run_dur e) (steps_taken e)
  (episodes_run e) (next_id e) (np_random e).

Definition with_current_trace (v : Trace.t) (e : env) : env :=
  mkEnv (config_file e) (delta_scale e) (traces e) v (train_flag e)
  (congestion_control_type e) (use_cwnd e) (history_len e) (features e)
  (links e) (senders e) (net e) (run_dur e) (steps_taken e)
  (episodes_run e) (next_id e) (np_random e).

Definition with_links (v : LinkWorld) (e : env) : env :=
  mkEnv (config_file e) (delta_scale e) (traces e) (current_trace e)
  (train_flag e) (congestion_control_type e) (use_cwnd e) (history_len e)
  (features e) v (senders e) (net e) (run_dur e) (steps_taken e)
  (episodes_run e) (next_id e) (np_random e).

Definition with_senders (v : Sender.t) (e : env) : env :=
  mkEnv (config_file e) (delta_scale e) (traces e) (current_trace e)
  (train_flag e) (congestion_control_type e) (use_cwnd e) (history_len e)
  (features e) (links e) v (net e) (run_dur e) (steps_taken e)
  (episodes_run e) (next_id e) (np_random e).

Definition with_net (v : t) (e : env) : env :=
  mkEnv (config_file e) (delta_scale e) (traces e) (current_trace e)
  (train_flag e) (congestion_control_type e) (use_cwnd e) (history_len e)
  (features e) (links e) (senders e) v (run_dur e) (steps_taken e)
  (episodes_run e) (next_id e) (np_random e).

Definition with_run_dur (v : option pyfloat) (e : env) : env :=
  mkEnv (config_file e) (delta_scale e) (traces e) (current_trace e)
  (train_flag e) (congestion_control_type e) (use_cwnd e) (history_len e)
  (features e) (links e) (senders e) (net e) v (steps_taken e)
  (episodes_run e) (next_id e) (np_random e).

Definition with_steps_taken (v : Z) (e : env) : env :=
  mkEnv (config_file e) (delta_scale e) (traces e) (current_trace e)
  (train_flag e) (congestion_control_type e) (use_cwnd e) (history_len e)
  (features e) (links e) (senders e) (net e) (run_dur e) v (episodes_run e)
  (next_id e) (np_random e).

Definition with_episodes_run (v : Z) (e : env) : env :=
  mkEnv (config_file e) (delta_scale e) (traces e) (current_trace e)
  (train_flag e) (congestion_control_type e) (use_cwnd e) (history_len e)
  (features e) (links e) (senders e) (net e) (run_dur e) (steps_taken e) v
  (next_id e) (np_random e).

Definition with_next_id (v : Z) (e : env) : env :=
  mkEnv (config_file e) (delta_scale e) (traces e) (current_trace e)
  (train_flag e) (congestion_control_type e) (use_cwnd e) (history_len e)
  (features e) (links e) (senders e) (net e) (run_dur e) (steps_taken e)
  (episodes_run e) v (np_random e).

Definition with_np_random (v : RandomState) (e : env) : env :=
  mkEnv (config_file e) (delta_scale e) (traces e) (current_trace e)
  (train_flag e) (congestion_control_type e) (use_cwnd e) (history_len e)
  (features e) (links e) (senders e) (net e) (run_dur e) (steps_taken e)
  (episodes_run e) (next_id e) v.

Local Open Scope monad_scope.

Definition sender_do (f : Sender.t -> Sender.t) : M env unit :=
  modify (fun e => with_senders (f (senders e)) e).

Definition net_do (f : t -> t) : M env unit :=
  modify (fun e => with_net (f (net e)) e).

(** A call of a method of [Link]. *)
Definition link_call {A} (f : LinkWorld * Trace.t -> A * (LinkWorld * Trace.t))
  : M env A :=
  fun e =>
    let '(a, (l, tr)) := f (links e, current_trace e) in
    Ok a (with_links l (with_current_trace tr e)).

(** [def get_cur_time(self): return self.cur_time]. *)
Definition get_cur_time : M env Q := gets (fun e => cur_time (net e)).

(** [heapq.heappush(self.q, ev)]. *)
Definition push (ev : Event.t) : M env unit :=
  net_do (fun n => with_q (Event.heappush (q n) ev) n).

(** [def queue_initial_packets(self)], for the one sender. *)
Definition queue_initial_packets : M env unit :=
  now <- get_cur_time ;;
  sender_do (Sender.reset_obs now) ;;;
  e <- get ;;
  push (Event.mk 0 EVENT_TYPE_SEND 0 0 false (event_count (net e))
                 (Sender.rto (senders e)) 0) ;;;
  net_do (fun n => with_event_count (event_count n + 1) n).

(** [def __init__(self, senders, links, env)]: the environment has stored
    the senders and links already. *)
Definition init : M env unit :=
  net_do (fun _ => mk 0 [] 0 [] []) ;;;
  queue_initial_packets ;;;
  net_do (with_pkt_log []) ;;;
  net_do (with_recv_rate_cache []).

(** [def reset(self)]. *)
Definition reset : M env unit :=
  net_do (with_pkt_log []) ;;;
  net_do (with_cur_time 0) ;;;
  net_do (with_q []) ;;;
  link_call (fun w => (tt, Link_reset 0 w)) ;;;
  link_call (fun w => (tt, Link_reset 1 w)) ;;;
  now <- get_cur_time ;;
  sender_do (Sender.reset now) ;;;
  queue_initial_packets ;;;
  net_do (with_recv_rate_cache []).

(** [if not self.env.train_flag: self.pkt_log.append([...])]. *)
Definition log_packet (ev : Event.t) (kind : string) : M env unit :=
  e <- get ;;
  if train_flag e then ret tt
  else
    let now := cur_time (net e) in
    let piq := pkt_in_queue 0 (links e) in
    let sr := Sender.rate (senders e) *' inject_Z BYTES_PER_PACKET *' 8 in
    bw <- link_call (get_bandwidth 0 now) ;;
    net_do (fun n =>
      with_pkt_log
        (pkt_log n ++
         [mkLog now (Event.event_id ev) kind BYTES_PER_PACKET
                (Event.cur_latency ev) (Event.event_queue_delay ev) piq sr
                (bw *' inject_Z BYTES_PER_PACKET *' 8)]) n).

(** The branch [if event_type == EVENT_TYPE_ACK:] of the loop body. *)
Definition dispatch_ack (ev : Event.t) : M env (list callback) :=
  s <- gets senders ;;
  if Nat.eqb (Event.next_hop ev) (length (Sender.path s))
  then
    if Qgeb (Event.rto ev) 0
       && Qgtb (Event.cur_latency ev) (Event.rto ev)
       && Qle_bool (Sender.pkt_loss_wait_time s) 0
    then
      sender_do Sender.timeout ;;;
      ret [CB_timeout]
    else if Event.dropped ev
    then
      sender_do (Sender.on_packet_lost (Event.cur_latency ev)) ;;;
      log_packet ev "lost" ;;;
      ret [CB_on_packet_lost]
    else
      now <- get_cur_time ;;
      sender_do (Sender.on_packet_acked (Event.cur_latency ev) now) ;;;
      log_packet ev "acked" ;;;
      ret [CB_on_packet_acked]
  else
    log_packet ev "arrived" ;;;
    now <- get_cur_time ;;
    l <- lift (py_index (Sender.path s) (Event.next_hop ev)) ;;
    qd <- link_call (get_cur_queue_delay l now) ;;
    l' <- lift (py_index (Sender.path s) (Event.next_hop ev)) ;;
    link_latency <- link_call (get_cur_latency l' now) ;;
    push (Event.mk (Event.time ev +' link_latency) (Event.type ev)
                   (Event.next_hop ev + 1)
                   (Event.cur_latency ev +' link_latency)
                   (Event.dropped ev) (Event.event_id ev) (Event.rto ev)
                   (Event.event_queue_delay ev +' qd)) ;;;
    ret [].

(** The branch [elif event_type == EVENT_TYPE_SEND:] of the loop body. *)
Definition dispatch_send (ev : Event.t) (extra_delays : list Q)
  : M env (list Q * list callback) :=
  sent_now <-
    (if Nat.eqb (Event.next_hop ev) 0
     then
       s <- gets senders ;;
       can <- lift (Sender.can_send_packet s) ;;
       (if can : bool
        then sender_do Sender.on_packet_sent ;;; log_packet ev "sent"
        else ret tt) ;;;
       e <- get ;;
       gap <- lift (py_div 1 (Sender.rate (senders e))) ;;
       push (Event.mk (cur_time (net e) +' gap) EVENT_TYPE_SEND 0 0 false
                      (event_count (net e)) (Sender.rto (senders e)) 0) ;;;
       net_do (fun n => with_event_count (event_count n + 1) n) ;;;
       ret can
     else ret true) ;;
  s <- gets senders ;;
  let new_event_type :=
    if Nat.eqb (Event.next_hop ev) (Sender.dest s)
    then EVENT_TYPE_ACK else Event.type ev in
  now <- get_cur_time ;;
  l <- lift (py_index (Sender.path s) (Event.next_hop ev)) ;;
  qd <- link_call (get_cur_queue_delay l now) ;;
  l' <- lift (py_index (Sender.path s) (Event.next_hop ev)) ;;
  link_latency <- link_call (get_cur_latency l' now) ;;
  l'' <- lift (py_index (Sender.path s) (Event.next_hop ev)) ;;
  admitted <- link_call (packet_enters_link l'' now) ;;
  bw <- link_call (get_bandwidth 0 now) ;;
  extra <- lift (py_div 1 bw) ;;
  (if admitted : bool
   then sender_do (fun s =>
          Sender.with_queue_delay_samples
            (Sender.queue_delay_samples s
             ++ [Event.event_queue_delay ev +' qd]) s)
   else ret tt) ;;;
  (if sent_now : bool
   then push (Event.mk (Event.time ev +' link_latency) new_event_type
                       (Event.next_hop ev + 1)
                       (Event.cur_latency ev +' link_latency)
                       (negb admitted) (Event.event_id ev) (Event.rto ev)
                       (Event.event_queue_delay ev +' qd))
   else ret tt) ;;;
  ret (extra_delays ++ [extra],
       if Nat.eqb (Event.next_hop ev) 0 && sent_now
       then [CB_on_packet_sent] else []).

(** The body of the loop after [heapq.heappop]: the clock moves to the
    event and the event is dispatched.  The result is the list
    [extra_delays] and the sender methods that were called. *)
Definition dispatch_event (ev : Event.t) (extra_delays : list Q)
  : M env (list Q * list callback) :=
  net_do (with_cur_time (Event.time ev)) ;;;
  match Event.type ev with
  | EVENT_TYPE_ACK =>
      cbs <- dispatch_ack ev ;;
      ret (extra_delays, cbs)
  | EVENT_TYPE_SEND => dispatch_send ev extra_delays
  end.

(** [event_time >= end_time], false when [end_time] is nan. *)
Definition reached (end_time : pyfloat) (event_time : Q) : bool :=
  match end_time with
  | PyFloat x => Qgeb event_time x
  | PyNaN => false
  end.

(** [sender.got_data and event_time >= end_time
     and event_type == EVENT_TYPE_SEND], on [self.q[0]]. *)
Definition stops (e : env) (end_time : pyfloat) (hd : Event.t) : bool :=
  Sender.got_data (senders e)
  && reached end_time (Event.time hd)
  && Event.type_eqb (Event.type hd) EVENT_TYPE_SEND.

(** [while True:] of [run_for_dur]. *)
Fixpoint run_loop (fuel : nat) (end_time : pyfloat) (extra_delays : list Q)
  : M env (list Q) :=
  match fuel with
  | O => fun _ => OutOfFuel
  | S fuel' =>
      e <- get ;;
      hd <- lift (py_first (q (net e))) ;;
      if stops e end_time hd
      then
        net_do (with_cur_time (Event.time hd)) ;;;
        ret extra_delays
      else
        popped <- lift (Event.heappop (q (net e))) ;;
        net_do (with_q (snd popped)) ;;;
        r <- dispatch_event (fst popped) extra_delays ;;
        run_loop fuel' end_time (fst r)
  end.

(** [end_time = min(self.cur_time + dur,
                    self.env.current_trace.timestamps[-1])]. *)
Definition target_end_time (dur : option pyfloat) : M env pyfloat :=
  e <- get ;;
  match dur with
  | None => raise TypeError
  | Some d =>
      last_ts <- lift (py_last (Trace.timestamps (current_trace e))) ;;
      ret match d with
          | PyNaN => PyNaN
          | PyFloat d => PyFloat (py_min (cur_time (net e) +' d) last_ts)
          end
  end.

(** [run_for_dur] up to its loop: the interval is opened, the result is
    its target end time. *)
Definition open_interval (dur : option pyfloat) : M env pyfloat :=
  s <- gets senders ;;
  (if negb (Qeq_bool (Sender.lat_diff s) 0)
   then sender_do (Sender.with_start_stage false)
   else ret tt) ;;;
  end_time <- target_end_time dur ;;
  now <- get_cur_time ;;
  sender_do (Sender.reset_obs now) ;;;
  ret end_time.

(** [run_for_dur] up to the end of its loop. *)
Definition run_for_dur_events (fuel : nat) (dur : option pyfloat)
  : M env (list Q) :=
  end_time <- open_interval dur ;;
  run_loop fuel end_time [].

(** [self.recv_rate_cache.append(x);
     if len(self.recv_rate_cache) > 6: ... = self.recv_rate_cache[1:]]. *)
Definition cache_append (cache : list Q) (x : Q) : list Q :=
  let cache := cache ++ [x] in
  if Nat.ltb 6 (length cache) then tl cache else cache.

(** [run_for_dur] from [sender.record_run()] on: the interval is
    finalized and the sender's estimates are refreshed.  The reward that
    [run_for_dur] returns is [Utils.pcc_aurora_reward] of the interval's
    metrics; it is not stored and is left out. *)
Definition run_for_dur_finish (extra_delays : list Q) : M env unit :=
  now <- get_cur_time ;;
  s <- gets senders ;;
  s' <- lift (Sender.record_run now s) ;;
  sender_do (fun _ => s') ;;;
  sender_mi <- lift (history_back (Sender.history s')) ;;
  let latency := mi_get sender_mi "avg latency" in
  (if Qgtb latency 0
   then modify (with_run_dur
          (Some match np_mean extra_delays with
                | Some m =>
                    PyFloat (MI_RTT_PROPORTION
                             *' mi_get sender_mi "avg latency" +' m)
                | None => PyNaN
                end))
   else ret tt) ;;;
  sender_do (Sender.with_avg_latency (mi_get sender_mi "avg latency")) ;;;
  sender_do (Sender.with_recv_rate
               (py_round3 (mi_get sender_mi "recv rate"))) ;;;
  sender_do (Sender.with_send_rate
               (py_round3 (mi_get sender_mi "send rate"))) ;;;
  rtt_last <- lift (py_last (mi_rtt_samples sender_mi)) ;;
  rtt_first <- lift (py_first (mi_rtt_samples sender_mi)) ;;
  sender_do (Sender.with_lat_diff (rtt_last -' rtt_first)) ;;;
  rtt_last' <- lift (py_last (mi_rtt_samples sender_mi)) ;;
  sender_do (Sender.with_latest_rtt rtt_last') ;;;
  e <- get ;;
  net_do (with_recv_rate_cache
            (cache_append (recv_rate_cache (net e))
                          (Sender.recv_rate (senders e)))) ;;;
  e <- get ;;
  m <- lift (py_max_list (recv_rate_cache (net e))) ;;
  sender_do (Sender.with_max_tput m) ;;;
  s <- gets senders ;;
  if Qeq_bool (Sender.lat_diff s) 0 && Sender.start_stage s then ret tt
  else if Qeq_bool (Sender.lat_diff s) 0 && negb (Sender.start_stage s)
  then ret tt
  else if Qgtb (Sender.lat_diff s) 0
  then sender_do (Sender.with_start_stage false)
  else sender_do (Sender.with_start_stage false).

(** [def run_for_dur(self, dur, action=None)]. *)
Definition run_for_dur (fuel : nat) (dur : option pyfloat) : M env unit :=
  extra_delays <- run_for_dur_events fuel dur ;;
  run_for_dur_finish extra_delays.

End Network.

End Network.

(** ** [class SimulatedNetworkEnv] *)

Module SimulatedNetworkEnv.

Section Env.
Context `{Constants} `{SenderObsClass} `{LinkClass} `{RandomClass}.

Import Network.
Local Open Scope monad_scope.

Definition t : Type := Network.env.

(** [np.random.choice(self.traces)]. *)
Definition choose_trace : M env Trace.t :=
  e <- get ;;
  match traces e with
  | [] => raise ValueError
  | _ :: _ =>
      let '(i, g) := random_choice (np_random e) (length (traces e)) in
      modify (with_np_random g) ;;;
      lift (py_index (traces e) i)
  end.

(** A call of a method of [self.current_trace]. *)
Definition trace_call {A} (f : Trace.t -> pyres A * Trace.t) : M env A :=
  e <- get ;;
  let '(r, tr) := f (current_trace e) in
  modify (with_current_trace tr) ;;;
  lift r.

(** [def create_new_links_and_senders(self)].  The two branches on
    [self.train_flag] build the same sender. *)
Definition create_new_links_and_senders : M env unit :=
  link_call (fun w => (tt, Link_new w)) ;;;
  e <- get ;;
  (if String.eqb (congestion_control_type e) "aurora"
   then
     d <- trace_call (fun tr => Trace.get_delay tr 0) ;;
     rate <- lift (py_div 10 (d *' 2 /' 1000)) ;;
     e <- get ;;
     modify (with_next_id (next_id e + 1)) ;;;
     sender_do (fun _ =>
       Sender.init (next_id e) rate [0%nat; 1%nat] 0 (features e) 25
                   (history_len e) (delta_scale e))
   else if String.eqb (congestion_control_type e) "cubic"
   then raise NotImplementedError
   else raise RuntimeError) ;;;
  s <- gets senders ;;
  match Sender.rtt_samples s with
  | [] => modify (with_run_dur (Some (PyFloat (1 # 100))))
  | _ :: _ => ret tt
  end.

(** The object before [__init__] has assigned anything: the attributes
    that are arguments hold them, the others hold values that are
    overwritten before they are read. *)
Definition blank (w : LinkWorld) (g : RandomState) (first_id : Z)
           (traces : list Trace.t) (history_len : nat)
           (features : list string) (congestion_control_type : string)
           (train_flag : bool) (delta_scale : Q) (config_file : bool)
  : env :=
  {| config_file := config_file; delta_scale := delta_scale;
     traces := traces; current_trace := Trace.mk [] [] [] 0 0 0 0;
     train_flag := train_flag;
     congestion_control_type := congestion_control_type;
     use_cwnd := String.eqb congestion_control_type "cubic";
     history_len := history_len; features := features;
     links := w;
     senders := Sender.init 0 0 [] 0 features 25 history_len delta_scale;
     net := Network.mk 0 [] 0 [] [];
     run_dur := None; steps_taken := 0; episodes_run := -1;
     next_id := first_id; np_random := g |}.

(** [def __init__(self, traces, history_len=10, features=...,
                  congestion_control_type="aurora", train_flag=False,
                  delta_scale=1.0, config_file=None)], run on
    [blank]. *)
Definition init : M env unit :=
  e <- get ;;
  (if String.eqb (congestion_control_type e) "aurora"
      || String.eqb (congestion_control_type e) "cubic"
   then ret tt else raise AssertionError) ;;;
  tr <- choose_trace ;;
  modify (with_current_trace tr) ;;;
  create_new_links_and_senders ;;;
  Network.init ;;;
  modify (with_run_dur None) ;;;
  modify (with_steps_taken 0) ;;;
  modify (with_episodes_run (-1)).

(** [def _get_all_sender_obs(self)]. *)
Definition _get_all_sender_obs : M env (list Q) :=
  gets (fun e => Sender.get_obs (senders e)).

(** [def reset(self)]. *)
Definition reset (fuel : nat) : M env (list Q) :=
  modify (with_steps_taken 0) ;;;
  Network.reset ;;;
  tr <- choose_trace ;;
  modify (with_current_trace tr) ;;;
  modify (fun e => with_current_trace (Trace.reset (current_trace e)) e) ;;;
  create_new_links_and_senders ;;;
  Network.init ;;;
  modify (fun e => with_episodes_run (episodes_run e + 1) e) ;;;
  e <- get ;;
  (if train_flag e && config_file e
      && Z.eqb (episodes_run e mod 100) 0
   then
     let '(trs, g) := generate_traces (np_random e) in
     modify (with_traces trs) ;;;
     modify (with_np_random g)
   else ret tt) ;;;
  e <- get ;;
  Network.run_for_dur fuel (run_dur e) ;;;
  _get_all_sender_obs.

(** [def step(self, actions)]: the observation and [should_stop]. *)
Definition step (fuel : nat) (actions : list Q) : M env (list Q * bool) :=
  a0 <- lift (py_index actions 0) ;;
  s <- gets senders ;;
  s' <- lift (Sender.apply_rate_delta a0 s) ;;
  sender_do (fun _ => s') ;;;
  e <- get ;;
  (if use_cwnd e
   then
     a1 <- lift (py_index actions 1) ;;
     s <- gets senders ;;
     s' <- lift (Sender.apply_cwnd_delta a1 s) ;;
     sender_do (fun _ => s')
   else ret tt) ;;;
  e <- get ;;
  Network.run_for_dur fuel (run_dur e) ;;;
  modify (fun e => with_steps_taken (steps_taken e + 1) e) ;;;
  obs <- _get_all_sender_obs ;;
  now <- get_cur_time ;;
  should_stop <- trace_call (fun tr => (Trace.is_finished tr now, tr)) ;;
  ret (obs, should_stop).

End Env.

End SimulatedNetworkEnv.

(** ** An instance of the absent modules, for concrete runs *)

Module Example.

(** Values for [simulator/constants.py]: packets of 1500 bytes, rates
    between 5 and 20000 packets per second, a monitor interval of one
    round-trip time; [ack_first] is [EVENT_TYPE_ACK < EVENT_TYPE_SEND]. *)
Definition constants (ack_first : bool) : Constants :=
  {| BYTES_PER_PACKET := 1500;
     MAX_RATE := 20000;
     MIN_RATE := 5;
     MI_RTT_PROPORTION := 1;
     EVENT_TYPE_ACK_lt_SEND := ack_first;
     BYTES_PER_PACKET_pos := eq_refl |}.

(** Modelled from the spec: [common/sender_obs.py] is absent.  The
    history is the ring of the last [length] finalized intervals, padded
    with zero intervals while fewer exist (section 4.4, "zero-padding");
    [back] is the most recent one; the metrics are the derived quantities
    of section 3 ("receive rate, send rate, average latency, loss ratio"),
    rates in bits per second and the latency in seconds as the comments of
    [Network.run_for_dur] give their units; the feature vector of an
    interval is the list of its configured metrics. *)
Definition zero_mi (sender_id : Z) : SenderMonitorInterval :=
  mkMI sender_id 0 0 0 0 0 0 0 [] [] 1500.

Definition metric (mi : SenderMonitorInterval) (name : string) : Q :=
  if String.eqb name "recv rate"
  then if Qgtb (recv_end mi - recv_start mi) 0
       then Qred (8 * inject_Z (bytes_acked mi)
                  / (recv_end mi - recv_start mi))
       else 0
  else if String.eqb name "send rate"
  then if Qgtb (send_end mi - send_start mi) 0
       then Qred (8 * inject_Z (bytes_sent mi)
                  / (send_end mi - send_start mi))
       else 0
  else if String.eqb name "avg latency"
  then match np_mean (mi_rtt_samples mi) with
       | Some m => m
       | None => 0
       end
  else if String.eqb name "loss ratio"
  then if Z.ltb 0 (bytes_lost mi + bytes_acked mi)
       then Qred (inject_Z (bytes_lost mi)
                  / inject_Z (bytes_lost mi + bytes_acked mi))
       else 0
  else 0.

Record history : Type := mkHistory {
  h_features : list string;
  h_values : list SenderMonitorInterval
}.

Definition sender_obs : SenderObsClass :=
  {| SenderHistory := history;
     SenderHistory_init := fun len features sender_id =>
       mkHistory features (repeat (zero_mi sender_id) len);
     history_step := fun h mi =>
       mkHistory (h_features h) (tl (h_values h) ++ [mi]);
     history_back := fun h => py_last (h_values h);
     history_as_array := fun h =>
       flat_map (fun mi => map (metric mi) (h_features h)) (h_values h);
     mi_get := metric |}.

(** Modelled from the spec: [simulator/link.py] is absent.  A link has
    the capacity and the propagation delay of the trace at the time of the
    call (section 4.1), a queue of [queue_size] packets whose occupancy
    drains at the capacity, and drops a packet when the queue is full or
    when the next draw of the random generator is below the loss rate.  The
    latency of a hop is its propagation delay plus the queueing delay of the
    packets in its buffer (section 4.3, "added propagation + queueing
    delay").
    The capacity is in packets per second and the delay in seconds, as
    [Network.run_for_dur] uses them. *)
Record link_state : Type := mkLink {
  occupancy : Q;
  update_time : Q
}.

Record world : Type := mkWorld {
  link_objs : list link_state;
  draws : list Q
}.

Definition world_link (i : nat) (w : world) : link_state :=
  nth i (link_objs w) (mkLink 0 0).

Fixpoint set_nth {A} (i : nat) (x : A) (l : list A) : list A :=
  match l, i with
  | [], _ => []
  | _ :: l', O => x :: l'
  | y :: l', S i' => y :: set_nth i' x l'
  end.

Definition capacity (ts : Q) (tr : Trace.t) : Q * Trace.t :=
  match Trace.get_bandwidth tr ts with
  | (Ret mbps, tr') => (Qred (mbps * 1000000 / 8 / 1500), tr')
  | (Exc _, tr') => (0, tr')
  end.

Definition propagation (ts : Q) (tr : Trace.t) : Q * Trace.t :=
  match Trace.get_delay tr ts with
  | (Ret ms, tr') => (Qred (ms / 1000), tr')
  | (Exc _, tr') => (0, tr')
  end.

Definition drained (l : link_state) (ts bw : Q) : Q :=
  Qred (py_max 0 (occupancy l - (ts - update_time l) * bw)).

Definition link : LinkClass :=
  {| LinkWorld := world;
     Link_new := fun '(w, tr) =>
       (mkWorld [mkLink 0 0; mkLink 0 0] (draws w), tr);
     Link_reset := fun i '(w, tr) =>
       (mkWorld (set_nth i (mkLink 0 0) (link_objs w)) (draws w), tr);
     get_cur_queue_delay := fun i ts '(w, tr) =>
       let '(bw, tr') := capacity ts tr in
       (if Qeq_bool bw 0 then 0
        else Qred (drained (world_link i w) ts bw / bw),
        (w, tr'));
     get_cur_latency := fun i ts '(w, tr) =>
       let '(d, tr') := propagation ts tr in
       let '(bw, tr'') := capacity ts tr' in
       (Qred (d + (if Qeq_bool bw 0 then 0
                   else drained (world_link i w) ts bw / bw)),
        (w, tr''));
     packet_enters_link := fun i ts '(w, tr) =>
       let '(bw, tr') := capacity ts tr in
       let u := hd 1 (draws w) in
       let rest := tl (draws w) in
       if Qltb u (Trace.get_loss_rate tr')
       then (false, (mkWorld (link_objs w) rest, tr'))
       else
         let occ := drained (world_link i w) ts bw in
         if Qgtb (occ + 1) (inject_Z (Trace.get_queue_size tr'))
         then (false,
               (mkWorld (set_nth i (mkLink occ ts) (link_objs w)) rest, tr'))
         else (true,
               (mkWorld (set_nth i (mkLink (Qred (occ + 1)) ts) (link_objs w))
                        rest,
                tr'));
     get_bandwidth := fun i ts '(w, tr) =>
       let '(bw, tr') := capacity ts tr in (bw, (w, tr'));
     pkt_in_queue := fun i w => occupancy (world_link i w) |}.

(** [numpy.random] that always draws the first item and generates no
    trace. *)
Definition random : RandomClass :=
  {| RandomState := unit;
     random_choice := fun g _ => (O, g);
     generate_traces := fun g => ([], g) |}.

(** The scenario of section 8 of the specification: constant bandwidth
    10 Mbps, one-way delay 20 ms, no loss, a queue of 50 packets, for 10
    seconds. *)
Definition trace10 : Trace.t := Trace.mk [10] [10] [20] 0 50 0 0.

(** A trace whose bandwidth and delay change at 5 and at 10 seconds. *)
Definition stepped_trace : Trace.t :=
  Trace.mk [0; 5; 10] [10; 20; 30] [20; 30; 40] 0 50 0 0.

Section Runs.

Variable ack_first : bool.

#[local] Instance run_constants : Constants := constants ack_first.
#[local] Existing Instance sender_obs.
#[local] Existing Instance link.
#[local] Existing Instance random.

Definition env0 (features : list string) : Network.env :=
  SimulatedNetworkEnv.blank (mkWorld [] []) tt 1 [trace10] 10 features
    "aurora" false 1 false.

Definition init : M Network.env unit := SimulatedNetworkEnv.init.
Definition reset : nat -> M Network.env (list Q) := SimulatedNetworkEnv.reset.
Definition step : nat -> list Q -> M Network.env (list Q * bool) :=
  SimulatedNetworkEnv.step.
Definition run_for_dur : nat -> option pyfloat -> M Network.env unit :=
  Network.run_for_dur.
Definition run_for_dur_events
  : nat -> option pyfloat -> M Network.env (list Q) :=
  Network.run_for_dur_events.
Definition dispatch_event
  : Event.t -> list Q -> M Network.env (list Q * list Network.callback) :=
  Network.dispatch_event.

(** The state a call returns in, and the state itself when the call
    raises. *)
Definition state_after {A} (c : M Network.env A) (e : Network.env)
  : Network.env :=
  match c e with
  | Ok _ e' => e'
  | Raise _ e' => e'
  | OutOfFuel => e
  end.

Definition value_after {A} (d : A) (c : M Network.env A) (e : Network.env)
  : A :=
  match c e with
  | Ok a _ => a
  | _ => d
  end.

Definition returns {A} (c : M Network.env A) (e : Network.env) : bool :=
  match c e with
  | Ok _ _ => true
  | _ => false
  end.

(** An environment observed through its average latency, constructed and
    then reset. *)
Definition created : Network.env :=
  state_after init (env0 ["avg latency"%string]).
Definition started : Network.env := state_after (reset 100) created.

(** The same environment once the agent has asked for the largest cut of
    the rate, [apply_rate_delta(-1000)]. *)
Definition slowed : Network.env :=
  match Sender.apply_rate_delta (-1000) (Network.senders started) with
  | Ret s => Network.with_senders s started
  | Exc _ => started
  end.

(** The interval that [get_run_data] returns at the end of the loop of
    [run_for_dur(self.run_dur)]. *)
Definition interval (e : Network.env) : pyres SenderMonitorInterval :=
  let e1 := state_after (run_for_dur_events 1000 (Network.run_dur e)) e in
  Sender.get_run_data (Network.cur_time (Network.net e1))
                      (Network.senders e1).

(** The environment after the agent has multiplied the rate by four and
    one interval has run, and after one more interval. *)
Definition congested : Network.env := state_after (step 1000 [3]) started.
Definition next : Network.env :=
  state_after (run_for_dur 1000 (Network.run_dur congested)) congested.

(** The environment after an interval at the rate cut. *)
Definition after_cut : Network.env :=
  state_after (run_for_dur 1000 (Network.run_dur slowed)) slowed.

End Runs.

(** The pacing event at the head of the queue after the first reset. *)
Definition pacing_event : Event.t :=
  Event.mk (1 # 25) EVENT_TYPE_SEND 0 0 false 10 (-1) 0.

(** A packet that comes back to the sender marked as dropped. *)
Definition dropped_return : Event.t :=
  Event.mk (1 # 20) EVENT_TYPE_ACK 2 (1 # 25) true 3 (-1) 0.

(** The first [n] events that [heapq.heappop] takes from a queue. *)
Fixpoint dequeue (n : nat) (q : list Event.t) : list Event.t :=
  match n with
  | O => []
  | S n' =>
      match Event.heappop q with
      | Ret (ev, q') => ev :: dequeue n' q'
      | Exc _ => []
      end
  end.

(** What C4 speaks of: the time and the event id of an event. *)
Definition time_and_id (ev : Event.t) : Q * Z :=
  (Event.time ev, Event.event_id ev).

End Example.

(** * Theorems *)

(** ** The reward *)

(** C1 fails as stated: called with Python [float]s and an average
    bandwidth of 0.0, [pcc_aurora_reward] raises [ZeroDivisionError] and
    returns nothing. *)
Lemma pcc_aurora_reward_raises_on_zero_avg_bw :
  Utils.pcc_aurora_reward (Utils.py_float 250) (Utils.py_float 0.5)
                          (Utils.py_float 0.25) (Some (Utils.py_float 0))
                          None
  = Exc ZeroDivisionError
  /\ Utils.pcc_aurora_reward (Utils.py_float 250) (Utils.py_float 0.5)
                             (Utils.py_float 0.25)
                             (Some (Utils.py_float (-0))) None
     = Exc ZeroDivisionError.
Proof. split; vm_compute; reflexivity. Qed.

(** C1, as the code has it: for every throughput, latency, loss ratio and
    non-None average bandwidth, [pcc_aurora_reward] returns exactly
    [500 * throughput / avg_bw - 1000 * latency - 2000 * loss], evaluated in
    binary64 as Python does, unless the division is one of two Python
    [float]s by a zero: then, and only then, it raises
    [ZeroDivisionError].  With a [numpy.float64] throughput or average
    bandwidth, as the callers in the repository pass, a zero bandwidth
    gives the infinity or nan of the same formula.  [min_rtt] has no
    effect. *)
Theorem pcc_aurora_reward_formula :
  forall (throughput latency loss avg_bw : Utils.num)
         (min_rtt : option Utils.num),
    (Utils.numpy throughput || Utils.numpy avg_bw
     || negb (Utils.value avg_bw =? 0)%float = true ->
     exists r,
       Utils.pcc_aurora_reward throughput latency loss (Some avg_bw) min_rtt
       = Ret r
       /\ Utils.value r
          = (500 * Utils.value throughput / Utils.value avg_bw
             - 1000 * Utils.value latency
             - 2000 * Utils.value loss)%float)
    /\ (Utils.numpy throughput = false ->
        Utils.numpy avg_bw = false ->
        (Utils.value avg_bw =? 0)%float = true ->
        Utils.pcc_aurora_reward throughput latency loss (Some avg_bw) min_rtt
        = Exc ZeroDivisionError)
    /\ Utils.pcc_aurora_reward throughput latency loss (Some avg_bw) min_rtt
       = Utils.pcc_aurora_reward throughput latency loss (Some avg_bw) None.
Proof.
  intros throughput latency loss avg_bw min_rtt.
  unfold Utils.pcc_aurora_reward, Utils.truediv, Utils.mul, Utils.of_int,
    Utils.py_float.
  cbn [Utils.numpy Utils.value orb negb andb].
  repeat (apply conj).
  - intros Hk.
    destruct (Utils.numpy throughput), (Utils.numpy avg_bw),
      (Utils.value avg_bw =? 0)%float;
      try discriminate Hk; cbn [negb andb orb];
      eexists; (split; [reflexivity | reflexivity]).
  - intros Ht Hb Hz. rewrite Ht, Hb, Hz. reflexivity.
  - reflexivity.
Qed.


(** ** The trace constructor *)

(** C8 fails as stated: a trace whose [delays] list is shorter than its
    [timestamps], and a trace with no timestamp at all, are both
    constructed. *)
Lemma Trace_init_accepts_uneven_delays_and_empty_lists :
  Trace.init [0; 10] [10; 10] [20] 0 50
  = Ret (Trace.mk [0; 10] [10; 10] [20] 0 50 0 0)
  /\ Trace.init [] [] [] 0 50 = Ret (Trace.mk [] [] [] 0 50 0 0).
Proof. split; reflexivity. Qed.

(** C8, amended: [Trace.__init__] raises (an [AssertionError]) exactly when
    [timestamps] and [bandwidths] differ in length; the length of [delays]
    is not checked, and the trace is built from the arguments as given. *)
Theorem Trace_init_checks_bandwidths_only :
  forall (timestamps bandwidths delays : list Q) (loss_rate : Q)
         (queue_size : Z),
    (length timestamps <> length bandwidths ->
     Trace.init timestamps bandwidths delays loss_rate queue_size
     = Exc AssertionError)
    /\ (length timestamps = length bandwidths ->
        Trace.init timestamps bandwidths delays loss_rate queue_size
        = Ret (Trace.mk timestamps bandwidths delays loss_rate queue_size
                        0 0)).
Proof.
  intros ts bw dl lr qs. unfold Trace.init.
  destruct (Nat.eqb_spec (length ts) (length bw)) as [E | E]; split; intro E';
    try reflexivity; contradiction.
Qed.

(** ** Reasoning about stateful code *)

(** [wp c Q R s]: run from [s], [c] returns a value and a state that
    satisfy [Q], or raises in a state that satisfies [R]; it does not run
    out of fuel.  It is used for the code outside the event loop. *)
Definition wp {S A} (c : M S A) (Q : A -> S -> Prop) (R : S -> Prop) (s : S)
  : Prop :=
  match c s with
  | Ok a s' => Q a s'
  | Raise _ s' => R s'
  | OutOfFuel => False
  end.

Lemma wp_ret {S A} (a : A) (Q : A -> S -> Prop) R s :
  Q a s -> wp (ret a) Q R s.
Proof. exact (fun q => q). Qed.

Lemma wp_bind {S A B} (c : M S A) (k : A -> M S B) Q R s :
  wp c (fun a s' => wp (k a) Q R s') R s -> wp (bind c k) Q R s.
Proof.
  unfold wp, bind. destruct (c s); auto.
Qed.

Lemma wp_get {S} (Q : S -> S -> Prop) R s : Q s s -> wp get Q R s.
Proof. exact (fun q => q). Qed.

Lemma wp_gets {S A} (f : S -> A) (Q : A -> S -> Prop) R s :
  Q (f s) s -> wp (gets f) Q R s.
Proof. exact (fun q => q). Qed.

Lemma wp_modify {S} (f : S -> S) (Q : unit -> S -> Prop) R s :
  Q tt (f s) -> wp (modify f) Q R s.
Proof. exact (fun q => q). Qed.

Lemma wp_raise {S A} (e : exn) (Q : A -> S -> Prop) (R : S -> Prop) s :
  R s -> wp (raise e) Q R s.
Proof. exact (fun r => r). Qed.

Lemma wp_lift {S A} (r : pyres A) (Q : A -> S -> Prop) (R : S -> Prop) s :
  (forall a, r = Ret a -> Q a s) ->
  (forall e, r = Exc e -> R s) ->
  wp (lift r) Q R s.
Proof.
  intros HQ HR. destruct r as [a | e]; cbn; [apply HQ | apply (HR e)];
    reflexivity.
Qed.

Lemma wp_weaken {S A} (c : M S A) (Q Q' : A -> S -> Prop) (R R' : S -> Prop) s :
  wp c Q R s ->
  (forall a s', Q a s' -> Q' a s') ->
  (forall s', R s' -> R' s') ->
  wp c Q' R' s.
Proof.
  unfold wp. destruct (c s); auto.
Qed.

Lemma wp_returns {S A} (c : M S A) (Q : A -> S -> Prop) s :
  wp c Q (fun _ => False) s -> exists a s', c s = Ok a s' /\ Q a s'.
Proof.
  unfold wp. destruct (c s) as [a s' | e s' | ]; intros W;
    [exists a, s'; auto | contradiction | contradiction].
Qed.

Lemma wp_ok {S A} {c : M S A} {Q R s a s'} :
  wp c Q R s -> c s = Ok a s' -> Q a s'.
Proof. unfold wp. intros W E. rewrite E in W. exact W. Qed.

Lemma wp_raised {S A} {c : M S A} {Q R s e s'} :
  wp c Q R s -> c s = Raise e s' -> R s'.
Proof. unfold wp. intros W E. rewrite E in W. exact W. Qed.

Section NetworkFacts.
Context `{Constants} `{SenderObsClass} `{LinkClass} `{RandomClass}.
Import Network.

Lemma wp_link_call {A} (f : LinkWorld * Trace.t -> A * (LinkWorld * Trace.t))
      (Q : A -> env -> Prop) R e :
  (forall a l tr, f (links e, current_trace e) = (a, (l, tr)) ->
                  Q a (with_links l (with_current_trace tr e))) ->
  wp (link_call f) Q R e.
Proof.
  intros HQ. unfold wp, link_call.
  destruct (f (links e, current_trace e)) as [a [l tr]] eqn:E.
  apply HQ. reflexivity.
Qed.

(** Logging touches the log, and the links and the trace through
    [get_bandwidth]; nothing else. *)
Lemma wp_log_packet (ev : Event.t) (kind : string) (Q : unit -> env -> Prop)
      R e :
  (forall l tr pl,
      Q tt (with_net (with_pkt_log pl (net e))
                     (with_links l (with_current_trace tr e)))) ->
  wp (log_packet ev kind) Q R e.
Proof.
  intros HQ. unfold log_packet.
  apply wp_bind, wp_get.
  destruct (train_flag e) eqn:T.
  - apply wp_ret.
    specialize (HQ (links e) (current_trace e) (pkt_log (net e))).
    destruct e as [? ? ? ? ? ? ? ? ? ? ? n ? ? ? ? ?]; destruct n; exact HQ.
  - apply wp_bind, wp_link_call. intros bw l tr E.
    unfold net_do. apply wp_modify. cbn. apply HQ.
Qed.

End NetworkFacts.

(** One step of symbolic execution of monadic code of the network. *)
Ltac wp_step :=
  lazymatch goal with
  | |- wp (bind _ _) _ _ _ => apply wp_bind
  | |- wp (ret _) _ _ _ => apply wp_ret
  | |- wp get _ _ _ => apply wp_get
  | |- wp (gets _) _ _ _ => apply wp_gets
  | |- wp (modify _) _ _ _ => apply wp_modify
  | |- wp (raise _) _ _ _ => apply wp_raise
  | |- wp (Network.log_packet _ _) _ _ _ =>
      apply wp_log_packet; intros ? ? ?
  | |- wp (Network.link_call _) _ _ _ =>
      apply wp_link_call; intros ? ? ? ?
  | |- wp (lift _) _ _ _ => apply wp_lift; [intros ? ? | intros ? ?]
  end.

Ltac wp_case :=
  lazymatch goal with
  | |- wp (if ?b then _ else _) _ _ _ =>
      let E := fresh "E" in destruct b eqn:E
  | |- wp (match ?x with _ => _ end) _ _ _ =>
      let E := fresh "E" in destruct x eqn:E
  end.

Ltac wp_go := repeat (wp_step || wp_case).

Ltac wp_unfold :=
  unfold Network.push, Network.sender_do, Network.net_do,
    Network.get_cur_time.

(** Projections of updated environments and networks. *)
Ltac env_simpl :=
  cbn [Network.q Network.net Network.senders Network.links
       Network.current_trace Network.run_dur Network.event_count
       Network.cur_time Network.pkt_log Network.recv_rate_cache
       Network.traces Network.train_flag Network.steps_taken
       Network.episodes_run Network.next_id Network.np_random
       Network.config_file Network.delta_scale
       Network.congestion_control_type Network.use_cwnd
       Network.history_len Network.features
       Network.with_net Network.with_q Network.with_senders
       Network.with_links Network.with_current_trace Network.with_run_dur
       Network.with_event_count Network.with_cur_time Network.with_pkt_log
       Network.with_recv_rate_cache Network.with_traces
       Network.with_steps_taken Network.with_episodes_run
       Network.with_next_id Network.with_np_random] in *.

(** ** The event queue *)

Section QueueFacts.
Context `{Constants}.

Lemma heappush_In (q : list Event.t) (x y : Event.t) :
  In y (Event.heappush q x) <-> y = x \/ In y q.
Proof.
  induction q as [| z q IH]; cbn.
  - intuition congruence.
  - destruct (Event.ltb x z); cbn; [| rewrite IH]; intuition congruence.
Qed.

Lemma heappush_Forall (P : Event.t -> Prop) (q : list Event.t) (x : Event.t) :
  Forall P (Event.heappush q x) <-> P x /\ Forall P q.
Proof.
  rewrite !Forall_forall. split.
  - intros HP. split; [| intros y Hy]; apply HP, heappush_In; auto.
  - intros [Hx Hq] y Hy. apply heappush_In in Hy as [-> | Hy]; auto.
Qed.

Lemma heappush_Permutation (q : list Event.t) (x : Event.t) :
  Permutation (x :: q) (Event.heappush q x).
Proof.
  induction q as [| z q IH]; cbn.
  - reflexivity.
  - destruct (Event.ltb x z); [reflexivity |].
    rewrite perm_swap. apply perm_skip, IH.
Qed.

End QueueFacts.

(** ** One dispatch *)

Section DispatchFacts.
Context `{Constants} `{SenderObsClass} `{LinkClass} `{RandomClass}.
Import Network.

Lemma py_div_nonzero (a b : Q) :
  ~ b == 0 -> py_div a b = Ret (a /' b).
Proof.
  intros Hb. unfold py_div.
  destruct (Qeq_bool b 0) eqn:E; [| reflexivity].
  apply Qeq_bool_iff in E. contradiction.
Qed.

Lemma can_send_packet_returns (s : Sender.t) :
  exists b, Sender.can_send_packet s = Ret b.
Proof.
  unfold Sender.can_send_packet.
  destruct (Sender.use_cwnd s); [| eexists; reflexivity].
  rewrite py_div_nonzero; [eexists; reflexivity |].
  pose proof BYTES_PER_PACKET_pos as Hpos.
  unfold Qeq. cbn. lia.
Qed.

(** C7: an ACK event at the final hop whose dropped flag is set never
    reaches [on_packet_acked] (the acked counter and the RTT samples are
    unchanged) and calls exactly one of [timeout] and [on_packet_lost]. *)
Theorem dropped_packet_is_lost_or_timed_out :
  forall (e : env) (ev : Event.t) (extra_delays : list Q),
    Event.type ev = EVENT_TYPE_ACK ->
    Event.next_hop ev = length (Sender.path (senders e)) ->
    Event.dropped ev = true ->
    exists cbs e',
      dispatch_event ev extra_delays e = Ok (extra_delays, cbs) e'
      /\ Sender.acked (senders e') = Sender.acked (senders e)
      /\ Sender.rtt_samples (senders e') = Sender.rtt_samples (senders e)
      /\ ((cbs = [CB_timeout]
           /\ Sender.lost (senders e') = Sender.lost (senders e))
          \/ (cbs = [CB_on_packet_lost]
              /\ Sender.lost (senders e') = (Sender.lost (senders e) + 1)%Z)).
Proof.
  intros e ev xd Hty Hhop Hdrop.
  assert (W : wp (dispatch_event ev xd)
                 (fun r e' =>
                    fst r = xd
                    /\ Sender.acked (senders e') = Sender.acked (senders e)
                    /\ Sender.rtt_samples (senders e')
                       = Sender.rtt_samples (senders e)
                    /\ ((snd r = [CB_timeout]
                         /\ Sender.lost (senders e') = Sender.lost (senders e))
                        \/ (snd r = [CB_on_packet_lost]
                            /\ Sender.lost (senders e')
                               = (Sender.lost (senders e) + 1)%Z)))
                 (fun _ => False) e).
  { unfold dispatch_event, dispatch_ack. wp_unfold. rewrite Hty.
    do 5 wp_step. env_simpl. rewrite Hhop, Nat.eqb_refl, Hdrop.
    wp_go; env_simpl; cbn; auto 10. }
  apply wp_returns in W as ([xd' cbs] & e' & E & Hxd & Hacked & Hrtt & Hcb).
  cbn in Hxd, Hcb. subst xd'. exists cbs, e'. auto.
Qed.

(** C5: dispatching a SEND event at hop 0 at time [t] for a sender of rate
    [r] pushes the SEND event at hop 0 of time [t + 1/r], whatever
    [can_send_packet] answers and whether or not the link admits the packet:
    the successor is in the queue when the dispatch returns, and also when a
    later statement of the dispatch raises. *)
Theorem send_always_schedules_successor :
  forall (e : env) (ev : Event.t) (extra_delays : list Q),
    Event.type ev = EVENT_TYPE_SEND ->
    Event.next_hop ev = 0%nat ->
    ~ Sender.rate (senders e) == 0 ->
    exists t : Q,
      t == Event.time ev + 1 / Sender.rate (senders e)
      /\ match dispatch_event ev extra_delays e with
         | Ok _ e' | Raise _ e' =>
             In (Event.mk t EVENT_TYPE_SEND 0 0 false (event_count (net e))
                          (Sender.rto (senders e)) 0)
                (q (net e'))
         | OutOfFuel => False
         end.
Proof.
  intros e ev xd Hty Hhop Hrate.
  exists (Event.time ev +' 1 /' Sender.rate (senders e)). split.
  { unfold Qplus', Qdiv'. rewrite !Qred_correct. reflexivity. }
  set (succ := Event.mk _ _ _ _ _ _ _ _).
  assert (W : wp (dispatch_event ev xd)
                 (fun _ e' => In succ (q (net e')))
                 (fun e' => In succ (q (net e'))) e).
  { unfold dispatch_event, dispatch_send. wp_unfold. rewrite Hty, Hhop.
    cbn [Nat.eqb].
    wp_go; env_simpl.
    all: cbn [Sender.rate Sender.rto Sender.on_packet_sent Sender.with_sent
              Sender.with_bytes_in_flight Sender.with_queue_delay_samples] in *.
    all: try match goal with
         | Hc : Sender.can_send_packet ?s = Exc _ |- _ =>
             destruct (can_send_packet_returns s); congruence
         | Hd : py_div 1 (Sender.rate _) = _ |- _ =>
             rewrite (@py_div_nonzero 1 _ Hrate) in Hd; inversion Hd; subst
         end.
    all: repeat (apply heappush_In; first [left; reflexivity | right]).
    }
  unfold wp in W. destruct (dispatch_event ev xd e); auto.
Qed.
End DispatchFacts.

(** ** The order of the heap *)

(** A boolean strict order together with its equivalence, as [<] and [==]
    are on the items of a tuple. *)
Record strict_order {A : Type} (eqb ltb : A -> A -> bool) : Prop := {
  so_refl : forall a, eqb a a = true;
  so_sym : forall a b, eqb a b = true -> eqb b a = true;
  so_eq_trans : forall a b c, eqb a b = true -> eqb b c = true -> eqb a c = true;
  so_irrefl : forall a b, eqb a b = true -> ltb a b = false;
  so_trans : forall a b c, ltb a b = true -> ltb b c = true -> ltb a c = true;
  so_lt_eq : forall a b c, ltb a b = true -> eqb b c = true -> ltb a c = true;
  so_eq_lt : forall a b c, eqb a b = true -> ltb b c = true -> ltb a c = true
}.

Lemma Qltb_lt (a b : Q) : Qltb a b = true <-> a < b.
Proof.
  unfold Qltb. rewrite negb_true_iff.
  destruct (Qle_bool b a) eqn:E.
  - apply Qle_bool_iff in E. split; [discriminate | lra].
  - split; [intros _ | reflexivity].
    destruct (Qlt_le_dec a b) as [L | L]; [exact L |].
    apply Qle_bool_iff in L. congruence.
Qed.

Lemma Q_strict_order : strict_order Qeq_bool Qltb.
Proof.
  split; intros.
  - apply Qeq_bool_iff. reflexivity.
  - apply Qeq_bool_iff. apply Qeq_bool_iff in H. lra.
  - apply Qeq_bool_iff. apply Qeq_bool_iff in H, H0. lra.
  - apply Qeq_bool_iff in H. apply not_true_is_false. rewrite Qltb_lt. lra.
  - apply Qltb_lt. apply Qltb_lt in H, H0. lra.
  - apply Qltb_lt. apply Qltb_lt in H. apply Qeq_bool_iff in H0. lra.
  - apply Qltb_lt. apply Qltb_lt in H0. apply Qeq_bool_iff in H. lra.
Qed.

Lemma nat_strict_order : strict_order Nat.eqb Nat.ltb.
Proof.
  split; intros;
    repeat match goal with
           | H : Nat.eqb _ _ = true |- _ => apply Nat.eqb_eq in H
           | H : Nat.ltb _ _ = true |- _ => apply Nat.ltb_lt in H
           | |- Nat.eqb _ _ = true => apply Nat.eqb_eq
           | |- Nat.ltb _ _ = true => apply Nat.ltb_lt
           | |- Nat.ltb _ _ = false => apply Nat.ltb_ge
           end; lia.
Qed.

Lemma Z_strict_order : strict_order Z.eqb Z.ltb.
Proof.
  split; intros;
    repeat match goal with
           | H : Z.eqb _ _ = true |- _ => apply Z.eqb_eq in H
           | H : Z.ltb _ _ = true |- _ => apply Z.ltb_lt in H
           | |- Z.eqb _ _ = true => apply Z.eqb_eq
           | |- Z.ltb _ _ = true => apply Z.ltb_lt
           | |- Z.ltb _ _ = false => apply Z.ltb_ge
           end; lia.
Qed.

Lemma bool_strict_order :
  strict_order Bool.eqb (fun a b => negb a && b).
Proof.
  split; intros; repeat match goal with b : bool |- _ => destruct b end;
    cbn in *; congruence.
Qed.

Section QueueOrder.
Context `{Constants}.

Lemma type_strict_order : strict_order Event.type_eqb Event.type_ltb.
Proof.
  split; intros;
    repeat match goal with t : event_type |- _ => destruct t end;
    cbn in *; try congruence;
    destruct EVENT_TYPE_ACK_lt_SEND; cbn in *; congruence.
Qed.

(** The order of tuples whose first item is [f] and whose other items are
    ordered by [ltr]. *)
Definition lex_eq {A} (f : Event.t -> A) (eqA : A -> A -> bool)
           (eqr : Event.t -> Event.t -> bool) (a b : Event.t) : bool :=
  eqA (f a) (f b) && eqr a b.

Definition lex_lt {A} (f : Event.t -> A) (eqA ltA : A -> A -> bool)
           (ltr : Event.t -> Event.t -> bool) (a b : Event.t) : bool :=
  if negb (eqA (f a) (f b)) then ltA (f a) (f b) else ltr a b.

Lemma lex_strict_order {A} (f : Event.t -> A) (eqA ltA : A -> A -> bool)
      (eqr ltr : Event.t -> Event.t -> bool) :
  strict_order eqA ltA -> strict_order eqr ltr ->
  strict_order (lex_eq f eqA eqr) (lex_lt f eqA ltA ltr).
Proof.
  intros [r1 s1 t1 i1 tr1 le1 el1] [r2 s2 t2 i2 tr2 le2 el2].
  unfold lex_eq, lex_lt.
  split.
  - intros a. rewrite r1, r2. reflexivity.
  - intros a b E. apply andb_true_iff in E as [E1 E2].
    rewrite (s1 _ _ E1), (s2 _ _ E2). reflexivity.
  - intros a b c E E'. apply andb_true_iff in E as [E1 E2].
    apply andb_true_iff in E' as [E1' E2'].
    rewrite (t1 _ _ _ E1 E1'), (t2 _ _ _ E2 E2'). reflexivity.
  - intros a b E. apply andb_true_iff in E as [E1 E2].
    rewrite E1. cbn. exact (i2 _ _ E2).
  - intros a b c L L'.
    destruct (eqA (f a) (f b)) eqn:Eab; cbn in L;
      destruct (eqA (f b) (f c)) eqn:Ebc; cbn in L'.
    + rewrite (t1 _ _ _ Eab Ebc). cbn. exact (tr2 _ _ _ L L').
    + destruct (eqA (f a) (f c)) eqn:Eac; cbn.
      * rewrite (t1 _ _ _ (s1 _ _ Eab) Eac) in Ebc. discriminate.
      * exact (el1 _ _ _ Eab L').
    + destruct (eqA (f a) (f c)) eqn:Eac; cbn.
      * rewrite (t1 _ _ _ Eac (s1 _ _ Ebc)) in Eab. discriminate.
      * exact (le1 _ _ _ L Ebc).
    + destruct (eqA (f a) (f c)) eqn:Eac; cbn.
      * pose proof (tr1 _ _ _ L L') as L2. rewrite (i1 _ _ Eac) in L2.
        discriminate.
      * exact (tr1 _ _ _ L L').
  - intros a b c L E. apply andb_true_iff in E as [E1 E2].
    destruct (eqA (f a) (f b)) eqn:Eab; cbn in L.
    + rewrite (t1 _ _ _ Eab E1). cbn. exact (le2 _ _ _ L E2).
    + destruct (eqA (f a) (f c)) eqn:Eac; cbn.
      * rewrite (t1 _ _ _ Eac (s1 _ _ E1)) in Eab. discriminate.
      * exact (le1 _ _ _ L E1).
  - intros a b c E L. apply andb_true_iff in E as [E1 E2].
    destruct (eqA (f b) (f c)) eqn:Ebc; cbn in L.
    + rewrite (t1 _ _ _ E1 Ebc). cbn. exact (el2 _ _ _ E2 L).
    + destruct (eqA (f a) (f c)) eqn:Eac; cbn.
      * rewrite (t1 _ _ _ (s1 _ _ E1) Eac) in Ebc. discriminate.
      * exact (el1 _ _ _ E1 L).
Qed.

Lemma trivial_strict_order :
  strict_order (fun _ _ : Event.t => true) (fun _ _ => false).
Proof. split; auto. Qed.

(** [==] on the tuples of the heap. *)
Definition tuple_eqb : Event.t -> Event.t -> bool :=
  lex_eq Event.time Qeq_bool
    (lex_eq Event.type Event.type_eqb
       (lex_eq Event.next_hop Nat.eqb
          (lex_eq Event.cur_latency Qeq_bool
             (lex_eq Event.dropped Bool.eqb
                (lex_eq Event.event_id Z.eqb
                   (lex_eq Event.rto Qeq_bool
                      (lex_eq Event.event_queue_delay Qeq_bool
                         (fun _ _ => true)))))))).

Definition tuple_ltb : Event.t -> Event.t -> bool :=
  lex_lt Event.time Qeq_bool Qltb
    (lex_lt Event.type Event.type_eqb Event.type_ltb
       (lex_lt Event.next_hop Nat.eqb Nat.ltb
          (lex_lt Event.cur_latency Qeq_bool Qltb
             (lex_lt Event.dropped Bool.eqb (fun x y => negb x && y)
                (lex_lt Event.event_id Z.eqb Z.ltb
                   (lex_lt Event.rto Qeq_bool Qltb
                      (lex_lt Event.event_queue_delay Qeq_bool Qltb
                         (fun _ _ => false)))))))).

Lemma ltb_lex (a b : Event.t) : Event.ltb a b = tuple_ltb a b.
Proof. reflexivity. Qed.

Lemma tuple_strict_order : strict_order tuple_eqb tuple_ltb.
Proof.
  unfold tuple_eqb, tuple_ltb.
  repeat (apply lex_strict_order;
          [first [apply Q_strict_order | apply type_strict_order
                 | apply nat_strict_order | apply bool_strict_order
                 | apply Z_strict_order] |]).
  apply trivial_strict_order.
Qed.

Lemma ltb_trans (a b c : Event.t) :
  Event.ltb a b = true -> Event.ltb b c = true -> Event.ltb a c = true.
Proof.
  change (tuple_ltb a b = true -> tuple_ltb b c = true -> tuple_ltb a c = true).
  apply (so_trans tuple_strict_order).
Qed.

Lemma ltb_asym (a b : Event.t) :
  Event.ltb a b = true -> Event.ltb b a = false.
Proof.
  change (tuple_ltb a b = true -> tuple_ltb b a = false). intros L.
  destruct (tuple_ltb b a) eqn:L'; [| reflexivity].
  pose proof (so_trans tuple_strict_order _ _ _ L L') as Laa.
  rewrite (so_irrefl tuple_strict_order _ _ (so_refl tuple_strict_order a))
    in Laa.
  discriminate.
Qed.

(** [a] is dequeued no later than [b]: [b < a] is false. *)
Definition tuple_le (a b : Event.t) : Prop := Event.ltb b a = false.

Definition tuple_sorted (q : list Event.t) : Prop :=
  StronglySorted tuple_le q.

Lemma heappush_sorted (q : list Event.t) (x : Event.t) :
  tuple_sorted q -> tuple_sorted (Event.heappush q x).
Proof.
  unfold tuple_sorted.
  induction 1 as [| y q Hq IH Hy]; cbn.
  - repeat constructor.
  - destruct (Event.ltb x y) eqn:L.
    + constructor; [constructor; assumption |].
      constructor.
      * apply ltb_asym, L.
      * rewrite Forall_forall in *. intros z Hz.
        unfold tuple_le in *.
        destruct (Event.ltb z x) eqn:L'; [| reflexivity].
        specialize (Hy z Hz). rewrite (ltb_trans z x y L' L) in Hy.
        discriminate.
    + constructor; [exact IH |].
      apply heappush_Forall. split; [exact L | exact Hy].
Qed.

Lemma tuple_le_time (a b : Event.t) :
  tuple_le a b -> Event.time a <= Event.time b.
Proof.
  unfold tuple_le, Event.ltb. intros L.
  destruct (Qeq_bool (Event.time b) (Event.time a)) eqn:E; cbn in L.
  - apply Qeq_bool_iff in E. lra.
  - destruct (Qlt_le_dec (Event.time b) (Event.time a)) as [L' | L'];
      [| exact L'].
    apply Qltb_lt in L'. congruence.
Qed.

End QueueOrder.

(** ** The sender *)

(** Projections of updated senders. *)
Ltac sender_simpl :=
  cbn [Sender.id Sender.delta_scale Sender.starting_rate Sender.rate
       Sender.sent Sender.acked Sender.lost Sender.bytes_in_flight
       Sender.min_latency Sender.rtt_samples Sender.rtt_samples_ts
       Sender.queue_delay_samples Sender.prev_rtt_samples Sender.path
       Sender.dest Sender.history_len Sender.features Sender.history
       Sender.cwnd Sender.use_cwnd Sender.rto Sender.pkt_loss_wait_time
       Sender.estRTT Sender.RTTVar Sender.got_data Sender.min_rtt
       Sender.max_tput Sender.start_stage Sender.lat_diff Sender.recv_rate
       Sender.send_rate Sender.avg_latency Sender.latest_rtt
       Sender.obs_start_time
       Sender.with_rate Sender.with_sent Sender.with_acked Sender.with_lost
       Sender.with_bytes_in_flight Sender.with_min_latency
       Sender.with_rtt_samples Sender.with_rtt_samples_ts
       Sender.with_queue_delay_samples Sender.with_prev_rtt_samples
       Sender.with_history Sender.with_cwnd Sender.with_estRTT
       Sender.with_RTTVar Sender.with_got_data Sender.with_min_rtt
       Sender.with_max_tput Sender.with_start_stage Sender.with_lat_diff
       Sender.with_recv_rate Sender.with_send_rate Sender.with_avg_latency
       Sender.with_latest_rtt Sender.with_obs_start_time
       Sender.on_packet_sent Sender.on_packet_lost Sender.timeout] in *.

Section SenderFacts.
Context `{Constants} `{SenderObsClass}.

(** What [on_packet_acked] does to the counters; the other attributes it
    writes are the RTT statistics. *)
Lemma on_packet_acked_counters (rtt now : Q) (s : Sender.t) :
  let s' := Sender.on_packet_acked rtt now s in
  Sender.bytes_in_flight s' = (Sender.bytes_in_flight s - BYTES_PER_PACKET)%Z
  /\ Sender.acked s' = (Sender.acked s + 1)%Z
  /\ Sender.sent s' = Sender.sent s
  /\ Sender.lost s' = Sender.lost s
  /\ Sender.got_data s' = true
  /\ Sender.rtt_samples s' = Sender.rtt_samples s ++ [rtt]
  /\ Sender.rtt_samples_ts s' = Sender.rtt_samples_ts s ++ [now]
  /\ Sender.prev_rtt_samples s' = Sender.prev_rtt_samples s
  /\ Sender.dest s' = Sender.dest s
  /\ Sender.path s' = Sender.path s
  /\ Sender.rate s' = Sender.rate s
  /\ Sender.starting_rate s' = Sender.starting_rate s
  /\ Sender.rto s' = Sender.rto s
  /\ Sender.use_cwnd s' = Sender.use_cwnd s
  /\ Sender.history s' = Sender.history s
  /\ Sender.obs_start_time s' = Sender.obs_start_time s
  /\ Sender.max_tput s' = Sender.max_tput s
  /\ Sender.start_stage s' = Sender.start_stage s
  /\ Sender.lat_diff s' = Sender.lat_diff s.
Proof.
  destruct s as [? ? ? ? ? ? ? ? ml ? ? ? ? ? ? ? ? ? ? ? ? ? ? ? gd ? ? ? ? ? ? ? ? ?].
  unfold Sender.on_packet_acked. sender_simpl.
  destruct ml as [m |]; [destruct (Qltb rtt m) |]; destruct gd;
    cbn [negb]; sender_simpl; rewrite ?length_app; cbn [length];
    repeat split; try reflexivity; apply Nat.leb_le; lia.
Qed.

Lemma reset_obs_fields (now : Q) (s : Sender.t) :
  let s' := Sender.reset_obs now s in
  Sender.bytes_in_flight s' = Sender.bytes_in_flight s
  /\ Sender.sent s' = 0%Z /\ Sender.acked s' = 0%Z /\ Sender.lost s' = 0%Z
  /\ Sender.rtt_samples s' = [] /\ Sender.rtt_samples_ts s' = []
  /\ Sender.prev_rtt_samples s'
     = match Sender.rtt_samples s with
       | [] => Sender.prev_rtt_samples s
       | _ :: _ => Sender.rtt_samples s
       end
  /\ Sender.obs_start_time s' = now
  /\ Sender.got_data s' = Sender.got_data s
  /\ Sender.dest s' = Sender.dest s
  /\ Sender.path s' = Sender.path s
  /\ Sender.rate s' = Sender.rate s
  /\ Sender.starting_rate s' = Sender.starting_rate s
  /\ Sender.rto s' = Sender.rto s
  /\ Sender.use_cwnd s' = Sender.use_cwnd s
  /\ Sender.history s' = Sender.history s
  /\ Sender.max_tput s' = Sender.max_tput s
  /\ Sender.start_stage s' = Sender.start_stage s
  /\ Sender.lat_diff s' = Sender.lat_diff s.
Proof.
  destruct s as [? ? ? ? ? ? ? ? ? rs ? ? ? ? ? ? ? ? ? ? ? ? ? ? ? ? ? ? ? ? ? ? ? ?].
  unfold Sender.reset_obs. sender_simpl.
  destruct rs; sender_simpl; repeat split; reflexivity.
Qed.

End SenderFacts.

(** ** Invariants of the event loop *)

Section Invariants.
Context `{Constants} `{SenderObsClass} `{LinkClass} `{RandomClass}.
Import Network.

(** A packet in flight is an event of the queue other than the pacing
    event of the sender (SEND at hop 0). *)
Definition is_packet (ev : Event.t) : bool :=
  negb (Event.type_eqb (Event.type ev) EVENT_TYPE_SEND
        && Nat.eqb (Event.next_hop ev) 0).

Definition packets (q : list Event.t) : nat := length (filter is_packet q).

Lemma packets_cons (x : Event.t) (q : list Event.t) :
  packets (x :: q) = ((if is_packet x then 1 else 0) + packets q)%nat.
Proof. unfold packets. cbn. destruct (is_packet x); reflexivity. Qed.

Lemma packets_heappush (q : list Event.t) (x : Event.t) :
  packets (Event.heappush q x)
  = ((if is_packet x then 1 else 0) + packets q)%nat.
Proof.
  unfold packets. induction q as [| y q IH]; cbn.
  - destruct (is_packet x); reflexivity.
  - destruct (Event.ltb x y); cbn.
    + destruct (is_packet x), (is_packet y); cbn; lia.
    + destruct (is_packet y); cbn; rewrite IH; destruct (is_packet x); lia.
Qed.

(** The bytes in flight are whole packets, at least those of the queue. *)
Definition flight_inv (q : list Event.t) (s : Sender.t) : Prop :=
  exists k : nat,
    Sender.bytes_in_flight s = (BYTES_PER_PACKET * Z.of_nat k)%Z
    /\ (packets q <= k)%nat.

(** Every SEND event of the queue is the pacing event, at hop 0. *)
Definition sends_at_hop0 (q : list Event.t) : Prop :=
  Forall (fun x => Event.type x = EVENT_TYPE_SEND -> Event.next_hop x = 0%nat)
         q.

Definition inv (e : env) : Prop :=
  flight_inv (q (net e)) (senders e)
  /\ tuple_sorted (q (net e))
  /\ (Sender.dest (senders e) = 0%nat -> sends_at_hop0 (q (net e))).

Lemma add_1_eqb_0 (n : nat) : Nat.eqb (n + 1) 0 = false.
Proof. rewrite Nat.add_1_r. reflexivity. Qed.

Lemma dispatch_event_inv (ev : Event.t) (xd : list Q) (e : env) :
  flight_inv (ev :: q (net e)) (senders e) ->
  tuple_sorted (q (net e)) ->
  (Sender.dest (senders e) = 0%nat -> sends_at_hop0 (ev :: q (net e))) ->
  wp (dispatch_event ev xd) (fun _ e' => inv e') (fun _ => True) e.
Proof.
  intros (k & Hk & Hp) Hs Hd. rewrite packets_cons in Hp.
  unfold is_packet in Hp.
  unfold dispatch_event, dispatch_send, dispatch_ack. wp_unfold.
  wp_go; try exact I; env_simpl.
  all: unfold inv; env_simpl.
  all: repeat match goal with
         | |- context [Sender.on_packet_acked ?r ?n ?s] =>
             let F := fresh "F" in
             pose proof (on_packet_acked_counters r n s) as F;
             cbv zeta in F;
             destruct F as (Fb & _ & _ & _ & _ & _ & _ & _ & Fd & _);
             rewrite ?Fd;
             generalize dependent (Sender.on_packet_acked r n s); intros
         end.
  all: sender_simpl.
  all: split; [| split].
  all: try (repeat apply heappush_sorted; exact Hs).
  (* the SEND events of the queue *)
  all: try (intros Hdest; specialize (Hd Hdest); unfold sends_at_hop0 in *;
            rewrite ?heappush_Forall; apply Forall_cons_iff in Hd as [Hev Hq];
            cbn [Event.type Event.next_hop]; rewrite ?Hdest;
            repeat split; try assumption; try reflexivity;
            try (intros Hty'; rewrite ?E0 in Hty'; congruence);
            try (intros; congruence);
            try (specialize (Hev ltac:(assumption)); rewrite Hev in *;
                 cbn in *; congruence)).
  (* the bytes in flight *)
  all: unfold flight_inv; rewrite ?packets_heappush; unfold is_packet;
    cbn [Event.type Event.next_hop Event.type_eqb]; rewrite ?add_1_eqb_0;
    rewrite ?andb_false_r, ?andb_true_r; cbn [negb andb Event.type_eqb] in *.
  all: try rewrite E in *; try rewrite E0 in *;
    cbn [negb andb Event.type_eqb] in *.
  all: unfold Sender.timeout.
  all: first [ exists (S k); split; [ sender_simpl; lia | lia ]
             | exists k; split; [ sender_simpl; lia | lia ]
             | exists (k - 1)%nat;
               replace (Z.of_nat (k - 1)) with (Z.of_nat k - 1)%Z by lia;
               split; [ sender_simpl; lia | lia ] ].
Qed.

(** Each iteration of the loop keeps the invariant: the head of the queue
    is popped and dispatched. *)
Lemma loop_iteration_inv (ev : Event.t) (rest : list Event.t) (xd : list Q)
      (e : env) :
  inv e -> q (net e) = ev :: rest ->
  wp (dispatch_event ev xd) (fun _ e' => inv e') (fun _ => True)
     (with_net (with_q rest (net e)) e).
Proof.
  intros (Hf & Hs & Hd) Hq. rewrite Hq in *.
  apply dispatch_event_inv; env_simpl.
  - exact Hf.
  - inversion Hs; assumption.
  - exact Hd.
Qed.

End Invariants.

Lemma bind_ok {S A B} (c : M S A) (k : A -> M S B) (s : S) (b : B) (s'' : S) :
  bind c k s = Ok b s'' ->
  exists a s', c s = Ok a s' /\ k a s' = Ok b s''.
Proof.
  unfold bind. destruct (c s) as [a s' | |]; try discriminate.
  intros E. exists a, s'. auto.
Qed.

(** ** The states of an episode *)

Section Episode.
Context `{Constants} `{SenderObsClass} `{LinkClass} `{RandomClass}.
Import Network.

Lemma inv_frame (e e' : env) :
  q (net e') = q (net e) ->
  Sender.bytes_in_flight (senders e') = Sender.bytes_in_flight (senders e) ->
  Sender.dest (senders e') = Sender.dest (senders e) ->
  inv e -> inv e'.
Proof.
  unfold inv, flight_inv. intros -> -> ->. exact (fun i => i).
Qed.

Lemma set_rate_fields (r : Q) (s : Sender.t) :
  Sender.bytes_in_flight (Sender.set_rate r s) = Sender.bytes_in_flight s
  /\ Sender.dest (Sender.set_rate r s) = Sender.dest s
  /\ Sender.got_data (Sender.set_rate r s) = Sender.got_data s.
Proof.
  unfold Sender.set_rate. sender_simpl.
  destruct (Qgtb r MAX_RATE); sender_simpl;
    match goal with |- context [if ?c then _ else _] => destruct c end;
    sender_simpl; auto.
Qed.

Lemma apply_rate_delta_fields (delta : Q) (s s' : Sender.t) :
  Sender.apply_rate_delta delta s = Ret s' ->
  Sender.bytes_in_flight s' = Sender.bytes_in_flight s
  /\ Sender.dest s' = Sender.dest s
  /\ Sender.got_data s' = Sender.got_data s.
Proof.
  unfold Sender.apply_rate_delta.
  destruct (Qgeb _ 0).
  - intros E. inversion E. apply set_rate_fields.
  - destruct (py_div _ _); intros E; inversion E. apply set_rate_fields.
Qed.

(** A call of [apply_cwnd_delta] that returns has written [cwnd] and
    nothing else. *)
Lemma apply_cwnd_delta_only_cwnd (delta : Q) (s s' : Sender.t) :
  Sender.apply_cwnd_delta delta s = Ret s' ->
  s' = Sender.with_cwnd (Sender.cwnd s') s.
Proof.
  unfold Sender.apply_cwnd_delta, Sender.set_cwnd.
  repeat match goal with
         | |- context [match ?x with _ => _ end] =>
             lazymatch x with
             | context [match _ with _ => _ end] => fail
             | _ => destruct x
             end
         end;
    intros E; inversion E; sender_simpl; reflexivity.
Qed.

Lemma apply_cwnd_delta_fields (delta : Q) (s s' : Sender.t) :
  Sender.apply_cwnd_delta delta s = Ret s' ->
  Sender.bytes_in_flight s' = Sender.bytes_in_flight s
  /\ Sender.dest s' = Sender.dest s
  /\ Sender.got_data s' = Sender.got_data s.
Proof.
  intros E. apply apply_cwnd_delta_only_cwnd in E. rewrite E.
  sender_simpl. auto.
Qed.

Lemma reset_fields (now : Q) (s : Sender.t) :
  let s' := Sender.reset now s in
  Sender.bytes_in_flight s' = 0%Z
  /\ Sender.rate s' = Sender.starting_rate s
  /\ Sender.starting_rate s' = Sender.starting_rate s
  /\ Sender.got_data s' = false
  /\ Sender.dest s' = Sender.dest s
  /\ Sender.path s' = Sender.path s
  /\ Sender.rto s' = Sender.rto s
  /\ Sender.history s'
     = SenderHistory_init (Sender.history_len s) (Sender.features s)
                          (Sender.id s)
  /\ Sender.rtt_samples s' = [].
Proof.
  destruct s as [? ? ? ? ? ? ? ? ? rs ? ? ? ? ? ? ? ? ? ? ? ? ? ? ? ? ? ? ? ? ? ? ? ?].
  unfold Sender.reset, Sender.reset_obs. sender_simpl.
  destruct rs; sender_simpl; repeat split; reflexivity.
Qed.

(** The first event of an episode: the pacing event at time 0. *)
Definition first_event (e : env) : Event.t :=
  Event.mk 0 EVENT_TYPE_SEND 0 0 false (event_count (net e))
           (Sender.rto (senders e)) 0.

Lemma inv_first (ev : Event.t) (e : env) :
  q (net e) = [ev] -> Event.type ev = EVENT_TYPE_SEND ->
  Event.next_hop ev = 0%nat ->
  Sender.bytes_in_flight (senders e) = 0%Z ->
  inv e.
Proof.
  intros Hq Hty Hhop Hb. unfold inv, flight_inv, sends_at_hop0.
  rewrite Hq, Hb. split; [| split].
  - exists 0%nat. split; [lia |].
    rewrite packets_cons. unfold is_packet. rewrite Hty, Hhop. cbn. lia.
  - repeat constructor.
  - intros _. repeat constructor. intros _. exact Hhop.
Qed.

Lemma wp_queue_initial_packets (e : env) (Q : unit -> env -> Prop) R :
  (forall e',
      q (net e')
      = Event.heappush (q (net e))
          (Event.mk 0 EVENT_TYPE_SEND 0 0 false (event_count (net e))
                    (Sender.rto (senders e)) 0) ->
      senders e' = Sender.reset_obs (cur_time (net e)) (senders e) ->
      cur_time (net e') = cur_time (net e) ->
      event_count (net e') = (event_count (net e) + 1)%Z ->
      recv_rate_cache (net e') = recv_rate_cache (net e) ->
      links e' = links e -> current_trace e' = current_trace e ->
      run_dur e' = run_dur e ->
      Q tt e') ->
  wp queue_initial_packets Q R e.
Proof.
  intros HQ. unfold queue_initial_packets. wp_unfold. wp_go.
  apply HQ; env_simpl; try reflexivity.
  destruct (reset_obs_fields (cur_time (net e)) (senders e))
    as (_ & _ & _ & _ & _ & _ & _ & _ & _ & _ & _ & _ & _ & Hrto & _).
  rewrite Hrto. reflexivity.
Qed.

(** [Network.reset] starts an episode from any state: the queue holds the
    pacing event alone and nothing is in flight. *)
Lemma wp_network_reset (e : env) :
  wp reset
     (fun _ e' =>
        q (net e') = [first_event e]
        /\ Sender.bytes_in_flight (senders e') = 0%Z
        /\ Sender.dest (senders e') = Sender.dest (senders e)
        /\ cur_time (net e') = 0)
     (fun _ => False) e.
Proof.
  unfold reset. wp_unfold. wp_go. apply wp_queue_initial_packets.
  intros e' Hq Hs Hc He Hr _ _ _. env_simpl.
  wp_go. env_simpl. rewrite Hq, Hs, Hc. cbn [Event.heappush].
  destruct (reset_fields 0 (senders e))
    as (Hb & _ & _ & _ & Hd & _ & Hrto & _).
  destruct (reset_obs_fields 0 (Sender.reset 0 (senders e)))
    as (Hb' & _ & _ & _ & _ & _ & _ & _ & _ & Hd' & _).
  cbv zeta in *. unfold first_event.
  rewrite Hb', Hb, Hd', Hd, Hrto. repeat split; reflexivity.
Qed.

(** [Network.__init__] on senders that have nothing in flight. *)
Lemma wp_network_init (e : env) :
  wp init
     (fun _ e' =>
        q (net e')
        = [Event.mk 0 EVENT_TYPE_SEND 0 0 false 0 (Sender.rto (senders e)) 0]
        /\ senders e' = Sender.reset_obs 0 (senders e)
        /\ cur_time (net e') = 0
        /\ recv_rate_cache (net e') = []
        /\ links e' = links e /\ current_trace e' = current_trace e
        /\ run_dur e' = run_dur e)
     (fun _ => False) e.
Proof.
  unfold init. wp_unfold. wp_go. apply wp_queue_initial_packets.
  intros e' Hq Hs Hc He Hr Hl Ht Hd. env_simpl.
  wp_go. env_simpl. rewrite Hq, Hs, Hc. cbn [Event.heappush].
  repeat split; assumption.
Qed.

(** The states of an episode, from its start ([Network.reset], or a new
    network on new senders) through every action, every opening of an
    interval, every dispatch of the head of the queue, every end of the
    loop and every finalization.  The attributes of the environment other
    than its network and its senders may change freely. *)
Inductive episode : env -> Prop :=
| ep_reset (e e' : env) :
    reset e = Ok tt e' -> episode e'
| ep_new (e e' : env) :
    Sender.bytes_in_flight (senders e) = 0%Z ->
    init e = Ok tt e' -> episode e'
| ep_rate (e : env) (delta : Q) (s' : Sender.t) :
    episode e -> Sender.apply_rate_delta delta (senders e) = Ret s' ->
    episode (with_senders s' e)
| ep_cwnd (e : env) (delta : Q) (s' : Sender.t) :
    episode e -> Sender.apply_cwnd_delta delta (senders e) = Ret s' ->
    episode (with_senders s' e)
| ep_open (e : env) (dur : option pyfloat) (end_time : pyfloat) (e' : env) :
    episode e -> open_interval dur e = Ok end_time e' -> episode e'
| ep_dispatch (e : env) (ev : Event.t) (rest : list Event.t) (xd : list Q)
              (r : list Q * list callback) (e' : env) :
    episode e -> q (net e) = ev :: rest ->
    dispatch_event ev xd (with_net (with_q rest (net e)) e) = Ok r e' ->
    episode e'
| ep_break (e : env) (hd : Event.t) (rest : list Event.t) :
    episode e -> q (net e) = hd :: rest ->
    episode (with_net (with_cur_time (Event.time hd) (net e)) e)
| ep_finish (e : env) (xd : list Q) (e' : env) :
    episode e -> run_for_dur_finish xd e = Ok tt e' -> episode e'
| ep_env (e e' : env) :
    episode e -> net e' = net e -> senders e' = senders e -> episode e'.

Lemma wp_open_interval_frame (dur : option pyfloat) (e : env) :
  wp (open_interval dur)
     (fun _ e' =>
        net e' = net e
        /\ Sender.bytes_in_flight (senders e')
           = Sender.bytes_in_flight (senders e)
        /\ Sender.dest (senders e') = Sender.dest (senders e))
     (fun _ => True) e.
Proof.
  unfold open_interval, target_end_time. wp_unfold.
  wp_go; try exact I; env_simpl; sender_simpl.
  all: match goal with
       | |- context [Sender.reset_obs ?n ?s] =>
           destruct (reset_obs_fields n s)
             as (Hb & _ & _ & _ & _ & _ & _ & _ & _ & Hd & _)
       end.
  all: cbv zeta in *; rewrite Hb, Hd; sender_simpl; auto.
Qed.

(** What [run_for_dur] does after its loop. *)
Lemma wp_run_for_dur_finish (xd : list Q) (e : env) :
  wp (run_for_dur_finish xd)
     (fun _ e' =>
        q (net e') = q (net e)
        /\ cur_time (net e') = cur_time (net e)
        /\ Sender.bytes_in_flight (senders e')
           = Sender.bytes_in_flight (senders e)
        /\ Sender.dest (senders e') = Sender.dest (senders e)
        /\ Sender.rate (senders e') = Sender.rate (senders e)
        /\ Sender.starting_rate (senders e')
           = Sender.starting_rate (senders e)
        /\ Sender.got_data (senders e') = Sender.got_data (senders e)
        /\ (exists mi,
               Sender.get_run_data (cur_time (net e)) (senders e) = Ret mi
               /\ Sender.history (senders e')
                  = history_step (Sender.history (senders e)) mi)
        /\ (exists sender_mi rtt_last rtt_first,
               history_back (Sender.history (senders e')) = Ret sender_mi
               /\ py_last (mi_rtt_samples sender_mi) = Ret rtt_last
               /\ py_first (mi_rtt_samples sender_mi) = Ret rtt_first
               /\ Sender.lat_diff (senders e') = rtt_last -' rtt_first
               /\ Sender.recv_rate (senders e')
                  = py_round3 (mi_get sender_mi "recv rate"))
        /\ recv_rate_cache (net e')
           = cache_append (recv_rate_cache (net e))
                          (Sender.recv_rate (senders e'))
        /\ py_max_list (recv_rate_cache (net e'))
           = Ret (Sender.max_tput (senders e'))
        /\ Sender.start_stage (senders e')
           = Sender.start_stage (senders e)
             && Qeq_bool (Sender.lat_diff (senders e')) 0)
     (fun _ => True) e.
Proof.
  unfold run_for_dur_finish, Sender.record_run. wp_unfold.
  wp_go; try exact I; env_simpl; sender_simpl.
  all: repeat match goal with
         | Hr : match ?x with Ret _ => _ | Exc _ => _ end = Ret _ |- _ =>
             destruct x eqn:?; inversion Hr; subst; clear Hr
         end.
  all: sender_simpl.
  all: repeat match goal with |- _ /\ _ => split end;
    try reflexivity; try eassumption.
  all: try (eexists; split; reflexivity).
  all: try (do 3 eexists; repeat split; eassumption || reflexivity).
  all: repeat match goal with
         | Hb : context [Qeq_bool ?x 0 && _] |- _ =>
             destruct (Qeq_bool x 0)
         end.
  all: destruct (Sender.start_stage (senders e)); cbn in *; congruence.
Qed.

Theorem episode_inv (e : env) : episode e -> inv e.
Proof.
  induction 1 as [e e' E | e e' Hb E | e delta s' _ IH E | e delta s' _ IH E
                  | e dur end_time e' _ IH E | e ev rest xd r e' _ IH Hq E
                  | e hd rest _ IH Hq | e xd e' _ IH E | e e' _ IH Hn Hs].
  - pose proof (wp_ok (wp_network_reset e) E) as (Hq & Hb & _).
    eapply inv_first; eauto.
  - pose proof (wp_ok (wp_network_init e) E) as (Hq & Hs & _).
    eapply inv_first; eauto. rewrite Hs.
    destruct (reset_obs_fields 0 (senders e)) as (Hb' & _).
    cbv zeta in Hb'. rewrite Hb'. exact Hb.
  - apply apply_rate_delta_fields in E as (Hb & Hd & _).
    eapply inv_frame; [| | | exact IH]; env_simpl; auto.
  - apply apply_cwnd_delta_fields in E as (Hb & Hd & _).
    eapply inv_frame; [| | | exact IH]; env_simpl; auto.
  - pose proof (wp_ok (wp_open_interval_frame dur e) E) as (Hn & Hb & Hd).
    eapply inv_frame; [| | | exact IH]; auto. rewrite Hn. reflexivity.
  - exact (wp_ok (loop_iteration_inv xd IH Hq) E).
  - eapply inv_frame; [| | | exact IH]; env_simpl; auto.
  - pose proof (wp_ok (wp_run_for_dur_finish xd e) E)
      as (Hq & _ & Hb & Hd & _).
    eapply inv_frame; [| | | exact IH]; auto.
  - eapply inv_frame; [| | | exact IH]; rewrite ?Hn, ?Hs; auto.
Qed.

End Episode.

(** [hoare c Q s]: when [c], run from [s], returns, the value and the state
    satisfy [Q].  It is used for the code that runs the event loop. *)
Definition hoare {S A} (c : M S A) (Q : A -> S -> Prop) (s : S) : Prop :=
  forall a s', c s = Ok a s' -> Q a s'.

Lemma hoare_bind {S A B} (c : M S A) (k : A -> M S B) (Q : B -> S -> Prop) s :
  hoare c (fun a s' => hoare (k a) Q s') s -> hoare (bind c k) Q s.
Proof.
  intros Hc b s'' E. apply bind_ok in E as (a & s' & E1 & E2).
  exact (Hc a s' E1 b s'' E2).
Qed.

Lemma hoare_of_wp {S A} (c : M S A) (Q : A -> S -> Prop) (R : S -> Prop) s :
  wp c Q R s -> hoare c Q s.
Proof. intros W a s' E. exact (wp_ok W E). Qed.

Lemma hoare_weaken {S A} (c : M S A) (Q Q' : A -> S -> Prop) s :
  hoare c Q s -> (forall a s', Q a s' -> Q' a s') -> hoare c Q' s.
Proof. intros Hc HQ a s' E. apply HQ, Hc, E. Qed.

Ltac hoare_step :=
  lazymatch goal with
  | |- hoare (bind _ _) _ _ => apply hoare_bind
  | |- hoare (if ?b then _ else _) _ _ =>
      let E := fresh "E" in destruct b eqn:E
  | |- hoare (match ?x with _ => _ end) _ _ =>
      let E := fresh "E" in destruct x eqn:E
  | |- hoare (ret _) _ _ =>
      apply (@hoare_of_wp _ _ _ _ (fun _ => True)); wp_step
  | |- hoare get _ _ =>
      apply (@hoare_of_wp _ _ _ _ (fun _ => True)); wp_step
  | |- hoare (gets _) _ _ =>
      apply (@hoare_of_wp _ _ _ _ (fun _ => True)); wp_step
  | |- hoare (modify _) _ _ =>
      apply (@hoare_of_wp _ _ _ _ (fun _ => True)); wp_step
  | |- hoare (raise _) _ _ =>
      apply (@hoare_of_wp _ _ _ _ (fun _ => True)); wp_step; exact I
  | |- hoare (lift _) _ _ =>
      apply (@hoare_of_wp _ _ _ _ (fun _ => True)); wp_step; [| exact I]
  | |- hoare (Network.link_call _) _ _ =>
      apply (@hoare_of_wp _ _ _ _ (fun _ => True)); wp_step
  end.

Ltac hoare_go := repeat hoare_step.

Section Runs.
Context `{Constants} `{SenderObsClass} `{LinkClass} `{RandomClass}.
Import Network.

(** One turn of [while True]. *)
Lemma run_loop_unfold (fuel : nat) (end_time : pyfloat) (xd : list Q)
      (e : env) :
  run_loop (S fuel) end_time xd e
  = match q (net e) with
    | [] => Raise IndexError e
    | hd :: rest =>
        if stops e end_time hd
        then Ok xd (with_net (with_cur_time (Event.time hd) (net e)) e)
        else match dispatch_event hd xd (with_net (with_q rest (net e)) e)
             with
             | Ok r e1 => run_loop fuel end_time (fst r) e1
             | Raise x e1 => Raise x e1
             | OutOfFuel => OutOfFuel
             end
    end.
Proof.
  cbn [run_loop]. unfold bind at 1. unfold get at 1.
  unfold bind at 1. destruct (q (net e)) as [| hd rest] eqn:Eq;
    cbn [py_first lift raise ret]; [reflexivity |].
  destruct (stops e end_time hd); [reflexivity |].
  unfold bind at 1. cbn [Event.heappop lift ret].
  unfold bind at 1. unfold net_do at 1, modify at 1. cbn [snd fst].
  unfold bind at 1. reflexivity.
Qed.

Lemma run_loop_episode (fuel : nat) (end_time : pyfloat) :
  forall (xd : list Q) (e : env),
    episode e -> hoare (run_loop fuel end_time xd) (fun _ e' => episode e') e.
Proof.
  induction fuel as [| fuel IH]; intros xd e He r e' E.
  - discriminate E.
  - rewrite run_loop_unfold in E.
    destruct (q (net e)) as [| hd rest] eqn:Eq; [discriminate |].
    destruct (stops e end_time hd).
    + inversion E; subst. eapply ep_break; eauto.
    + destruct (dispatch_event hd xd _) as [r1 e1 | |] eqn:Ed;
        try discriminate.
      eapply IH; [| exact E]. eapply ep_dispatch; eauto.
Qed.

Lemma run_for_dur_episode (fuel : nat) (dur : option pyfloat) (e : env) :
  episode e -> hoare (run_for_dur fuel dur) (fun _ e' => episode e') e.
Proof.
  intros He r e' E. unfold run_for_dur in E.
  apply bind_ok in E as (xd & e2 & E1 & E2).
  unfold run_for_dur_events in E1.
  apply bind_ok in E1 as (end_time & e1 & Eo & El).
  destruct r. eapply ep_finish; [| exact E2].
  eapply run_loop_episode; [| exact El]. eapply ep_open; eauto.
Qed.

Import SimulatedNetworkEnv.

Lemma wp_choose_trace (e : env) (Q : Trace.t -> env -> Prop) :
  (forall tr e', net e' = net e -> senders e' = senders e ->
                 links e' = links e -> Q tr e') ->
  wp choose_trace Q (fun _ => True) e.
Proof.
  intros HQ. unfold choose_trace. apply wp_bind, wp_get.
  destruct (traces e); [exact I |].
  destruct (random_choice _ _) as [i g].
  wp_go; try exact I. apply HQ; reflexivity.
Qed.

Lemma wp_create_new_links_and_senders (e : env) :
  wp create_new_links_and_senders
     (fun _ e' =>
        net e' = net e
        /\ Sender.bytes_in_flight (senders e') = 0%Z
        /\ Sender.dest (senders e') = 0%nat
        /\ Sender.path (senders e') = [0%nat; 1%nat]
        /\ Sender.use_cwnd (senders e') = false
        /\ Sender.rate (senders e') = Sender.starting_rate (senders e')
        /\ Sender.got_data (senders e') = false
        /\ Sender.rtt_samples (senders e') = []
        /\ Sender.prev_rtt_samples (senders e') = []
        /\ Sender.history (senders e')
           = SenderHistory_init (history_len e) (features e) (next_id e)
        /\ run_dur e' = Some (PyFloat (1 # 100)))
     (fun _ => True) e.
Proof.
  unfold create_new_links_and_senders, trace_call. wp_unfold.
  wp_go; try exact I; env_simpl.
  all: try match goal with
         | Hg : Trace.get_delay _ _ = _ |- _ => idtac
         end.
  all: try (destruct (Trace.get_delay _ _) as [r tr']; wp_go; try exact I;
            env_simpl).
  all: try discriminate.
  all: repeat split; reflexivity.
Qed.

(** The calls of the environment stay in the episode, or start one. *)
Lemma env_step_episode (fuel : nat) (actions : list Q) (e : env) :
  episode e ->
  hoare (SimulatedNetworkEnv.step fuel actions) (fun _ e' => episode e') e.
Proof.
  intros He. unfold SimulatedNetworkEnv.step, _get_all_sender_obs, trace_call.
  wp_unfold. hoare_go.
  all: (eapply hoare_weaken;
        [ apply run_for_dur_episode;
          repeat first [ exact He
                       | eapply ep_cwnd; [| eassumption]
                       | eapply ep_rate; [| eassumption] ]
        | ]).
  all: intros [] e3 He3; hoare_go; env_simpl;
    (eapply ep_env; [exact He3 | reflexivity | reflexivity]).
Qed.

Lemma env_reset_episode (fuel : nat) (e : env) :
  hoare (SimulatedNetworkEnv.reset fuel) (fun _ e' => episode e') e.
Proof.
  unfold SimulatedNetworkEnv.reset, _get_all_sender_obs. hoare_go.
  intros [] e1 _. hoare_go. intros tr e2 _. hoare_go.
  intros [] e3 E3.
  pose proof (wp_ok (wp_create_new_links_and_senders _) E3) as (_ & Hb & _).
  hoare_go. intros [] e4 E4.
  assert (He4 : episode e4) by (eapply ep_new; eauto).
  hoare_go; env_simpl.
  all: (eapply hoare_weaken;
        [ apply run_for_dur_episode;
          (eapply ep_env; [exact He4 | reflexivity | reflexivity])
        | ]).
  all: intros [] e5 He5; hoare_go; exact He5.
Qed.

Lemma env_init_episode (e : env) :
  hoare SimulatedNetworkEnv.init (fun _ e' => episode e') e.
Proof.
  unfold SimulatedNetworkEnv.init. hoare_go.
  all: intros tr e2 _; hoare_go; intros [] e3 E3;
    pose proof (wp_ok (wp_create_new_links_and_senders _) E3) as (_ & Hb & _);
    hoare_go; intros [] e4 E4;
    assert (He4 : episode e4) by (eapply ep_new; eauto);
    hoare_go; env_simpl;
    (eapply ep_env; [exact He4 | reflexivity | reflexivity]).
Qed.

End Runs.

(** ** The counters of a monitor interval *)

Section Accounting.
Context `{Constants} `{SenderObsClass} `{LinkClass} `{RandomClass}.
Import Network.

(** What the event loop leaves alone in the sender; [got_data] is only
    ever set. *)
Definition sender_frame (s s' : Sender.t) : Prop :=
  Sender.rate s' = Sender.rate s
  /\ Sender.path s' = Sender.path s
  /\ Sender.dest s' = Sender.dest s
  /\ Sender.use_cwnd s' = Sender.use_cwnd s
  /\ Sender.rto s' = Sender.rto s
  /\ Sender.history s' = Sender.history s
  /\ Sender.max_tput s' = Sender.max_tput s
  /\ Sender.start_stage s' = Sender.start_stage s
  /\ Sender.lat_diff s' = Sender.lat_diff s
  /\ (Sender.got_data s = true -> Sender.got_data s' = true)
  /\ Sender.starting_rate s' = Sender.starting_rate s.

(** The bytes in flight less the bytes sent, plus the bytes acknowledged
    and the bytes lost: no event changes it. *)
Definition balance (s : Sender.t) : Z :=
  (Sender.bytes_in_flight s
   + BYTES_PER_PACKET * (Sender.acked s + Sender.lost s - Sender.sent s))%Z.

Definition counted (s s' : Sender.t) : Prop :=
  balance s' = balance s
  /\ (Sender.sent s <= Sender.sent s')%Z
  /\ (Sender.acked s <= Sender.acked s')%Z
  /\ (Sender.lost s <= Sender.lost s')%Z.

Lemma sender_frame_refl (s : Sender.t) : sender_frame s s.
Proof. unfold sender_frame. auto 13. Qed.

Lemma sender_frame_trans (s1 s2 s3 : Sender.t) :
  sender_frame s1 s2 -> sender_frame s2 s3 -> sender_frame s1 s3.
Proof.
  unfold sender_frame.
  intros (A1 & A2 & A3 & A4 & A5 & A6 & A7 & A8 & A9 & A10 & A11)
         (B1 & B2 & B3 & B4 & B5 & B6 & B7 & B8 & B9 & B10 & B11).
  rewrite B1, B2, B3, B4, B5, B6, B7, B8, B9, B11. auto 13.
Qed.

Lemma counted_refl (s : Sender.t) : counted s s.
Proof. unfold counted. repeat split; lia. Qed.

Lemma counted_trans (s1 s2 s3 : Sender.t) :
  counted s1 s2 -> counted s2 s3 -> counted s1 s3.
Proof.
  unfold counted. intros (A & ? & ? & ?) (B & ? & ? & ?).
  rewrite B, A. repeat split; lia.
Qed.

(** What one event does to the sender, whatever the event. *)
Definition loop_effect (e e' : env) : Prop :=
  sender_frame (senders e) (senders e')
  /\ counted (senders e) (senders e')
  /\ recv_rate_cache (net e') = recv_rate_cache (net e).

Lemma dispatch_event_effect (ev : Event.t) (xd : list Q) (e : env) :
  wp (dispatch_event ev xd) (fun _ e' => loop_effect e e') (fun _ => True) e.
Proof.
  unfold loop_effect, dispatch_event, dispatch_send, dispatch_ack. wp_unfold.
  wp_go; try exact I; env_simpl.
  all: repeat match goal with
         | |- context [Sender.on_packet_acked ?r ?n ?s] =>
             let F := fresh "F" in
             pose proof (on_packet_acked_counters r n s) as F;
             cbv zeta in F;
             destruct F as (Fb & Fa & Fs & Fl & Fg & _ & _ & _ & Fd & Fp & Fr
                            & Fsr & Frto & Fu & Fh & _ & Fm & Fss & Fld);
             unfold sender_frame, counted, balance;
             rewrite ?Fb, ?Fa, ?Fs, ?Fl, ?Fg, ?Fd, ?Fp, ?Fr, ?Fsr, ?Frto,
               ?Fu, ?Fh, ?Fm, ?Fss, ?Fld;
             generalize dependent (Sender.on_packet_acked r n s); intros
         end.
  all: unfold sender_frame, counted, balance; sender_simpl.
  all: repeat split; try reflexivity; try lia; auto.
Qed.

Lemma run_loop_effect (fuel : nat) (end_time : pyfloat) :
  forall (xd : list Q) (e : env),
    hoare (run_loop fuel end_time xd) (fun _ e' => loop_effect e e') e.
Proof.
  induction fuel as [| fuel IH]; intros xd e r e' E.
  - discriminate E.
  - rewrite run_loop_unfold in E.
    destruct (q (net e)) as [| hd rest] eqn:Eq; [discriminate |].
    destruct (stops e end_time hd).
    + inversion E; subst. unfold loop_effect. env_simpl.
      auto using sender_frame_refl, counted_refl.
    + destruct (dispatch_event hd xd _) as [r1 e1 | |] eqn:Ed;
        try discriminate.
      pose proof (wp_ok (dispatch_event_effect hd xd _) Ed) as (F1 & C1 & R1).
      destruct (IH _ _ _ _ E) as (F2 & C2 & R2).
      revert F1 C1 R1. env_simpl. intros F1 C1 R1.
      unfold loop_effect. rewrite R2, R1.
      eauto using sender_frame_trans, counted_trans.
Qed.

(** The sender as [run_for_dur] leaves it before the loop. *)
Definition opened (e : env) : Sender.t :=
  Sender.reset_obs (cur_time (net e))
    (if negb (Qeq_bool (Sender.lat_diff (senders e)) 0)
     then Sender.with_start_stage false (senders e)
     else senders e).

Lemma wp_open_interval (dur : option pyfloat) (e : env) :
  wp (open_interval dur)
     (fun end_time e' =>
        net e' = net e /\ senders e' = opened e
        /\ links e' = links e /\ current_trace e' = current_trace e
        /\ exists d last_ts,
             dur = Some d
             /\ py_last (Trace.timestamps (current_trace e)) = Ret last_ts
             /\ end_time
                = match d with
                  | PyNaN => PyNaN
                  | PyFloat d =>
                      PyFloat (py_min (cur_time (net e) +' d) last_ts)
                  end)
     (fun _ => True) e.
Proof.
  unfold open_interval, target_end_time, opened. wp_unfold.
  wp_go; try exact I; env_simpl.
  all: repeat split; try reflexivity; eauto.
Qed.

Lemma opened_fields (e : env) :
  Sender.bytes_in_flight (opened e) = Sender.bytes_in_flight (senders e)
  /\ Sender.sent (opened e) = 0%Z /\ Sender.acked (opened e) = 0%Z
  /\ Sender.lost (opened e) = 0%Z
  /\ Sender.got_data (opened e) = Sender.got_data (senders e)
  /\ Sender.rate (opened e) = Sender.rate (senders e)
  /\ Sender.path (opened e) = Sender.path (senders e)
  /\ Sender.dest (opened e) = Sender.dest (senders e)
  /\ Sender.max_tput (opened e) = Sender.max_tput (senders e)
  /\ Sender.start_stage (opened e)
     = Sender.start_stage (senders e)
       && Qeq_bool (Sender.lat_diff (senders e)) 0
  /\ Sender.lat_diff (opened e) = Sender.lat_diff (senders e).
Proof.
  unfold opened.
  match goal with
  | |- context [Sender.reset_obs ?n ?s] =>
      destruct (reset_obs_fields n s)
        as (Hb & Hs & Ha & Hl & _ & _ & _ & _ & Hg & Hd & Hp & Hr & _ & _ & _
            & _ & Hm & Hss & Hld)
  end.
  cbv zeta in *. rewrite Hb, Hs, Ha, Hl, Hg, Hd, Hp, Hr, Hm, Hss, Hld.
  destruct (Qeq_bool (Sender.lat_diff (senders e)) 0); cbn [negb];
    sender_simpl; rewrite ?andb_true_r, ?andb_false_r; auto 12.
Qed.

(** The bytes that [get_run_data] reports are those of the counters, less
    one packet of the acknowledged ones when the interval is the first to
    receive. *)
Lemma get_run_data_bytes (now : Q) (s : Sender.t) (mi : SenderMonitorInterval) :
  Sender.get_run_data now s = Ret mi ->
  bytes_sent mi = (Sender.sent s * BYTES_PER_PACKET)%Z
  /\ bytes_lost mi = (Sender.lost s * BYTES_PER_PACKET)%Z
  /\ (bytes_acked mi = (Sender.acked s * BYTES_PER_PACKET)%Z
      \/ bytes_acked mi = ((Sender.acked s - 1) * BYTES_PER_PACKET)%Z).
Proof.
  intros E. unfold Sender.get_run_data in E.
  repeat match type of E with
         | context [match ?x with _ => _ end] =>
             lazymatch x with
             | context [match _ with _ => _ end] => fail
             | _ => destruct x eqn:?
             end
         end; try discriminate.
  all: inversion E; subst; cbn; auto.
Qed.

End Accounting.

(** ** What holds throughout an episode *)

Section EpisodeTheorems.
Context `{Constants} `{SenderObsClass} `{LinkClass} `{RandomClass}.
Import Network.

(** C10: in every state of an episode the bytes in flight are a whole,
    non-negative number [k] of packets, and at least as many as the packet
    events of the queue: each decrement that a queued packet event can still
    cause is covered by an increment that has happened.  [Network.reset]
    starts the next episode with nothing in flight and with no packet event
    in the queue, from whatever state it is called in. *)
Theorem bytes_in_flight_whole_packets :
  forall e : env,
    episode e ->
    (exists k : nat,
        Sender.bytes_in_flight (senders e)
        = (Z.of_nat k * BYTES_PER_PACKET)%Z
        /\ (packets (q (net e)) <= k)%nat)
    /\ (forall e' : env,
           reset e = Ok tt e' ->
           Sender.bytes_in_flight (senders e') = 0%Z
           /\ q (net e') = [first_event e]
           /\ packets (q (net e')) = 0%nat).
Proof.
  intros e He. split.
  - destruct (episode_inv He) as ((k & Hk & Hp) & _).
    exists k. split; [rewrite Hk; apply Z.mul_comm | exact Hp].
  - intros e' E.
    pose proof (wp_ok (wp_network_reset e) E) as (Hq & Hb & _).
    rewrite Hq. repeat split; assumption || reflexivity.
Qed.

(** The order in which two events of equal time leave the queue: by event
    type, then by hop, then by accumulated latency, then delivered before
    dropped, and only then by event id. *)
Definition tie_break (a b : Event.t) : Prop :=
  Event.type_ltb (Event.type a) (Event.type b) = true
  \/ (Event.type a = Event.type b
      /\ ((Event.next_hop a < Event.next_hop b)%nat
          \/ (Event.next_hop a = Event.next_hop b
              /\ (Event.cur_latency a < Event.cur_latency b
                  \/ (Event.cur_latency a == Event.cur_latency b
                      /\ ((Event.dropped a = false /\ Event.dropped b = true)
                          \/ (Event.dropped a = Event.dropped b
                              /\ (Event.event_id a <= Event.event_id b)%Z))))))).

Lemma type_eqb_eq (a b : event_type) : Event.type_eqb a b = true <-> a = b.
Proof. destruct a, b; cbn; split; congruence. Qed.

Lemma type_ltb_total (a b : event_type) :
  Event.type_eqb b a = false -> Event.type_ltb b a = false ->
  Event.type_ltb a b = true.
Proof.
  destruct a, b; cbn; try congruence;
    destruct EVENT_TYPE_ACK_lt_SEND; cbn; congruence.
Qed.

Lemma tuple_le_tie (a b : Event.t) :
  tuple_le a b -> Event.time a == Event.time b -> tie_break a b.
Proof.
  unfold tuple_le, Event.ltb, tie_break. intros L T.
  assert (ET : Qeq_bool (Event.time b) (Event.time a) = true)
    by (apply Qeq_bool_iff; lra).
  rewrite ET in L. cbn [negb] in L.
  destruct (Event.type_eqb (Event.type b) (Event.type a)) eqn:Ety;
    cbn [negb] in L; [| left; apply type_ltb_total; assumption].
  apply type_eqb_eq in Ety. right. split; [congruence |].
  destruct (Nat.eqb (Event.next_hop b) (Event.next_hop a)) eqn:Eh;
    cbn [negb] in L.
  2: { left. apply Nat.eqb_neq in Eh. apply Nat.ltb_ge in L. lia. }
  apply Nat.eqb_eq in Eh. right. split; [congruence |].
  destruct (Qeq_bool (Event.cur_latency b) (Event.cur_latency a)) eqn:El;
    cbn [negb] in L.
  2: { left. apply Qeq_bool_neq in El.
       destruct (Qlt_le_dec (Event.cur_latency b) (Event.cur_latency a))
         as [L' | L']; [apply Qltb_lt in L'; congruence |].
       apply Qle_lteq in L' as [L' | L']; [exact L' |].
       symmetry in L'. contradiction. }
  apply Qeq_bool_iff in El. right. split; [lra |].
  destruct (Event.dropped a) eqn:Da, (Event.dropped b) eqn:Db;
    cbn [Bool.eqb negb andb] in L; try discriminate; auto.
  all: right; split; [reflexivity |].
  all: destruct (Z.eqb (Event.event_id b) (Event.event_id a)) eqn:Ei;
    cbn [negb] in L;
    [apply Z.eqb_eq in Ei; lia | apply Z.ltb_ge in L; lia].
Qed.

(** C4, amended: in every state of an episode the queue is dequeued in
    the order of Python's tuples, hence in nondecreasing time order; two
    events of equal time are dequeued by event type, then hop, then
    accumulated latency, then dropped flag, and by event id only when all of
    these agree. *)
Theorem queue_dequeues_in_tuple_order :
  forall e : env,
    episode e ->
    StronglySorted (fun a b => Event.ltb b a = false) (q (net e))
    /\ StronglySorted (fun a b => Event.time a <= Event.time b) (q (net e))
    /\ StronglySorted
         (fun a b => Event.time a == Event.time b -> tie_break a b)
         (q (net e)).
Proof.
  intros e He. destruct (episode_inv He) as (_ & Hs & _).
  unfold tuple_sorted in Hs. split; [exact Hs |].
  split; (induction Hs as [| a l _ IH Ha]; constructor; [exact IH |]);
    (eapply Forall_impl; [| exact Ha]); intros b Hb.
  - apply tuple_le_time, Hb.
  - apply tuple_le_tie, Hb.
Qed.

End EpisodeTheorems.

(** ** The interval that [run_for_dur] finalizes *)

Section IntervalTheorems.
Context `{Constants} `{SenderObsClass} `{LinkClass} `{RandomClass}.
Import Network.

Lemma interval_arith (B bif1 bif a l s ba : Z) (k : nat) :
  (0 < B)%Z ->
  (bif1 + B * (a + l - s) = bif)%Z ->
  (0 <= s)%Z -> (0 <= a)%Z -> (0 <= l)%Z ->
  bif1 = (B * Z.of_nat k)%Z ->
  ba = (a * B)%Z \/ ba = ((a - 1) * B)%Z ->
  (l * B + ba <= s * B + bif)%Z
  /\ (ba <= s * B + bif)%Z
  /\ (l * B + a * B + bif1 = s * B + bif)%Z.
Proof.
  intros Hpos Hbal Hs Ha Hl Hk Ba.
  assert (0 <= B * l)%Z by (apply Z.mul_nonneg_nonneg; lia).
  assert (0 <= B * Z.of_nat k)%Z by (apply Z.mul_nonneg_nonneg; lia).
  destruct Ba as [-> | ->]; repeat split; nia.
Qed.

(** The counters of an interval, from the moment it opens. *)
Lemma counted_opened (e : env) (s1 : Sender.t) :
  counted (opened e) s1 ->
  (Sender.bytes_in_flight s1
   + BYTES_PER_PACKET * (Sender.acked s1 + Sender.lost s1 - Sender.sent s1)
   = Sender.bytes_in_flight (senders e))%Z
  /\ (0 <= Sender.sent s1)%Z /\ (0 <= Sender.acked s1)%Z
  /\ (0 <= Sender.lost s1)%Z.
Proof.
  destruct (opened_fields e) as (Ob & Os & Oa & Ol & _).
  unfold counted, balance. rewrite Ob, Os, Oa, Ol.
  intros (Hbal & Hsent & Hack & Hlost). repeat split; try assumption.
  rewrite Hbal. lia.
Qed.

(** C2, as the code has it: the interval that [run_for_dur] finalizes counts
    the packets sent, acknowledged and lost since the [reset_obs()] that
    opened it, and the acknowledged and lost ones include packets that were
    in flight at that moment.  So its bytes acknowledged and lost are
    bounded by its bytes sent plus the bytes in flight when the interval
    opened, not by its bytes sent alone; the difference is what is in
    flight when the loop ends. *)
Theorem interval_bytes_bounded_by_sent_and_in_flight :
  forall (fuel : nat) (dur : option pyfloat) (e e2 : env),
    episode e ->
    run_for_dur fuel dur e = Ok tt e2 ->
    exists xd e1 mi,
      run_for_dur_events fuel dur e = Ok xd e1
      /\ Sender.get_run_data (cur_time (net e1)) (senders e1) = Ret mi
      /\ Sender.history (senders e2)
         = history_step (Sender.history (senders e1)) mi
      /\ (bytes_lost mi + bytes_acked mi
          <= bytes_sent mi + Sender.bytes_in_flight (senders e))%Z
      /\ (bytes_acked mi
          <= bytes_sent mi + Sender.bytes_in_flight (senders e))%Z
      /\ (bytes_lost mi + Sender.acked (senders e1) * BYTES_PER_PACKET
          + Sender.bytes_in_flight (senders e1)
          = bytes_sent mi + Sender.bytes_in_flight (senders e))%Z.
Proof.
  intros fuel dur e e2 He E. unfold run_for_dur in E.
  apply bind_ok in E as (xd & e1 & E1 & E2).
  exists xd, e1.
  pose proof E1 as E1'. unfold run_for_dur_events in E1'.
  apply bind_ok in E1' as (end_time & e0 & Eo & El).
  pose proof (wp_ok (wp_open_interval dur e) Eo) as (Hn & Hs & _).
  destruct (@run_loop_effect _ _ _ _ fuel end_time [] e0 xd e1 El)
    as (_ & Hc & _).
  rewrite Hs in Hc. apply counted_opened in Hc as (Hbal & Hsent & Hack & Hlost).
  pose proof (wp_ok (wp_run_for_dur_finish xd e1) E2)
    as (_ & _ & _ & _ & _ & _ & _ & (mi & Hmi & Hh) & _).
  exists mi. split; [exact E1 |]. split; [exact Hmi |]. split; [exact Hh |].
  assert (He1 : episode e1).
  { eapply run_loop_episode; [| exact El]. eapply ep_open; eauto. }
  apply episode_inv in He1 as ((k & Hk & _) & _).
  destruct (get_run_data_bytes _ _ Hmi) as (Bs & Bl & Ba).
  rewrite Bs, Bl.
  apply (@interval_arith _ _ _ _ _ _ _ k);
    assumption || exact BYTES_PER_PACKET_pos.
Qed.

End IntervalTheorems.

(** ** The estimate of the achievable throughput *)

Lemma py_max_ge (a b : Q) : a <= py_max a b /\ b <= py_max a b.
Proof.
  unfold py_max, Qgtb. destruct (Qle_bool b a) eqn:E; cbn [negb].
  - apply Qle_bool_iff in E. split; [apply Qle_refl | exact E].
  - split; [| apply Qle_refl].
    destruct (Qlt_le_dec a b) as [L | L]; [apply Qlt_le_weak, L |].
    apply Qle_bool_iff in L. congruence.
Qed.

Lemma fold_py_max_ge (xs : list Q) :
  forall x, x <= fold_left py_max xs x
            /\ Forall (fun y => y <= fold_left py_max xs x) xs.
Proof.
  induction xs as [| y xs IH]; intros x; cbn [fold_left].
  - split; [apply Qle_refl | constructor].
  - destruct (IH (py_max x y)) as (L & F).
    destruct (py_max_ge x y) as (Lx & Ly).
    split; [eapply Qle_trans; eauto |].
    constructor; [eapply Qle_trans; eauto | exact F].
Qed.

(** [max(l)] is at least every item of [l]. *)
Lemma py_max_list_ge (l : list Q) (m : Q) :
  py_max_list l = Ret m -> Forall (fun y => y <= m) l.
Proof.
  destruct l as [| x xs]; [discriminate |]. cbn [py_max_list].
  intros E. inversion E; subst.
  destruct (fold_py_max_ge xs x) as (L & F). constructor; assumption.
Qed.

(** The sample appended to the cache is in the cache. *)
Lemma cache_append_In (cache : list Q) (x : Q) : In x (Network.cache_append cache x).
Proof.
  unfold Network.cache_append.
  destruct (Nat.ltb 6 (length (cache ++ [x]))) eqn:E.
  - destruct cache as [| y cache]; [discriminate |].
    cbn [app tl]. apply in_or_app. right. left. reflexivity.
  - apply in_or_app. right. left. reflexivity.
Qed.

Lemma cache_append_length (cache : list Q) (x : Q) :
  (length cache <= 6)%nat -> (length (Network.cache_append cache x) <= 6)%nat.
Proof.
  unfold Network.cache_append. intros L.
  destruct (Nat.ltb 6 (length (cache ++ [x]))) eqn:E.
  - destruct cache as [| y cache]; [discriminate |].
    cbn [app tl]. rewrite length_app. cbn [length] in *. lia.
  - apply Nat.ltb_ge in E. exact E.
Qed.

Section Estimates.
Context `{Constants} `{SenderObsClass} `{LinkClass} `{RandomClass}.
Import Network.

(** C6, as the code has it: every call of [run_for_dur] that returns
    appends the receive rate of its interval to the cache of the last six
    and sets [max_tput] to the maximum of the cache, whether the sender is
    in its start stage or has left it: the estimate is not frozen by a
    latency increase, and it is never below the receive rate of the interval
    just finished.  The start stage itself ends for good as soon as an
    interval measures a latency change; [Sender.reset] restores it and
    zeroes the estimate. *)
Theorem max_tput_is_maximum_of_recv_rate_cache :
  forall (fuel : nat) (dur : option pyfloat) (e e' : env),
    run_for_dur fuel dur e = Ok tt e' ->
    recv_rate_cache (net e')
    = cache_append (recv_rate_cache (net e)) (Sender.recv_rate (senders e'))
    /\ py_max_list (recv_rate_cache (net e'))
       = Ret (Sender.max_tput (senders e'))
    /\ Sender.recv_rate (senders e') <= Sender.max_tput (senders e')
    /\ Sender.start_stage (senders e')
       = Sender.start_stage (senders e)
         && Qeq_bool (Sender.lat_diff (senders e)) 0
         && Qeq_bool (Sender.lat_diff (senders e')) 0
    /\ (forall now s,
           Sender.start_stage (Sender.reset now s) = true
           /\ Sender.max_tput (Sender.reset now s) = 0).
Proof.
  intros fuel dur e e' E. unfold run_for_dur in E.
  apply bind_ok in E as (xd & e1 & E1 & E2).
  unfold run_for_dur_events in E1.
  apply bind_ok in E1 as (end_time & e0 & Eo & El).
  pose proof (wp_ok (wp_open_interval dur e) Eo) as (Hn & Hs & _).
  destruct (@run_loop_effect _ _ _ _ fuel end_time [] e0 xd e1 El)
    as (Hf & _ & Hc).
  destruct Hf as (_ & _ & _ & _ & _ & _ & _ & Hss & _).
  pose proof (wp_ok (wp_run_for_dur_finish xd e1) E2)
    as (_ & _ & _ & _ & _ & _ & _ & _ & _ & Hcache & Hmax & Hstage).
  destruct (opened_fields e) as (_ & _ & _ & _ & _ & _ & _ & _ & _ & Os & _).
  rewrite Hc, Hn in Hcache. rewrite Hss, Hs, Os in Hstage.
  split; [exact Hcache |]. split; [exact Hmax |].
  split; [| split; [exact Hstage |]].
  - apply py_max_list_ge in Hmax. rewrite Forall_forall in Hmax.
    apply Hmax. rewrite Hcache. apply cache_append_In.
  - intros now s.
    destruct s as [? ? ? ? ? ? ? ? ? rs ? ? ? ? ? ? ? ? ? ? ? ? ? ? ? ? ? ? ? ? ? ? ? ?].
    unfold Sender.reset, Sender.reset_obs. sender_simpl.
    destruct rs; sender_simpl; split; reflexivity.
Qed.

End Estimates.

(** ** The rate and the window of the sender *)

Lemma Qgeb_le (a b : Q) : Qgeb a b = true <-> b <= a.
Proof. unfold Qgeb. apply Qle_bool_iff. Qed.

Lemma Qgtb_lt (a b : Q) : Qgtb a b = true <-> b < a.
Proof.
  unfold Qgtb. rewrite negb_true_iff. split.
  - intros E. apply Qnot_le_lt. intros L. apply Qle_bool_iff in L. congruence.
  - intros L. destruct (Qle_bool a b) eqn:E; [| reflexivity].
    apply Qle_bool_iff in E. exfalso. exact (Qlt_not_le _ _ L E).
Qed.

Lemma Qgtb_false_le (a b : Q) : Qgtb a b = false <-> a <= b.
Proof.
  unfold Qgtb. rewrite negb_false_iff. apply Qle_bool_iff.
Qed.

Lemma Qltb_false_le (a b : Q) : Qltb a b = false <-> b <= a.
Proof.
  unfold Qltb. rewrite negb_false_iff. apply Qle_bool_iff.
Qed.

Lemma Qgeb_false_lt (a b : Q) : Qgeb a b = false <-> a < b.
Proof.
  unfold Qgeb. split.
  - intros E. apply Qnot_le_lt. intros L. apply Qle_bool_iff in L. congruence.
  - intros L. destruct (Qle_bool b a) eqn:E; [| reflexivity].
    apply Qle_bool_iff in E. exfalso. exact (Qlt_not_le _ _ L E).
Qed.

Lemma Qdiv'_correct (a b : Q) : a /' b == a / b.
Proof. apply Qred_correct. Qed.

Section Rate.
Context `{Constants} `{SenderObsClass}.

(** [set_rate] writes the rate and nothing else. *)
Lemma set_rate_only_rate (r : Q) (s : Sender.t) :
  Sender.set_rate r s = Sender.with_rate (Sender.rate (Sender.set_rate r s)) s.
Proof.
  destruct s as [? ? ? ? ? ? ? ? ? ? ? ? ? ? ? ? ? ? ? ? ? ? ? ? ? ? ? ? ? ? ? ? ? ?].
  unfold Sender.set_rate. sender_simpl.
  destruct (Qgtb r MAX_RATE); sender_simpl;
    match goal with |- context [if ?c then _ else _] => destruct c end;
    reflexivity.
Qed.

(** The rate that [set_rate] leaves: the new rate, cut to [MAX_RATE] from
    above and then raised to [MIN_RATE] from below. *)
Lemma set_rate_rate (r : Q) (s : Sender.t) :
  Sender.rate (Sender.set_rate r s)
  = (let r1 := if Qgtb r MAX_RATE then MAX_RATE else r in
     if Qltb r1 MIN_RATE then MIN_RATE else r1).
Proof.
  destruct s as [? ? ? ? ? ? ? ? ? ? ? ? ? ? ? ? ? ? ? ? ? ? ? ? ? ? ? ? ? ? ? ? ? ?].
  unfold Sender.set_rate. sender_simpl. cbv zeta.
  destruct (Qgtb r MAX_RATE); sender_simpl;
    match goal with |- context [if ?c then _ else _] => destruct c end;
    reflexivity.
Qed.

Lemma clamp_facts (r : Q) :
  MIN_RATE <= MAX_RATE ->
  let c := (let r1 := if Qgtb r MAX_RATE then MAX_RATE else r in
            if Qltb r1 MIN_RATE then MIN_RATE else r1) in
  MIN_RATE <= c /\ c <= MAX_RATE
  /\ (MIN_RATE <= r -> r <= MAX_RATE -> c = r)
  /\ (r < MIN_RATE -> c = MIN_RATE)
  /\ (MAX_RATE < r -> c = MAX_RATE).
Proof.
  intros Hb. cbv zeta.
  repeat (apply conj).
  all: destruct (Qgtb r MAX_RATE) eqn:E1;
    [apply Qgtb_lt in E1 | apply Qgtb_false_le in E1].
  all: match goal with
       | |- context [Qltb ?a ?b] =>
           let E2 := fresh "E2" in
           destruct (Qltb a b) eqn:E2;
           [apply Qltb_lt in E2 | apply Qltb_false_le in E2]
       end.
  all: intros; try reflexivity; try assumption; try apply Qle_refl.
  all: try (exfalso; lra).
Qed.

Lemma set_rate_bounds (r : Q) (s : Sender.t) :
  MIN_RATE <= MAX_RATE ->
  MIN_RATE <= Sender.rate (Sender.set_rate r s)
  /\ Sender.rate (Sender.set_rate r s) <= MAX_RATE
  /\ (MIN_RATE <= r -> r <= MAX_RATE -> Sender.rate (Sender.set_rate r s) = r)
  /\ (r < MIN_RATE -> Sender.rate (Sender.set_rate r s) = MIN_RATE)
  /\ (MAX_RATE < r -> Sender.rate (Sender.set_rate r s) = MAX_RATE).
Proof.
  intros Hb. pose proof (clamp_facts r Hb) as C.
  rewrite <- (set_rate_rate r s) in C. exact C.
Qed.

(** [1 - delta] is not 0 when [delta] is negative. *)
Lemma one_minus_negative (d : Q) :
  Qgeb d 0 = false -> Qeq_bool (1 -' d) 0 = false.
Proof.
  intros E. apply Qgeb_false_lt in E.
  destruct (Qeq_bool _ 0) eqn:Ez; [| reflexivity].
  apply Qeq_bool_iff in Ez. rewrite Qminus'_correct in Ez.
  exfalso. lra.
Qed.

Lemma apply_rate_delta_returns (delta : Q) (s : Sender.t) :
  exists s', Sender.apply_rate_delta delta s = Ret s'.
Proof.
  unfold Sender.apply_rate_delta, py_div.
  destruct (Qgeb (delta *' Sender.delta_scale s) 0) eqn:E.
  - eexists. reflexivity.
  - rewrite (one_minus_negative _ E). eexists. reflexivity.
Qed.

(** [Sender.set_rate] clamps: whatever rate is asked for, the sender's
    rate ends within [MIN_RATE, MAX_RATE]; a rate within the bounds is taken
    as it is, one below is replaced by [MIN_RATE] and one above by
    [MAX_RATE]; no other attribute of the sender changes. *)
Theorem set_rate_clamps :
  forall (r : Q) (s : Sender.t),
    MIN_RATE <= MAX_RATE ->
    MIN_RATE <= Sender.rate (Sender.set_rate r s)
    /\ Sender.rate (Sender.set_rate r s) <= MAX_RATE
    /\ (MIN_RATE <= r -> r <= MAX_RATE ->
        Sender.rate (Sender.set_rate r s) = r)
    /\ (r < MIN_RATE -> Sender.rate (Sender.set_rate r s) = MIN_RATE)
    /\ (MAX_RATE < r -> Sender.rate (Sender.set_rate r s) = MAX_RATE)
    /\ Sender.set_rate r s
       = Sender.with_rate (Sender.rate (Sender.set_rate r s)) s.
Proof.
  intros r s Hb.
  destruct (set_rate_bounds r s Hb) as (C1 & C2 & C3 & C4 & C5).
  exact (conj C1 (conj C2 (conj C3 (conj C4 (conj C5
           (set_rate_only_rate r s)))))).
Qed.

(** Neither [apply_rate_delta] nor [apply_cwnd_delta] ever raises
    [ZeroDivisionError]: they divide by [1 - delta] only when [delta < 0].
    [apply_rate_delta] never raises at all; the only exceptions of
    [apply_cwnd_delta] are those of [int()] and of the conversion of the
    window to a float, [OverflowError] and [ValueError]. *)
Theorem apply_delta_never_divides_by_zero :
  forall (delta : Q) (s : Sender.t),
    (exists s', Sender.apply_rate_delta delta s = Ret s')
    /\ (forall e, Sender.apply_cwnd_delta delta s = Exc e ->
                  e = OverflowError \/ e = ValueError).
Proof.
  intros delta s. split; [apply apply_rate_delta_returns |].
  unfold Sender.apply_cwnd_delta, Sender.set_cwnd, Sender.py_int,
    Sender.float_of_int, py_div.
  cbv zeta.
  destruct (Qgeb (delta *' Sender.delta_scale s) 0) eqn:E.
  - destruct (is_inf (inject_Z (Sender.cwnd s)));
      [intros e Ee; inversion Ee; auto |].
    destruct (is_inf (delta *' Sender.delta_scale s)
              && Qeq_bool (inject_Z (Sender.round_int (Sender.cwnd s))) 0);
      [intros e Ee; inversion Ee; auto |].
    destruct (is_inf _); intros e Ee; inversion Ee; auto.
  - rewrite (one_minus_negative _ E).
    destruct (is_inf (inject_Z (Sender.cwnd s)));
      [intros e Ee; inversion Ee; auto |].
    destruct (is_inf _); intros e Ee; inversion Ee; auto.
Qed.

(** A positive action never lowers the rate and a negative one never
    raises it, and the rate stays within its bounds: [apply_rate_delta]
    multiplies the rate by [1 + delta * delta_scale] when that delta is not
    negative and divides it by [1 - delta * delta_scale] otherwise, then
    clamps. *)
Theorem apply_rate_delta_moves_rate_towards_action :
  forall (delta : Q) (s : Sender.t),
    MIN_RATE <= MAX_RATE ->
    0 <= Sender.delta_scale s ->
    0 <= Sender.rate s ->
    MIN_RATE <= Sender.rate s -> Sender.rate s <= MAX_RATE ->
    exists s',
      Sender.apply_rate_delta delta s = Ret s'
      /\ MIN_RATE <= Sender.rate s' /\ Sender.rate s' <= MAX_RATE
      /\ (0 <= delta -> Sender.rate s <= Sender.rate s')
      /\ (delta <= 0 -> Sender.rate s' <= Sender.rate s)
      /\ s' = Sender.with_rate (Sender.rate s') s.
Proof.
  intros delta s Hb Hscale Hpos Hlo Hhi.
  unfold Sender.apply_rate_delta, py_div.
  set (d := delta *' Sender.delta_scale s).
  assert (Hd : d == delta * Sender.delta_scale s) by apply Qmult'_correct.
  destruct (Qgeb d 0) eqn:E.
  - apply Qgeb_le in E.
    set (x := Sender.rate s *' (1 +' d)).
    assert (Hx : x == Sender.rate s * (1 + d)).
    { unfold x. rewrite Qmult'_correct, Qplus'_correct. reflexivity. }
    exists (Sender.set_rate x s). split; [reflexivity |].
    destruct (set_rate_bounds x s Hb) as (L1 & L2 & Lin & Llo & Lhi).
    pose proof (set_rate_only_rate x s) as Lf.
    repeat (apply conj); try assumption.
    + intros _.
      assert (Hge : Sender.rate s <= x) by (rewrite Hx; nra).
      destruct (Qlt_le_dec MAX_RATE x) as [G | G].
      * rewrite (Lhi G). exact Hhi.
      * rewrite Lin; [exact Hge | | exact G].
        exact (Qle_trans _ _ _ Hlo Hge).
    + intros Hneg.
      assert (Hd0 : d == 0).
      { apply Qle_antisym; [| exact E]. rewrite Hd.
        setoid_replace 0 with (0 * Sender.delta_scale s) by ring.
        apply Qmult_le_compat_r; assumption. }
      assert (Hxe : x == Sender.rate s) by (rewrite Hx, Hd0; ring).
      rewrite Lin; [rewrite Hxe; apply Qle_refl | rewrite Hxe; exact Hlo
                    | rewrite Hxe; exact Hhi].
  - apply Qgeb_false_lt in E.
    assert (Hz : Qeq_bool (1 -' d) 0 = false).
    { destruct (Qeq_bool _ 0) eqn:Ez; [| reflexivity].
      apply Qeq_bool_iff in Ez. rewrite Qminus'_correct in Ez.
      exfalso. lra. }
    rewrite Hz.
    set (x := Sender.rate s /' (1 -' d)).
    assert (Hx : x == Sender.rate s / (1 - d)).
    { unfold x. rewrite Qdiv'_correct, Qminus'_correct. reflexivity. }
    assert (Hle : x <= Sender.rate s).
    { rewrite Hx. apply Qle_shift_div_r; [lra | nra]. }
    assert (Hx0 : 0 <= x).
    { rewrite Hx. apply Qle_shift_div_l; [lra | lra]. }
    exists (Sender.set_rate x s). split; [reflexivity |].
    destruct (set_rate_bounds x s Hb) as (L1 & L2 & Lin & Llo & Lhi).
    pose proof (set_rate_only_rate x s) as Lf.
    repeat (apply conj); try assumption.
    + intros Hnn. exfalso.
      assert (0 <= delta * Sender.delta_scale s) by nra. lra.
    + intros _.
      destruct (Qlt_le_dec x MIN_RATE) as [G | G].
      * rewrite (Llo G). exact Hlo.
      * rewrite Lin; [exact Hle | exact G |].
        exact (Qle_trans _ _ _ Hle Hhi).
Qed.

(** A rational that is not negative and below the overflow threshold
    stands for a finite float. *)
Lemma is_inf_false (x : Q) :
  0 <= x -> x < float_overflow -> is_inf x = false.
Proof.
  intros Hnn Hlt. unfold is_inf.
  destruct (Qle_bool float_overflow (Qabs x)) eqn:E; [| reflexivity].
  apply Qle_bool_iff in E. rewrite (Qabs_pos x Hnn) in E.
  exfalso. exact (Qlt_not_le _ _ Hlt E).
Qed.

(** [int(x)] of a finite float that is not negative is its floor. *)
Lemma py_int_floor (x : Q) :
  0 <= x -> x < float_overflow -> Sender.py_int x = Ret (Qfloor x).
Proof.
  intros Hx Hlt. unfold Sender.py_int. rewrite (is_inf_false Hx Hlt).
  f_equal. destruct x as [n d]. cbn [Qnum Qden Qfloor].
  apply Z.quot_div_nonneg; [| reflexivity].
  unfold Qle in Hx. cbn in Hx. lia.
Qed.

Lemma py_int_bounds (x : Q) (c : Z) :
  0 <= x -> x < float_overflow ->
  exists z,
    Sender.py_int x = Ret z
    /\ (0 <= z)%Z
    /\ (inject_Z c <= x -> (c <= z)%Z)
    /\ (x <= inject_Z c -> (z <= c)%Z).
Proof.
  intros Hx Hlt. exists (Qfloor x). rewrite (py_int_floor Hx Hlt).
  repeat (apply conj).
  - reflexivity.
  - rewrite <- (Qfloor_Z 0). apply Qfloor_resp_le. exact Hx.
  - intros L. rewrite <- (Qfloor_Z c). apply Qfloor_resp_le. exact L.
  - intros L. rewrite <- (Qfloor_Z c). apply Qfloor_resp_le. exact L.
Qed.

(** An [int] of at most 53 bits is a float. *)
Lemma round_int_exact (n : Z) :
  (0 <= n <= 2 ^ 53)%Z -> Sender.round_int n = n.
Proof.
  intros [Hn0 Hn]. unfold Sender.round_int.
  rewrite (Z.abs_eq n Hn0).
  destruct (Z.ltb_spec n (2 ^ 53)) as [L | L]; [reflexivity |].
  assert (E : n = (2 ^ 53)%Z) by lia. subst n. reflexivity.
Qed.

(** A window of at most [2^53] times a factor of at most [1 + 2^960]
    is a finite float. *)
Lemma window_product_finite (c d : Q) :
  0 <= c -> c <= inject_Z (2 ^ 53) ->
  0 <= d -> d <= inject_Z (2 ^ 960) ->
  c * (1 + d) < float_overflow.
Proof.
  assert (K : inject_Z (2 ^ 53) * (1 + inject_Z (2 ^ 960)) < float_overflow)
    by (vm_compute; reflexivity).
  assert (A0 : 0 <= inject_Z (2 ^ 53)) by (vm_compute; discriminate).
  revert K A0.
  generalize (inject_Z (2 ^ 53)) (inject_Z (2 ^ 960)) float_overflow.
  intros A B T K A0 Hc0 HcA Hd0 HdB.
  assert (S1 : c * (1 + d) <= A * (1 + d)).
  { apply Qmult_le_compat_r; [exact HcA | lra]. }
  assert (S2 : A * (1 + d) <= A * (1 + B)).
  { rewrite (Qmult_comm A (1 + d)), (Qmult_comm A (1 + B)).
    apply Qmult_le_compat_r; [lra | exact A0]. }
  lra.
Qed.

(** [apply_cwnd_delta] truncates.  For a window that a float holds
    exactly (at most [2^53]) and a scaled action of at most [2^960], which
    keep the product within the floats, the call returns; the new window
    is an integer that an action that is not negative never lowers and one
    that is not positive never raises, it never becomes negative, and a
    window of 0 stays 0, since [set_cwnd] has no lower bound. *)
Theorem apply_cwnd_delta_truncates :
  forall (delta : Q) (s : Sender.t),
    (0 <= Sender.cwnd s <= 2 ^ 53)%Z ->
    0 <= Sender.delta_scale s ->
    delta * Sender.delta_scale s <= inject_Z (2 ^ 960) ->
    exists s',
      Sender.apply_cwnd_delta delta s = Ret s'
      /\ (0 <= Sender.cwnd s')%Z
      /\ (0 <= delta -> (Sender.cwnd s <= Sender.cwnd s')%Z)
      /\ (delta <= 0 -> (Sender.cwnd s' <= Sender.cwnd s)%Z)
      /\ (Sender.cwnd s = 0%Z -> Sender.cwnd s' = 0%Z)
      /\ s' = Sender.with_cwnd (Sender.cwnd s') s.
Proof.
  intros delta s [Hc Hc53] Hscale Hbound.
  assert (Hcq : 0 <= inject_Z (Sender.cwnd s)).
  { rewrite <- (Zle_Qle 0). exact Hc. }
  assert (Hcq53 : inject_Z (Sender.cwnd s) <= inject_Z (2 ^ 53)).
  { rewrite <- Zle_Qle. exact Hc53. }
  assert (Hfin : forall x, 0 <= x -> x <= inject_Z (Sender.cwnd s) ->
                           x < float_overflow).
  { intros x Hx0 Hxc.
    apply Qle_lt_trans with (y := inject_Z (Sender.cwnd s) * (1 + 0)).
    - apply Qle_trans with (y := inject_Z (Sender.cwnd s)); [exact Hxc |].
      ring_simplify. apply Qle_refl.
    - apply window_product_finite; try assumption; try apply Qle_refl.
      vm_compute. discriminate. }
  unfold Sender.apply_cwnd_delta, Sender.float_of_int. cbv zeta.
  rewrite (is_inf_false Hcq (Hfin _ Hcq (Qle_refl _))).
  rewrite (round_int_exact (conj Hc Hc53)).
  set (d := delta *' Sender.delta_scale s).
  assert (Hd : d == delta * Sender.delta_scale s) by apply Qmult'_correct.
  destruct (Qgeb d 0) eqn:E.
  - apply Qgeb_le in E.
    assert (HdB : d <= inject_Z (2 ^ 960)) by (rewrite Hd; exact Hbound).
    assert (Hdfin : is_inf d = false).
    { apply is_inf_false; [exact E |].
      apply Qle_lt_trans with (y := inject_Z (2 ^ 960)); [exact HdB |].
      vm_compute. reflexivity. }
    rewrite Hdfin. cbn [andb].
    set (x := inject_Z (Sender.cwnd s) *' (1 +' d)).
    assert (Hx : x == inject_Z (Sender.cwnd s) * (1 + d)).
    { unfold x. rewrite Qmult'_correct, Qplus'_correct. reflexivity. }
    assert (Hx0 : 0 <= x) by (rewrite Hx; nra).
    assert (HxT : x < float_overflow).
    { rewrite Hx. apply window_product_finite; assumption. }
    destruct (py_int_bounds (Sender.cwnd s) Hx0 HxT)
      as (z & Hz & B0 & Blo & Bhi).
    unfold Sender.set_cwnd. rewrite Hz.
    eexists. split; [reflexivity |]. sender_simpl.
    repeat (apply conj); try reflexivity.
    + exact B0.
    + intros _. apply Blo. rewrite Hx. nra.
    + intros Hneg. apply Bhi.
      assert (Hd0 : d == 0).
      { apply Qle_antisym; [| exact E]. rewrite Hd.
        setoid_replace 0 with (0 * Sender.delta_scale s) by ring.
        apply Qmult_le_compat_r; assumption. }
      rewrite Hx, Hd0. ring_simplify. apply Qle_refl.
    + intros Hz0. apply Z.le_antisymm; [| exact B0].
      rewrite <- Hz0. apply Bhi. rewrite Hx, Hz0.
      change (inject_Z 0) with 0. lra.
  - unfold py_div. rewrite (one_minus_negative _ E).
    apply Qgeb_false_lt in E.
    set (x := inject_Z (Sender.cwnd s) /' (1 -' d)).
    assert (Hx : x == inject_Z (Sender.cwnd s) / (1 - d)).
    { unfold x. rewrite Qdiv'_correct, Qminus'_correct. reflexivity. }
    assert (Hle : x <= inject_Z (Sender.cwnd s)).
    { rewrite Hx. apply Qle_shift_div_r; [lra | nra]. }
    assert (Hx0 : 0 <= x).
    { rewrite Hx. apply Qle_shift_div_l; [lra | lra]. }
    destruct (py_int_bounds (Sender.cwnd s) Hx0 (Hfin _ Hx0 Hle))
      as (z & Hz & B0 & Blo & Bhi).
    unfold Sender.set_cwnd. rewrite Hz.
    eexists. split; [reflexivity |]. sender_simpl.
    repeat (apply conj); try reflexivity.
    + exact B0.
    + intros Hnn. exfalso.
      assert (0 <= delta * Sender.delta_scale s) by nra. lra.
    + intros _. apply Bhi. exact Hle.
    + intros Hz0. apply Z.le_antisymm; [| exact B0].
      rewrite <- Hz0. apply Bhi. exact Hle.
Qed.


End Rate.

(** ** The cursor of a trace *)

Lemma Qle_bool_false_lt (a b : Q) : Qle_bool a b = false -> b < a.
Proof.
  intros E. apply Qnot_le_lt. intros L. apply Qle_bool_iff in L. congruence.
Qed.

Lemma nth_error_Some_lt {A} (l : list A) (n : nat) (x : A) :
  nth_error l n = Some x -> (n < length l)%nat.
Proof. intros E. apply nth_error_Some. congruence. Qed.

(** The loop of [get_bandwidth] and [get_delay]: with the fuel the model
    gives it the loop has ended by itself; the cursor has only moved
    forward, over timestamps that are not after [ts], and stands before a
    timestamp that is after [ts], or at the end. *)
Lemma advance_spec (tss : list Q) (ts : Q) :
  forall (fuel i : nat),
    (length tss <= fuel + i + 1)%nat ->
    let i' := Trace.advance fuel tss i ts in
    (i <= i')%nat
    /\ (i < length tss -> i' < length tss)%nat
    /\ (forall j, (i < j <= i')%nat ->
                  exists t, nth_error tss j = Some t /\ t <= ts)
    /\ (forall t, nth_error tss (i' + 1) = Some t -> ts < t).
Proof.
  induction fuel as [| fuel IH]; intros i Hf; cbn [Trace.advance]; cbv zeta.
  - repeat (apply conj); try lia.
    intros t Ht. apply nth_error_Some_lt in Ht. lia.
  - destruct (nth_error tss (i + 1)) as [t1 |] eqn:E1.
    + destruct (Qle_bool t1 ts) eqn:E2.
      * destruct (IH (i + 1)%nat ltac:(lia)) as (I1 & I2 & I3 & I4).
        apply Qle_bool_iff in E2.
        assert (Hlt : (i + 1 < length tss)%nat)
          by (eapply nth_error_Some_lt; eauto).
        repeat (apply conj).
        -- lia.
        -- intros _. apply I2. exact Hlt.
        -- intros j Hj. destruct (Nat.eq_dec j (i + 1)) as [Hj' | Hne].
           ++ subst j. exists t1. split; assumption.
           ++ apply I3. lia.
        -- exact I4.
      * repeat (apply conj); try lia.
        intros t Ht. rewrite E1 in Ht. inversion Ht; subst.
        apply Qle_bool_false_lt. exact E2.
    + repeat (apply conj); try lia. intros t Ht. congruence.
Qed.

Lemma advance_ge (tss : list Q) (ts : Q) :
  forall (fuel i : nat), (i <= Trace.advance fuel tss i ts)%nat.
Proof.
  induction fuel as [| fuel IH]; intros i; cbn [Trace.advance]; [lia |].
  destruct (nth_error tss (i + 1)); [| lia].
  destruct (Qle_bool q ts); [| lia].
  specialize (IH (i + 1)%nat). lia.
Qed.

Lemma advance_moves (tss : list Q) (ts t1 : Q) (fuel i : nat) :
  nth_error tss (i + 1) = Some t1 -> t1 <= ts ->
  (i + 1 <= Trace.advance (S fuel) tss i ts)%nat.
Proof.
  intros E L. cbn [Trace.advance]. rewrite E.
  apply Qle_bool_iff in L. rewrite L. apply advance_ge.
Qed.

(** Once the cursor stands where the loop ends for [ts1], the loop does
    not move it for an earlier [ts2]. *)
Lemma advance_stays (tss : list Q) (ts1 ts2 : Q) (fuel fuel' i : nat) :
  (length tss <= fuel + i + 1)%nat -> ts2 <= ts1 ->
  Trace.advance fuel' tss (Trace.advance fuel tss i ts1) ts2
  = Trace.advance fuel tss i ts1.
Proof.
  intros Hf Hle.
  destruct (advance_spec tss ts1 fuel i Hf) as (_ & _ & _ & Hexit).
  cbv zeta in Hexit.
  destruct fuel' as [| fuel']; cbn [Trace.advance]; [reflexivity |].
  destruct (nth_error tss (Trace.advance fuel tss i ts1 + 1)) as [t |] eqn:E;
    [| reflexivity].
  specialize (Hexit t eq_refl).
  destruct (Qle_bool t ts2) eqn:E2; [| reflexivity].
  apply Qle_bool_iff in E2. exfalso. lra.
Qed.

(** On a trace whose three lists have the same length and whose cursor
    is inside them, [get_bandwidth] and [get_delay] never raise; they move
    the cursor forward, never past the last entry, over the timestamps that
    are not after [ts] up to the first one that is, and return the bandwidth
    and the delay at the cursor.  Nothing but the cursor changes. *)
Theorem trace_lookup_follows_the_cursor :
  forall (tr : Trace.t) (ts : Q),
    length (Trace.timestamps tr) = length (Trace.bandwidths tr) ->
    length (Trace.delays tr) = length (Trace.timestamps tr) ->
    (Trace.idx tr < length (Trace.timestamps tr))%nat ->
    exists (b d : Q) (i : nat),
      Trace.get_bandwidth tr ts = (Ret b, Trace.set_idx i tr)
      /\ Trace.get_delay tr ts = (Ret d, Trace.set_idx i tr)
      /\ (Trace.idx tr <= i < length (Trace.timestamps tr))%nat
      /\ nth_error (Trace.bandwidths tr) i = Some b
      /\ nth_error (Trace.delays tr) i = Some d
      /\ (forall j, (Trace.idx tr < j <= i)%nat ->
                    exists t, nth_error (Trace.timestamps tr) j = Some t
                              /\ t <= ts)
      /\ (forall t, nth_error (Trace.timestamps tr) (i + 1) = Some t ->
                    ts < t).
Proof.
  intros [tss bws dls lr qs ap ix] ts.
  cbn [Trace.timestamps Trace.idx Trace.bandwidths Trace.delays].
  intros Hb Hd Hi.
  destruct (advance_spec tss ts (length tss) ix ltac:(lia))
    as (I1 & I2 & I3 & I4).
  cbv zeta in *. specialize (I2 Hi).
  unfold Trace.get_bandwidth, Trace.get_delay, Trace.seek.
  cbn [Trace.timestamps Trace.idx Trace.set_idx Trace.bandwidths
       Trace.delays Trace.loss_rate Trace.queue_size Trace.ack_delay_prob].
  remember (Trace.advance (length tss) tss ix ts) as i eqn:Ei.
  destruct (nth_error bws i) as [b |] eqn:Eb;
    [| apply nth_error_None in Eb; lia].
  destruct (nth_error dls i) as [d |] eqn:Ed;
    [| apply nth_error_None in Ed; lia].
  exists b, d, i.
  assert (Hleb : Nat.leb (length dls) i = false) by (apply Nat.leb_gt; lia).
  rewrite Hleb. unfold py_index. rewrite Eb, Ed.
  repeat (apply conj); try reflexivity; try assumption; lia.
Qed.

(** The cursor never moves back: a look-up at a time that is not after
    the time of the look-up before it is answered from where the cursor
    stands, with the same value, whatever the trace. *)
Theorem trace_lookup_never_goes_back :
  forall (tr : Trace.t) (ts1 ts2 : Q),
    ts2 <= ts1 ->
    Trace.get_bandwidth (snd (Trace.get_bandwidth tr ts1)) ts2
    = Trace.get_bandwidth tr ts1
    /\ Trace.get_delay (snd (Trace.get_delay tr ts1)) ts2
       = Trace.get_delay tr ts1
    /\ snd (Trace.get_delay tr ts1) = snd (Trace.get_bandwidth tr ts1).
Proof.
  intros tr ts1 ts2 Hle.
  assert (Hs : Trace.seek (Trace.seek tr ts1) ts2 = Trace.seek tr ts1).
  { unfold Trace.seek. destruct tr as [tss bws dls lr qs ap ix].
    cbn [Trace.timestamps Trace.idx Trace.set_idx Trace.bandwidths
         Trace.delays Trace.loss_rate Trace.queue_size Trace.ack_delay_prob].
    rewrite advance_stays by (assumption || lia). reflexivity. }
  unfold Trace.get_bandwidth, Trace.get_delay. cbn [snd].
  rewrite Hs. repeat (apply conj); reflexivity.
Qed.

(** A trace whose delays are fewer than its timestamps is accepted by the
    constructor; once the cursor has passed the delays, [get_bandwidth]
    returns the last delay, not a bandwidth.  Here the trace has one
    delay. *)
Theorem get_bandwidth_returns_the_delay_past_the_delays :
  forall (t0 t1 : Q) (tss bws : list Q) (b0 b1 d lr : Q) (qs : Z) (ts : Q),
    length tss = length bws ->
    t1 <= ts ->
    exists tr tr',
      Trace.init (t0 :: t1 :: tss) (b0 :: b1 :: bws) [d] lr qs = Ret tr
      /\ Trace.get_bandwidth tr ts = (Ret d, tr')
      /\ Trace.get_delay tr ts = (Ret d, tr').
Proof.
  intros t0 t1 tss bws b0 b1 d lr qs ts Hlen Hle.
  unfold Trace.init. cbn [length]. rewrite Hlen, Nat.eqb_refl.
  eexists.
  exists (Trace.mk (t0 :: t1 :: tss) (b0 :: b1 :: bws) [d] lr qs 0
            (Trace.advance (S (S (length tss))) (t0 :: t1 :: tss) 0 ts)).
  split; [reflexivity |].
  unfold Trace.get_bandwidth, Trace.get_delay, Trace.seek.
  cbn [Trace.timestamps Trace.idx Trace.set_idx Trace.bandwidths
       Trace.delays Trace.loss_rate Trace.queue_size Trace.ack_delay_prob
       length].
  pose proof (@advance_moves (t0 :: t1 :: tss) ts t1 (S (length tss)) 0
                eq_refl Hle) as Hm.
  destruct (Trace.advance (S (S (length tss))) (t0 :: t1 :: tss) 0 ts)
    as [| i']; [cbn in Hm; lia |].
  cbn [Nat.leb]. split; reflexivity.
Qed.

(** An empty trace is accepted by the constructor, and then every
    look-up raises [IndexError]: [get_bandwidth] and [get_delay] on
    [self.delays[-1]], [is_finished] on [self.timestamps[-1]]. *)
Theorem empty_trace_raises_on_every_lookup :
  forall (lr : Q) (qs : Z),
    exists tr,
      Trace.init [] [] [] lr qs = Ret tr
      /\ forall ts,
           fst (Trace.get_bandwidth tr ts) = Exc IndexError
           /\ fst (Trace.get_delay tr ts) = Exc IndexError
           /\ Trace.is_finished tr ts = Exc IndexError.
Proof.
  intros lr qs. eexists. split; [reflexivity |].
  intros ts. repeat (apply conj); reflexivity.
Qed.


(** ** The log level of TensorFlow *)

(** [set_tf_loglevel] leaves ['1'] in [TF_CPP_MIN_LOG_LEVEL] for every
    level from [logging.WARNING] up and ['0'] for every level below: the
    values ['3'] and ['2'] that its first two tests write are overwritten by
    the third, whose [else] belongs to it alone.  Nothing else of the
    environment changes, and the logger gets the level. *)
Theorem set_tf_loglevel_writes_0_or_1 :
  forall (level : Z) (p : Utils.process),
    Utils.environ (Utils.set_tf_loglevel level p) "TF_CPP_MIN_LOG_LEVEL"
    = Some (if (Utils.WARNING <=? level)%Z then "1" else "0")%string
    /\ (forall k : string,
           k <> "TF_CPP_MIN_LOG_LEVEL"%string ->
           Utils.environ (Utils.set_tf_loglevel level p) k
           = Utils.environ p k)
    /\ Utils.tensorflow_level (Utils.set_tf_loglevel level p) = level.
Proof.
  intros level p. unfold Utils.set_tf_loglevel.
  repeat (apply conj).
  - destruct (Utils.FATAL <=? level)%Z, (Utils.ERROR <=? level)%Z,
      (Utils.WARNING <=? level)%Z; reflexivity.
  - intros k Hk. apply String.eqb_neq in Hk.
    destruct (Utils.FATAL <=? level)%Z, (Utils.ERROR <=? level)%Z,
      (Utils.WARNING <=? level)%Z;
      cbn [Utils.environ Utils.setenv]; rewrite ?Hk; reflexivity.
  - reflexivity.
Qed.

(** ** The replay of an emulation log *)

Lemma py_getitem_nat {A} (l : list A) (i : nat) :
  py_getitem l (Z.of_nat i) = py_index l i.
Proof.
  unfold py_getitem. cbv zeta.
  destruct (0 <=? Z.of_nat i)%Z eqn:E; [| apply Z.leb_gt in E; lia].
  rewrite Nat2Z.id. reflexivity.
Qed.

Lemma py_index_app_r {A} (l1 l2 : list A) (x : A) :
  py_index (l1 ++ x :: l2) (length l1) = Ret x.
Proof.
  unfold py_index. rewrite nth_error_app2 by lia.
  rewrite Nat.sub_diag. reflexivity.
Qed.

Lemma py_index_end {A} (l : list A) : py_index l (length l) = Exc IndexError.
Proof.
  unfold py_index.
  destruct (nth_error l (length l)) eqn:E; [| reflexivity].
  assert (nth_error l (length l) <> None) by congruence.
  apply nth_error_Some in H. lia.
Qed.

(** At the end of the log [get_ts] raises and leaves the object as it
    is. *)
Lemma get_ts_at_end (tsl srl : list Q) :
  EmuReplay.get_ts (EmuReplay.mk tsl srl (Z.of_nat (length tsl)))
  = (Exc IndexError, EmuReplay.mk tsl srl (Z.of_nat (length tsl))).
Proof.
  unfold EmuReplay.get_ts. cbn [EmuReplay.ts EmuReplay.idx EmuReplay.send_rate].
  rewrite Z.ltb_irrefl.
  cbn [EmuReplay.ts EmuReplay.idx EmuReplay.send_rate].
  rewrite py_getitem_nat, py_index_end. reflexivity.
Qed.

Lemma get_ts_times_at_end (tsl srl : list Q) (m : nat) :
  EmuReplay.get_ts_times m (EmuReplay.mk tsl srl (Z.of_nat (length tsl)))
  = (repeat (Exc IndexError) m, EmuReplay.mk tsl srl (Z.of_nat (length tsl))).
Proof.
  induction m as [| m IH]; [reflexivity |].
  cbn [EmuReplay.get_ts_times]. rewrite get_ts_at_end, IH. reflexivity.
Qed.

Lemma get_ts_times_from (srl : list Q) (m : nat) :
  forall (done rest : list Q),
    EmuReplay.get_ts_times (length rest + m)
      (EmuReplay.mk (done ++ rest) srl (Z.of_nat (length done)))
    = (map Ret rest ++ repeat (Exc IndexError) m,
       EmuReplay.mk (done ++ rest) srl (Z.of_nat (length (done ++ rest)))).
Proof.
  intros done rest. revert done.
  induction rest as [| x rest IH]; intros done.
  - rewrite app_nil_r. cbn [length Nat.add map app].
    apply get_ts_times_at_end.
  - cbn [length Nat.add EmuReplay.get_ts_times].
    unfold EmuReplay.get_ts at 1.
    cbn [EmuReplay.ts EmuReplay.idx EmuReplay.send_rate].
    assert (Hlt : (Z.of_nat (length (done ++ x :: rest))
                   <? Z.of_nat (length done))%Z = false).
    { apply Z.ltb_ge. rewrite length_app. lia. }
    rewrite Hlt. cbn [EmuReplay.ts EmuReplay.idx EmuReplay.send_rate].
    rewrite py_getitem_nat, py_index_app_r.
    replace (Z.of_nat (length done) + 1)%Z
      with (Z.of_nat (length (done ++ [x])))
      by (rewrite length_app; cbn [length]; lia).
    replace (done ++ x :: rest) with ((done ++ [x]) ++ rest)
      by (rewrite <- app_assoc; reflexivity).
    rewrite IH. reflexivity.
Qed.

(** A fresh [EmuReplay] hands out the timestamps of the log one by one,
    in order, and from then on every [get_ts] raises [IndexError] and leaves
    the cursor at the length of the log: the test [self.idx >
    len(self.ts)], which would wrap the cursor to the last row, is never
    true, because the cursor stops at [len(self.ts)]. *)
Theorem get_ts_replays_the_log_then_raises :
  forall (tsl srl : list Q) (m : nat),
    EmuReplay.get_ts_times (length tsl + m) (EmuReplay.init tsl srl)
    = (map Ret tsl ++ repeat (Exc IndexError) m,
       EmuReplay.mk tsl srl (Z.of_nat (length tsl))).
Proof.
  intros tsl srl m. exact (get_ts_times_from srl m [] tsl).
Qed.

Section Replay.
Context `{Constants}.

(** [get_rate] reads the row under the cursor, which [get_ts] has already
    moved: after the [k]-th timestamp (from 0) has been handed out,
    [get_rate] returns the send rate of row [k + 1], in packets per second,
    and raises [IndexError] when row [k] was the last. *)
Theorem get_rate_reads_the_row_after_get_ts :
  forall (tsl srl : list Q) (k : nat),
    (k < length tsl)%nat ->
    EmuReplay.get_rate
      (snd (EmuReplay.get_ts_times (S k) (EmuReplay.init tsl srl)))
    = match nth_error srl (S k) with
      | Some x => Ret (x /' 8 /' inject_Z BYTES_PER_PACKET)
      | None => Exc IndexError
      end.
Proof.
  intros tsl srl k Hk.
  assert (G : forall n done rest,
             (n <= length rest)%nat ->
             snd (EmuReplay.get_ts_times n
                    (EmuReplay.mk (done ++ rest) srl
                                  (Z.of_nat (length done))))
             = EmuReplay.mk (done ++ rest) srl (Z.of_nat (length done + n))).
  { induction n as [| n IHn]; intros done rest Hn.
    - cbn. rewrite Nat.add_0_r. reflexivity.
    - destruct rest as [| x rest]; [cbn in Hn; lia |].
      cbn [EmuReplay.get_ts_times]. unfold EmuReplay.get_ts at 1.
      cbn [EmuReplay.ts EmuReplay.idx EmuReplay.send_rate].
      assert (Hlt : (Z.of_nat (length (done ++ x :: rest))
                     <? Z.of_nat (length done))%Z = false).
      { apply Z.ltb_ge. rewrite length_app. lia. }
      rewrite Hlt. cbn [EmuReplay.ts EmuReplay.idx EmuReplay.send_rate].
      rewrite py_getitem_nat, py_index_app_r.
      replace (Z.of_nat (length done) + 1)%Z
        with (Z.of_nat (length (done ++ [x])))
        by (rewrite length_app; cbn [length]; lia).
      replace (done ++ x :: rest) with ((done ++ [x]) ++ rest)
        by (rewrite <- app_assoc; reflexivity).
      specialize (IHn (done ++ [x]) rest ltac:(cbn in Hn; lia)).
      destruct (EmuReplay.get_ts_times n _) as [xs r2]. cbn [snd] in *.
      rewrite IHn. rewrite length_app. cbn [length].
      f_equal. lia. }
  unfold EmuReplay.init.
  pose proof (G (S k) [] tsl ltac:(lia)) as G0.
  cbn [app length Nat.add] in G0. change (Z.of_nat 0) with 0%Z in G0.
  rewrite G0.
  unfold EmuReplay.get_rate. cbn [EmuReplay.send_rate EmuReplay.idx length].
  rewrite py_getitem_nat. unfold py_index. cbn [Nat.add].
  destruct (nth_error srl (S k)) as [x |]; [| reflexivity].
  apply py_div_nonzero.
  pose proof BYTES_PER_PACKET_pos as Hpos.
  unfold Qeq. cbn. lia.
Qed.

End Replay.

(** ** The pacing event *)

Section Pacing.
Context `{Constants} `{SenderObsClass} `{LinkClass} `{RandomClass}.
Import Network.

(** The pacing events of a queue: its SEND events at hop 0. *)
Definition pacing_events (q : list Event.t) : nat :=
  length (filter (fun x => negb (is_packet x)) q).

Lemma pacing_events_cons (x : Event.t) (q : list Event.t) :
  pacing_events (x :: q)
  = ((if is_packet x then 0 else 1) + pacing_events q)%nat.
Proof. unfold pacing_events. cbn. destruct (is_packet x); reflexivity. Qed.

Lemma pacing_events_heappush (q : list Event.t) (x : Event.t) :
  pacing_events (Event.heappush q x)
  = ((if is_packet x then 0 else 1) + pacing_events q)%nat.
Proof.
  induction q as [| y q IH]; cbn [Event.heappush].
  - apply pacing_events_cons.
  - destruct (Event.ltb x y).
    + rewrite !pacing_events_cons. reflexivity.
    + rewrite !pacing_events_cons, IH. lia.
Qed.

(** Dispatching an event puts back as many pacing events as it took. *)
Lemma dispatch_event_pacing (ev : Event.t) (xd : list Q) (e : env) :
  wp (dispatch_event ev xd)
     (fun _ e' => pacing_events (q (net e'))
                  = pacing_events (ev :: q (net e)))
     (fun _ => True) e.
Proof.
  unfold dispatch_event, dispatch_send, dispatch_ack. wp_unfold.
  wp_go; try exact I; env_simpl.
  all: rewrite ?pacing_events_heappush, pacing_events_cons.
  all: unfold is_packet; cbn [Event.type Event.next_hop Event.type_eqb].
  all: rewrite ?add_1_eqb_0, ?andb_false_r; cbn [negb andb].
  all: try rewrite E in *; try rewrite E0 in *;
    cbn [negb andb Event.type_eqb] in *.
  all: try reflexivity; try lia.
Qed.

(** In every state of an episode exactly one pacing event is pending: the
    queue is never empty, and [self.q[0]] in [run_for_dur] never raises
    [IndexError]. *)
Theorem one_pacing_event_is_always_pending :
  forall e : env,
    episode e ->
    pacing_events (q (net e)) = 1%nat
    /\ exists hd, py_first (q (net e)) = Ret hd.
Proof.
  intros e He.
  assert (Hp : pacing_events (q (net e)) = 1%nat).
  { induction He as [e e' E | e e' Hb E | e delta s' _ IH E
                     | e delta s' _ IH E | e dur end_time e' _ IH E
                     | e ev rest xd r e' _ IH Hq E | e hd rest _ IH Hq
                     | e xd e' _ IH E | e e' _ IH Hn Hs].
    - pose proof (wp_ok (wp_network_reset e) E) as (Hq & _).
      rewrite Hq. reflexivity.
    - pose proof (wp_ok (wp_network_init e) E) as (Hq & _).
      rewrite Hq. reflexivity.
    - exact IH.
    - exact IH.
    - pose proof (wp_ok (wp_open_interval_frame dur e) E) as (Hn & _).
      rewrite Hn. exact IH.
    - pose proof (wp_ok (dispatch_event_pacing ev xd _) E) as Hd.
      revert Hd. env_simpl. intros Hd. rewrite Hd, <- Hq. exact IH.
    - exact IH.
    - pose proof (wp_ok (wp_run_for_dur_finish xd e) E) as (Hq & _).
      rewrite Hq. exact IH.
    - rewrite Hn. exact IH. }
  split; [exact Hp |].
  destruct (q (net e)) as [| hd rest]; [discriminate Hp |].
  exists hd. reflexivity.
Qed.

End Pacing.

(** ** Construction of the environment *)

Lemma bind_get {S B} (k : S -> M S B) (s : S) : bind get k s = k s s.
Proof. reflexivity. Qed.

Lemma bind_gets {S A B} (f : S -> A) (k : A -> M S B) (s : S) :
  bind (gets f) k s = k (f s) s.
Proof. reflexivity. Qed.

Lemma bind_ret {S A B} (a : A) (k : A -> M S B) (s : S) :
  bind (ret a) k s = k a s.
Proof. reflexivity. Qed.

Lemma bind_modify {S B} (f : S -> S) (k : unit -> M S B) (s : S) :
  bind (modify f) k s = k tt (f s).
Proof. reflexivity. Qed.

Lemma bind_raise {S A B} (x : exn) (k : A -> M S B) (s : S) :
  bind (@raise S A x) k s = Raise x s.
Proof. reflexivity. Qed.

Lemma bind_returned {S A B} (c : M S A) (k : A -> M S B) (s s1 : S) (a : A) :
  c s = Ok a s1 -> bind c k s = k a s1.
Proof. intros E. unfold bind. rewrite E. reflexivity. Qed.

Lemma bind_raised {S A B} (c : M S A) (k : A -> M S B) (s s1 : S) (x : exn) :
  c s = Raise x s1 -> bind c k s = Raise x s1.
Proof. intros E. unfold bind. rewrite E. reflexivity. Qed.

Lemma bind_assoc {S A B C} (c : M S A) (k : A -> M S B) (k' : B -> M S C)
      (s : S) :
  bind (bind c k) k' s = bind c (fun a => bind (k a) k') s.
Proof. unfold bind. destruct (c s); reflexivity. Qed.

Section Construction.
Context `{Constants} `{SenderObsClass} `{LinkClass} `{RandomClass}.
Import Network.
Import SimulatedNetworkEnv.

(** [np.random.choice] writes the generator alone. *)
Lemma choose_trace_returned (e e1 : env) (tr : Trace.t) :
  choose_trace e = Ok tr e1 -> exists g, e1 = with_np_random g e.
Proof.
  unfold choose_trace. rewrite bind_get.
  destruct (traces e); [discriminate |].
  destruct (random_choice _ _) as [i g].
  rewrite bind_modify. unfold lift.
  destruct (py_index _ i); intros E; inversion E. exists g. reflexivity.
Qed.

Lemma bind_link_call {A B} (f : LinkWorld * Trace.t -> A * (LinkWorld * Trace.t))
      (k : A -> M env B) (e : env) :
  bind (link_call f) k e
  = k (fst (f (links e, current_trace e)))
      (with_links (fst (snd (f (links e, current_trace e))))
         (with_current_trace (snd (snd (f (links e, current_trace e)))) e)).
Proof.
  unfold bind, link_call.
  destruct (f (links e, current_trace e)) as [a [l tr]]. reflexivity.
Qed.

(** With ["cubic"], which the assertion of [__init__] lets through,
    [create_new_links_and_senders] raises [NotImplementedError]. *)
Lemma create_cubic_raises (e : env) :
  congestion_control_type e = "cubic"%string ->
  exists e', create_new_links_and_senders e = Raise NotImplementedError e'.
Proof.
  intros Hc. eexists. unfold create_new_links_and_senders.
  rewrite bind_link_call, bind_get.
  env_simpl. rewrite Hc. cbn [String.eqb Ascii.eqb Bool.eqb].
  rewrite bind_raise. reflexivity.
Qed.

(** What [__init__] leaves when it returns. *)
Lemma init_effect (e : env) :
  hoare init
        (fun _ e' =>
           congestion_control_type e = "aurora"%string
           /\ run_dur e' = None
           /\ steps_taken e' = 0%Z
           /\ episodes_run e' = (-1)%Z
           /\ next_id e' = (next_id e + 1)%Z
           /\ use_cwnd e' = use_cwnd e
           /\ Sender.id (senders e') = next_id e
           /\ Sender.use_cwnd (senders e') = false
           /\ Sender.rate (senders e') = Sender.starting_rate (senders e')
           /\ Sender.lat_diff (senders e') = 0
           /\ cur_time (net e') = 0)
        e.
Proof.
  unfold init, choose_trace, create_new_links_and_senders, trace_call,
    Network.init, queue_initial_packets.
  wp_unfold. hoare_go; env_simpl.
  all: try discriminate.
  match goal with
  | Ha : String.eqb _ "aurora" = true |- _ => apply String.eqb_eq in Ha
  end.
  unfold Sender.reset_obs, Sender.init. sender_simpl.
  repeat (apply conj); try reflexivity; assumption.
Qed.

Lemma run_for_dur_None_raises (fuel : nat) (e : env) :
  exists e', run_for_dur fuel None e = Raise TypeError e'.
Proof.
  destruct (negb (Qeq_bool (Sender.lat_diff (senders e)) 0)) eqn:Ec.
  - eexists. unfold run_for_dur. apply bind_raised.
    unfold run_for_dur_events. apply bind_raised.
    unfold open_interval. rewrite bind_gets, Ec.
    unfold sender_do. rewrite bind_modify. apply bind_raised.
    unfold target_end_time. rewrite bind_get. reflexivity.
  - eexists. unfold run_for_dur. apply bind_raised.
    unfold run_for_dur_events. apply bind_raised.
    unfold open_interval. rewrite bind_gets, Ec.
    rewrite bind_ret. apply bind_raised.
    unfold target_end_time. rewrite bind_get. reflexivity.
Qed.

(** The environment can be built for ["aurora"] only.  Any type other
    than ["aurora"] and ["cubic"] fails the assertion of [__init__] before
    anything is written; ["cubic"] passes it and then raises
    [NotImplementedError] in [create_new_links_and_senders], once a trace has
    been drawn.  So an environment that exists has [use_cwnd] false; its
    [run_dur] is [None], it has taken no step, its episode counter is -1 and
    its sender has the first id and sends at its starting rate. *)
Theorem environment_is_built_for_aurora_only :
  forall (w : LinkWorld) (g : RandomState) (first_id : Z)
         (trs : list Trace.t) (hl : nat) (feats : list string) (cc : string)
         (tf : bool) (ds : Q) (cf : bool),
    let e := blank w g first_id trs hl feats cc tf ds cf in
    (cc <> "aurora"%string -> cc <> "cubic"%string ->
     init e = Raise AssertionError e)
    /\ (cc = "cubic"%string ->
        forall tr e1, choose_trace e = Ok tr e1 ->
                      exists e', init e = Raise NotImplementedError e')
    /\ (forall e',
           init e = Ok tt e' ->
           cc = "aurora"%string
           /\ use_cwnd e' = false
           /\ Sender.use_cwnd (senders e') = false
           /\ run_dur e' = None
           /\ steps_taken e' = 0%Z
           /\ episodes_run e' = (-1)%Z
           /\ Sender.id (senders e') = first_id
           /\ next_id e' = (first_id + 1)%Z
           /\ Sender.rate (senders e') = Sender.starting_rate (senders e')).
Proof.
  intros w g first_id trs hl feats cc tf ds cf e.
  repeat (apply conj).
  - intros Ha Hc. apply String.eqb_neq in Ha, Hc.
    unfold init. rewrite bind_get. subst e. env_simpl.
    unfold blank at 1 2. env_simpl. rewrite Ha, Hc. cbn [orb].
    rewrite bind_raise. reflexivity.
  - intros Hc tr e1 Ht.
    destruct (choose_trace_returned _ Ht) as (g1 & ->).
    destruct (@create_cubic_raises
                (with_current_trace tr (with_np_random g1 e)))
      as (e' & Hr).
    { subst e. env_simpl. unfold blank. env_simpl. exact Hc. }
    exists e'. unfold init. rewrite bind_get.
    assert (Hcc : congestion_control_type e = cc) by reflexivity.
    rewrite Hcc, Hc. cbn [String.eqb Ascii.eqb Bool.eqb orb].
    rewrite bind_ret, (@bind_returned _ _ _ _ _ _ _ _ Ht), bind_modify.
    apply bind_raised. exact Hr.
  - intros e' E.
    destruct (init_effect e E)
      as (Ha & Hd & Hst & Hep & Hn & Hu & Hid & Hsu & Hr & _).
    assert (Hcc : congestion_control_type e = cc) by reflexivity.
    assert (Hnid : next_id e = first_id) by reflexivity.
    assert (Hue : use_cwnd e = String.eqb cc "cubic") by reflexivity.
    rewrite Hcc in Ha. rewrite Hnid in *. rewrite Hu, Hue, Ha.
    repeat (apply conj); try assumption; reflexivity.
Qed.

(** [__init__] leaves [run_dur] at [None], and only [reset] gives it a
    value: a [step] on an environment that has been built but not reset
    applies the action and then raises [TypeError], on [self.cur_time +
    dur]. *)
Theorem step_before_the_first_reset_raises_TypeError :
  forall (w : LinkWorld) (g : RandomState) (first_id : Z)
         (trs : list Trace.t) (hl : nat) (feats : list string) (cc : string)
         (tf : bool) (ds : Q) (cf : bool) (e' : env)
         (fuel : nat) (actions : list Q) (a0 : Q),
    init (blank w g first_id trs hl feats cc tf ds cf) = Ok tt e' ->
    py_index actions 0 = Ret a0 ->
    exists e'', step fuel actions e' = Raise TypeError e''.
Proof.
  intros w g first_id trs hl feats cc tf ds cf e' fuel actions a0 E Ha.
  destruct (init_effect _ E) as (Hcc & Hd & _ & _ & _ & Hu & _).
  change (congestion_control_type (blank w g first_id trs hl feats cc tf ds cf))
    with cc in Hcc.
  change (use_cwnd (blank w g first_id trs hl feats cc tf ds cf))
    with (String.eqb cc "cubic") in Hu.
  rewrite Hcc in Hu. cbn in Hu.
  destruct (apply_rate_delta_returns a0 (senders e')) as (s1 & Hs1).
  destruct (run_for_dur_None_raises fuel (with_senders s1 e')) as (e'' & Hr).
  exists e''. unfold step.
  rewrite Ha. unfold lift at 1. rewrite bind_ret, bind_gets.
  rewrite Hs1. unfold lift at 1. rewrite bind_ret.
  unfold sender_do. rewrite bind_modify, bind_get. env_simpl.
  rewrite Hu, bind_ret, bind_get. env_simpl. rewrite Hd.
  apply bind_raised. exact Hr.
Qed.

End Construction.

(** ** The calls of the environment *)

Section Environment.
Context `{Constants} `{SenderObsClass} `{LinkClass} `{RandomClass}.
Import Network.
Import SimulatedNetworkEnv.

(** The attributes of the environment that the network never writes. *)
Definition env_frame (e e' : env) : Prop :=
  steps_taken e' = steps_taken e
  /\ episodes_run e' = episodes_run e
  /\ next_id e' = next_id e
  /\ history_len e' = history_len e
  /\ features e' = features e
  /\ use_cwnd e' = use_cwnd e
  /\ congestion_control_type e' = congestion_control_type e
  /\ train_flag e' = train_flag e
  /\ config_file e' = config_file e
  /\ delta_scale e' = delta_scale e.


Lemma env_frame_trans (e1 e2 e3 : env) :
  env_frame e1 e2 -> env_frame e2 e3 -> env_frame e1 e3.
Proof.
  unfold env_frame.
  intros (A1 & A2 & A3 & A4 & A5 & A6 & A7 & A8 & A9 & A10)
         (B1 & B2 & B3 & B4 & B5 & B6 & B7 & B8 & B9 & B10).
  rewrite B1, B2, B3, B4, B5, B6, B7, B8, B9, B10. auto 12.
Qed.

Ltac frame_go :=
  wp_unfold; wp_go; try exact I; env_simpl; unfold env_frame; env_simpl;
  auto 12.

Lemma dispatch_event_env_frame (ev : Event.t) (xd : list Q) (e : env) :
  wp (dispatch_event ev xd) (fun _ e' => env_frame e e') (fun _ => True) e.
Proof. unfold dispatch_event, dispatch_send, dispatch_ack. frame_go. Qed.

Lemma run_loop_env_frame (fuel : nat) (end_time : pyfloat) :
  forall (xd : list Q) (e : env),
    hoare (run_loop fuel end_time xd) (fun _ e' => env_frame e e') e.
Proof.
  induction fuel as [| fuel IH]; intros xd e r e' E.
  - discriminate E.
  - rewrite run_loop_unfold in E.
    destruct (q (net e)) as [| hd rest] eqn:Eq; [discriminate |].
    destruct (stops e end_time hd).
    + inversion E; subst. unfold env_frame. env_simpl. auto 12.
    + destruct (dispatch_event hd xd _) as [r1 e1 | |] eqn:Ed;
        try discriminate.
      pose proof (wp_ok (dispatch_event_env_frame hd xd _) Ed) as F1.
      pose proof (IH _ _ _ _ E) as F2.
      eapply env_frame_trans; [| exact F2].
      revert F1. unfold env_frame. env_simpl. auto.
Qed.

Lemma open_interval_env_frame (dur : option pyfloat) (e : env) :
  wp (open_interval dur) (fun _ e' => env_frame e e') (fun _ => True) e.
Proof. unfold open_interval, target_end_time. frame_go. Qed.

Lemma run_for_dur_finish_env_frame (xd : list Q) (e : env) :
  wp (run_for_dur_finish xd) (fun _ e' => env_frame e e') (fun _ => True) e.
Proof. unfold run_for_dur_finish. frame_go. Qed.

Lemma opened_kept (e : env) :
  Sender.starting_rate (opened e) = Sender.starting_rate (senders e)
  /\ Sender.history (opened e) = Sender.history (senders e)
  /\ Sender.rate (opened e) = Sender.rate (senders e).
Proof.
  unfold opened.
  match goal with
  | |- context [Sender.reset_obs ?n ?s] =>
      destruct (reset_obs_fields n s)
        as (_ & _ & _ & _ & _ & _ & _ & _ & _ & _ & _ & Hr & Hsr & _ & _
            & Hh & _)
  end.
  cbv zeta in *. rewrite Hr, Hsr, Hh.
  destruct (Qeq_bool (Sender.lat_diff (senders e)) 0); cbn [negb];
    sender_simpl; auto.
Qed.

(** What a call of [run_for_dur] that returns leaves of the sender and of
    the environment: the rate is the one it started with, the history has
    one more interval, and the attributes that count steps, episodes and
    senders are untouched. *)
Lemma run_for_dur_effect (fuel : nat) (dur : option pyfloat) (e : env) :
  hoare (run_for_dur fuel dur)
        (fun _ e' =>
           env_frame e e'
           /\ Sender.rate (senders e') = Sender.rate (senders e)
           /\ Sender.starting_rate (senders e')
              = Sender.starting_rate (senders e)
           /\ exists mi,
                Sender.history (senders e')
                = history_step (Sender.history (senders e)) mi)
        e.
Proof.
  intros [] e' E. unfold run_for_dur in E.
  apply bind_ok in E as (xd & e1 & E1 & E2).
  unfold run_for_dur_events in E1.
  apply bind_ok in E1 as (end_time & e0 & Eo & El).
  pose proof (wp_ok (wp_open_interval dur e) Eo) as (_ & Hs & _).
  pose proof (wp_ok (open_interval_env_frame dur e) Eo) as F0.
  destruct (@run_loop_effect _ _ _ _ fuel end_time [] e0 xd e1 El)
    as (Hf & _ & _).
  destruct Hf as (Lr & _ & _ & _ & _ & Lh & _ & _ & _ & _ & Lsr).
  pose proof (@run_loop_env_frame fuel end_time [] e0 xd e1 El) as F1.
  pose proof (wp_ok (wp_run_for_dur_finish xd e1) E2)
    as (_ & _ & _ & _ & Fr & Fsr & _ & (mi & _ & Fh) & _).
  pose proof (wp_ok (run_for_dur_finish_env_frame xd e1) E2) as F2.
  destruct (opened_kept e) as (Osr & Oh & Or).
  rewrite Hs in Lr, Lh, Lsr.
  cbv beta in F0, F1, F2.
  split; [exact (env_frame_trans (env_frame_trans F0 F1) F2) |].
  split; [congruence |]. split; [congruence |].
  exists mi. congruence.
Qed.

Lemma apply_cwnd_delta_rate (delta : Q) (s s' : Sender.t) :
  Sender.apply_cwnd_delta delta s = Ret s' -> Sender.rate s' = Sender.rate s.
Proof.
  intros E. apply apply_cwnd_delta_only_cwnd in E. rewrite E.
  sender_simpl. reflexivity.
Qed.

Lemma is_finished_last (tr : Trace.t) (now : Q) (b : bool) :
  Trace.is_finished tr now = Ret b ->
  exists last_ts,
    py_last (Trace.timestamps tr) = Ret last_ts /\ b = Qgeb now last_ts.
Proof.
  unfold Trace.is_finished.
  destruct (py_last (Trace.timestamps tr)) as [l |]; intros E; inversion E.
  exists l. split; reflexivity.
Qed.

(** A call of [apply_rate_delta] that returns has written [rate] and
    nothing else. *)
Lemma apply_rate_delta_only_rate (delta : Q) (s s' : Sender.t) :
  Sender.apply_rate_delta delta s = Ret s' ->
  s' = Sender.with_rate (Sender.rate s') s.
Proof.
  unfold Sender.apply_rate_delta.
  destruct (Qgeb _ 0).
  - intros E. inversion E. apply set_rate_only_rate.
  - destruct (py_div _ _); intros E; inversion E. apply set_rate_only_rate.
Qed.

(** [run_for_dur_effect], together with the call it speaks about. *)
Lemma run_for_dur_run (fuel : nat) (dur : option pyfloat) (e : env) :
  hoare (run_for_dur fuel dur)
        (fun r e' =>
           run_for_dur fuel dur e = Ok r e'
           /\ env_frame e e'
           /\ Sender.rate (senders e') = Sender.rate (senders e)
           /\ exists mi,
                Sender.history (senders e')
                = history_step (Sender.history (senders e)) mi)
        e.
Proof.
  intros r e' E.
  destruct (@run_for_dur_effect fuel dur e r e' E) as (F & Hr & _ & Hh).
  auto.
Qed.

Lemma step_effect (fuel : nat) (actions : list Q) (e : env) :
  hoare (step fuel actions)
        (fun r e' =>
           exists a0 s1 s2 e2 last_ts,
             py_index actions 0 = Ret a0
             /\ Sender.apply_rate_delta a0 (senders e) = Ret s1
             /\ (if use_cwnd e
                 then exists a1,
                     py_index actions 1 = Ret a1
                     /\ Sender.apply_cwnd_delta a1 s1 = Ret s2
                 else s2 = s1)
             /\ run_for_dur fuel (run_dur e) (with_senders s2 e) = Ok tt e2
             /\ senders e' = senders e2
             /\ net e' = net e2
             /\ (exists mi,
                    Sender.history (senders e')
                    = history_step (Sender.history (senders e)) mi)
             /\ Sender.rate (senders e') = Sender.rate s1
             /\ steps_taken e' = (steps_taken e + 1)%Z
             /\ episodes_run e' = episodes_run e
             /\ fst r = Sender.get_obs (senders e')
             /\ py_last (Trace.timestamps (current_trace e')) = Ret last_ts
             /\ snd r = Qgeb (cur_time (net e')) last_ts)
        e.
Proof.
  unfold step, _get_all_sender_obs, trace_call. wp_unfold. hoare_go.
  all: (eapply hoare_weaken; [apply run_for_dur_run |]).
  all: intros [] e3 (Hrun & F & Hr & (mi & Hh)).
  all: hoare_go.
  all: env_simpl.
  all: match goal with
       | Hf : Trace.is_finished _ _ = Ret _ |- _ =>
           apply is_finished_last in Hf as (last_ts & Hl & Hb)
       end.
  all: destruct F as (F1 & F2 & _); revert F1 F2 Hr Hh Hrun; env_simpl;
    intros F1 F2 Hr Hh Hrun.
  all: match goal with
       | Hs : Sender.apply_rate_delta _ _ = Ret _ |- _ =>
           pose proof (apply_rate_delta_only_rate _ _ Hs) as Ho
       end.
  all: try match goal with
       | Hc : Sender.apply_cwnd_delta _ _ = Ret _ |- _ =>
           pose proof (apply_cwnd_delta_only_cwnd _ _ Hc) as Hoc;
           pose proof (apply_cwnd_delta_rate _ _ Hc) as Hcr
       end.
  all: do 5 eexists.
  all: match goal with
       | Hu : use_cwnd _ = _ |- _ => rewrite Hu
       end.
  all: repeat (apply conj); try eassumption; try reflexivity.
  all: try (eexists; split; eassumption).
  all: try congruence.
  all: try (exists mi; rewrite Hh; f_equal;
            try rewrite Hoc; rewrite Ho; sender_simpl; reflexivity).
Qed.

(** [step] applies the action to the rate (and, with a window, to the
    window), then runs one interval from the state so reached: the call
    of [run_for_dur] for the environment's [run_dur] returns, the network
    and the sender that [step] leaves are those it left, one more interval
    is in the history, and the rate is the one the action set.  [step]
    counts itself, and reports whether the clock has reached the last
    timestamp of the trace; the observation is the history of the
    sender. *)
Theorem step_applies_action_and_runs_one_interval :
  forall (fuel : nat) (actions : list Q) (e : env) (obs : list Q)
         (should_stop : bool) (e' : env),
    step fuel actions e = Ok (obs, should_stop) e' ->
    exists a0 s1 s2 e2 last_ts,
      py_index actions 0 = Ret a0
      /\ Sender.apply_rate_delta a0 (senders e) = Ret s1
      /\ (if use_cwnd e
          then exists a1,
              py_index actions 1 = Ret a1
              /\ Sender.apply_cwnd_delta a1 s1 = Ret s2
          else s2 = s1)
      /\ run_for_dur fuel (run_dur e) (with_senders s2 e) = Ok tt e2
      /\ senders e' = senders e2
      /\ net e' = net e2
      /\ (exists mi,
             Sender.history (senders e')
             = history_step (Sender.history (senders e)) mi)
      /\ Sender.rate (senders e') = Sender.rate s1
      /\ steps_taken e' = (steps_taken e + 1)%Z
      /\ episodes_run e' = episodes_run e
      /\ obs = Sender.get_obs (senders e')
      /\ py_last (Trace.timestamps (current_trace e')) = Ret last_ts
      /\ should_stop = Qgeb (cur_time (net e')) last_ts.
Proof.
  intros fuel actions e obs should_stop e' E.
  exact (@step_effect fuel actions e (obs, should_stop) e' E).
Qed.








End Environment.

(** ** The end of the event loop *)






Section Termination.
Context `{Constants} `{SenderObsClass} `{LinkClass} `{RandomClass}.
Import Network.














(** With a target end time of nan no head of the queue ends the loop. *)
Lemma run_loop_nan (fuel : nat) :
  forall (xd : list Q) (e : env) (r : list Q) (e' : env),
    run_loop fuel PyNaN xd e <> Ok r e'.
Proof.
  induction fuel as [| fuel IH]; intros xd e r e' E.
  - discriminate E.
  - rewrite run_loop_unfold in E.
    destruct (q (net e)) as [| hd rest]; [discriminate E |].
    unfold stops, reached in E.
    rewrite andb_false_r in E. cbn [andb] in E.
    destruct (dispatch_event hd xd _) as [r1 e1 | |]; try discriminate E.
    exact (IH _ _ _ _ E).
Qed.

Lemma open_interval_nan (e : env) :
  hoare (open_interval (Some PyNaN)) (fun t _ => t = PyNaN) e.
Proof.
  unfold open_interval, target_end_time. wp_unfold. hoare_go.
  all: reflexivity.
Qed.

(** What [run_for_dur] stores in [run_dur] after an interval in which no
    packet was sent: nan, if the interval measured a latency. *)
Lemma run_for_dur_finish_nan (e : env) :
  hoare (run_for_dur_finish [])
        (fun _ e' =>
           forall mi,
             history_back (Sender.history (senders e')) = Ret mi ->
             Qgtb (mi_get mi "avg latency") 0 = true ->
             run_dur e' = Some PyNaN)
        e.
Proof.
  unfold run_for_dur_finish. wp_unfold. hoare_go.
  all: env_simpl; sender_simpl.
  all: intros mi Hb Hl; try reflexivity; congruence.
Qed.

(** [min(self.cur_time + dur, ...)] is nan when [dur] is nan, and no
    [event_time >= end_time] is true then: a call of [run_for_dur] with a
    duration of nan never returns, whatever the state.  Its loop runs
    until an exception ends it.  [run_for_dur] itself stores nan in
    [run_dur], as [np.mean(extra_delays)] of no delay, when the interval it
    finalizes has measured a latency and sent no packet. *)
Theorem run_for_dur_never_returns_on_nan :
  forall (fuel : nat) (e : env),
    (forall xd e', run_for_dur_events fuel (Some PyNaN) e <> Ok xd e')
    /\ (forall r e', run_for_dur fuel (Some PyNaN) e <> Ok r e')
    /\ (forall e' mi,
           run_for_dur_finish [] e = Ok tt e' ->
           history_back (Sender.history (senders e')) = Ret mi ->
           Qgtb (mi_get mi "avg latency") 0 = true ->
           run_dur e' = Some PyNaN).
Proof.
  intros fuel e.
  assert (A : forall xd e', run_for_dur_events fuel (Some PyNaN) e
                            <> Ok xd e').
  { intros xd e' E. unfold run_for_dur_events in E.
    apply bind_ok in E as (t & e0 & Eo & El).
    pose proof (@open_interval_nan e t e0 Eo) as Ht. cbv beta in Ht.
    subst t. exact (@run_loop_nan fuel _ _ _ _ El). }
  repeat (apply conj).
  - exact A.
  - intros r e' E. unfold run_for_dur in E.
    apply bind_ok in E as (xd & e1 & E1 & _). exact (A _ _ E1).
  - intros e' mi E. exact (@run_for_dur_finish_nan e tt e' E mi).
Qed.

End Termination.

(** ** Concrete runs *)

Lemma hoare_state_after {A} (c : M Network.env A) (P : Network.env -> Prop)
      (e : Network.env) :
  hoare c (fun _ e' => P e') e ->
  Example.returns c e = true ->
  P (Example.state_after c e).
Proof.
  unfold Example.returns, Example.state_after, hoare.
  destruct (c e) as [a e' | |]; intros H E; try discriminate.
  exact (H a e' eq_refl).
Defined.

Lemma returns_tt (c : M Network.env unit) (e : Network.env) :
  Example.returns c e = true -> c e = Ok tt (Example.state_after c e).
Proof.
  unfold Example.returns, Example.state_after.
  destruct (c e) as [[] e' | |]; intros E; try discriminate. reflexivity.
Defined.

Section Witnesses.

#[local] Hint Extern 0 Constants =>
  exact (Example.run_constants true) : typeclass_instances.
#[local] Existing Instance Example.sender_obs.
#[local] Existing Instance Example.link.
#[local] Existing Instance Example.random.

Lemma started_episode : episode (Example.started true).
Proof.
  unfold Example.started.
  apply hoare_state_after.
  - exact (env_reset_episode 100 (Example.created true)).
  - vm_compute; reflexivity.
Defined.

Lemma slowed_episode : episode (Example.slowed true).
Proof.
  unfold Example.slowed.
  destruct (Sender.apply_rate_delta (-1000)
              (Network.senders (Example.started true))) as [s |] eqn:E.
  - exact (ep_rate (-1000) started_episode E).
  - exact started_episode.
Defined.

Lemma send_always_schedules_successor_witness :
  exists t : Q,
    t == Event.time Example.pacing_event
         + 1 / Sender.rate (Network.senders (Example.started true))
    /\ match Network.dispatch_event Example.pacing_event []
               (Example.started true)
       with
       | Ok _ e' | Raise _ e' =>
           In (Event.mk t EVENT_TYPE_SEND 0 0 false
                 (Network.event_count (Network.net (Example.started true)))
                 (Sender.rto (Network.senders (Example.started true))) 0)
              (Network.q (Network.net e'))
       | OutOfFuel => False
       end.
Proof.
  apply (@send_always_schedules_successor _ _ _ _
           (Example.started true) Example.pacing_event []).
  - reflexivity.
  - reflexivity.
  - vm_compute. intro E. discriminate E.
Defined.

Lemma dropped_packet_is_lost_or_timed_out_witness :
  exists cbs e',
    Network.dispatch_event Example.dropped_return [] (Example.started true)
    = Ok ([], cbs) e'
    /\ Sender.acked (Network.senders e')
       = Sender.acked (Network.senders (Example.started true))
    /\ Sender.rtt_samples (Network.senders e')
       = Sender.rtt_samples (Network.senders (Example.started true))
    /\ ((cbs = [Network.CB_timeout]
         /\ Sender.lost (Network.senders e')
            = Sender.lost (Network.senders (Example.started true)))
        \/ (cbs = [Network.CB_on_packet_lost]
            /\ Sender.lost (Network.senders e')
               = (Sender.lost (Network.senders (Example.started true)) + 1)%Z)).
Proof.
  apply (@dropped_packet_is_lost_or_timed_out _ _ _ _
           (Example.started true) Example.dropped_return []).
  - reflexivity.
  - vm_compute. reflexivity.
  - reflexivity.
Defined.

Lemma bytes_in_flight_whole_packets_witness :
  (exists k : nat,
      Sender.bytes_in_flight (Network.senders (Example.started true))
      = (Z.of_nat k * BYTES_PER_PACKET)%Z
      /\ (packets (Network.q (Network.net (Example.started true))) <= k)%nat)
  /\ (forall e' : Network.env,
         Network.reset (Example.started true) = Ok tt e' ->
         Sender.bytes_in_flight (Network.senders e') = 0%Z
         /\ Network.q (Network.net e') = [first_event (Example.started true)]
         /\ packets (Network.q (Network.net e')) = 0%nat).
Proof.
  apply (@bytes_in_flight_whole_packets _ _ _ _ (Example.started true)).
  apply started_episode.
Defined.

Lemma queue_dequeues_in_tuple_order_witness :
  StronglySorted (fun a b => Event.ltb b a = false)
                 (Network.q (Network.net (Example.started true)))
  /\ StronglySorted (fun a b => Event.time a <= Event.time b)
                    (Network.q (Network.net (Example.started true)))
  /\ StronglySorted
       (fun a b => Event.time a == Event.time b -> tie_break a b)
       (Network.q (Network.net (Example.started true))).
Proof.
  apply (@queue_dequeues_in_tuple_order _ _ _ _ (Example.started true)).
  apply started_episode.
Defined.

Lemma interval_bytes_bounded_by_sent_and_in_flight_witness :
  exists xd e1 mi,
    Network.run_for_dur_events 1000 (Network.run_dur (Example.slowed true))
                               (Example.slowed true)
    = Ok xd e1
    /\ Sender.get_run_data (Network.cur_time (Network.net e1))
                           (Network.senders e1)
       = Ret mi
    /\ Sender.history (Network.senders (Example.after_cut true))
       = history_step (Sender.history (Network.senders e1)) mi
    /\ (bytes_lost mi + bytes_acked mi
        <= bytes_sent mi
           + Sender.bytes_in_flight (Network.senders (Example.slowed true)))%Z
    /\ (bytes_acked mi
        <= bytes_sent mi
           + Sender.bytes_in_flight (Network.senders (Example.slowed true)))%Z
    /\ (bytes_lost mi
        + Sender.acked (Network.senders e1) * BYTES_PER_PACKET
        + Sender.bytes_in_flight (Network.senders e1)
        = bytes_sent mi
          + Sender.bytes_in_flight (Network.senders (Example.slowed true)))%Z.
Proof.
  apply (@interval_bytes_bounded_by_sent_and_in_flight _ _ _ _
           1000 (Network.run_dur (Example.slowed true))
           (Example.slowed true) (Example.after_cut true)).
  - exact slowed_episode.
  - unfold Example.after_cut, Example.run_for_dur.
    apply returns_tt. vm_compute; reflexivity.
Defined.

Lemma max_tput_is_maximum_of_recv_rate_cache_witness :
  Network.recv_rate_cache (Network.net (Example.next true))
  = Network.cache_append
      (Network.recv_rate_cache (Network.net (Example.congested true)))
      (Sender.recv_rate (Network.senders (Example.next true)))
  /\ py_max_list (Network.recv_rate_cache (Network.net (Example.next true)))
     = Ret (Sender.max_tput (Network.senders (Example.next true)))
  /\ Sender.recv_rate (Network.senders (Example.next true))
     <= Sender.max_tput (Network.senders (Example.next true))
  /\ Sender.start_stage (Network.senders (Example.next true))
     = Sender.start_stage (Network.senders (Example.congested true))
       && Qeq_bool (Sender.lat_diff (Network.senders (Example.congested true)))
                   0
       && Qeq_bool (Sender.lat_diff (Network.senders (Example.next true))) 0
  /\ (forall now s,
         Sender.start_stage (Sender.reset now s) = true
         /\ Sender.max_tput (Sender.reset now s) = 0).
Proof.
  apply (@max_tput_is_maximum_of_recv_rate_cache _ _ _ _
           1000 (Network.run_dur (Example.congested true))
           (Example.congested true) (Example.next true)).
  unfold Example.next, Example.run_for_dur.
  apply returns_tt. vm_compute; reflexivity.
Defined.

Lemma returns_ok {A} (d : A) (c : M Network.env A) (e : Network.env) :
  Example.returns c e = true ->
  c e = Ok (Example.value_after d c e) (Example.state_after c e).
Proof.
  unfold Example.returns, Example.value_after, Example.state_after.
  destruct (c e); intros E; try discriminate. reflexivity.
Defined.

Ltac by_computation :=
  vm_compute; let Hc := fresh "Hc" in intro Hc; discriminate Hc.

Lemma set_rate_clamps_witness :
  MIN_RATE
  <= Sender.rate (Sender.set_rate 7 (Network.senders (Example.started true)))
  /\ Sender.rate (Sender.set_rate 7 (Network.senders (Example.started true)))
     <= MAX_RATE
  /\ (MIN_RATE <= 7 -> 7 <= MAX_RATE ->
      Sender.rate (Sender.set_rate 7 (Network.senders (Example.started true)))
      = 7)
  /\ (7 < MIN_RATE ->
      Sender.rate (Sender.set_rate 7 (Network.senders (Example.started true)))
      = MIN_RATE)
  /\ (MAX_RATE < 7 ->
      Sender.rate (Sender.set_rate 7 (Network.senders (Example.started true)))
      = MAX_RATE)
  /\ Sender.set_rate 7 (Network.senders (Example.started true))
     = Sender.with_rate
         (Sender.rate
            (Sender.set_rate 7 (Network.senders (Example.started true))))
         (Network.senders (Example.started true)).
Proof.
  apply (@set_rate_clamps _ _ 7 (Network.senders (Example.started true))).
  by_computation.
Defined.

Lemma apply_rate_delta_moves_rate_towards_action_witness :
  exists s',
    Sender.apply_rate_delta 3 (Network.senders (Example.started true)) = Ret s'
    /\ MIN_RATE <= Sender.rate s' /\ Sender.rate s' <= MAX_RATE
    /\ (0 <= 3 ->
        Sender.rate (Network.senders (Example.started true)) <= Sender.rate s')
    /\ (3 <= 0 ->
        Sender.rate s' <= Sender.rate (Network.senders (Example.started true)))
    /\ s' = Sender.with_rate (Sender.rate s')
                             (Network.senders (Example.started true)).
Proof.
  apply (@apply_rate_delta_moves_rate_towards_action _ _ 3
           (Network.senders (Example.started true))); by_computation.
Defined.

Lemma apply_cwnd_delta_truncates_witness :
  exists s',
    Sender.apply_cwnd_delta (1 # 2) (Network.senders (Example.started true))
    = Ret s'
    /\ (0 <= Sender.cwnd s')%Z
    /\ (0 <= 1 # 2 ->
        (Sender.cwnd (Network.senders (Example.started true))
         <= Sender.cwnd s')%Z)
    /\ (1 # 2 <= 0 ->
        (Sender.cwnd s'
         <= Sender.cwnd (Network.senders (Example.started true)))%Z)
    /\ (Sender.cwnd (Network.senders (Example.started true)) = 0%Z ->
        Sender.cwnd s' = 0%Z)
    /\ s' = Sender.with_cwnd (Sender.cwnd s')
                             (Network.senders (Example.started true)).
Proof.
  apply (@apply_cwnd_delta_truncates _ (1 # 2)
           (Network.senders (Example.started true))).
  - split; by_computation.
  - by_computation.
  - by_computation.
Defined.

Lemma trace_lookup_follows_the_cursor_witness :
  exists (b d : Q) (i : nat),
    Trace.get_bandwidth Example.stepped_trace 7
    = (Ret b, Trace.set_idx i Example.stepped_trace)
    /\ Trace.get_delay Example.stepped_trace 7
       = (Ret d, Trace.set_idx i Example.stepped_trace)
    /\ (Trace.idx Example.stepped_trace <= i
        < length (Trace.timestamps Example.stepped_trace))%nat
    /\ nth_error (Trace.bandwidths Example.stepped_trace) i = Some b
    /\ nth_error (Trace.delays Example.stepped_trace) i = Some d
    /\ (forall j, (Trace.idx Example.stepped_trace < j <= i)%nat ->
                  exists t,
                    nth_error (Trace.timestamps Example.stepped_trace) j
                    = Some t
                    /\ t <= 7)
    /\ (forall t, nth_error (Trace.timestamps Example.stepped_trace) (i + 1)
                  = Some t ->
                  7 < t).
Proof.
  apply (@trace_lookup_follows_the_cursor Example.stepped_trace 7).
  - reflexivity.
  - reflexivity.
  - cbn. lia.
Defined.

Lemma trace_lookup_never_goes_back_witness :
  Trace.get_bandwidth (snd (Trace.get_bandwidth Example.stepped_trace 7)) 3
  = Trace.get_bandwidth Example.stepped_trace 7
  /\ Trace.get_delay (snd (Trace.get_delay Example.stepped_trace 7)) 3
     = Trace.get_delay Example.stepped_trace 7
  /\ snd (Trace.get_delay Example.stepped_trace 7)
     = snd (Trace.get_bandwidth Example.stepped_trace 7).
Proof.
  apply (@trace_lookup_never_goes_back Example.stepped_trace 7 3).
  by_computation.
Defined.

Lemma get_bandwidth_returns_the_delay_past_the_delays_witness :
  exists tr tr',
    Trace.init [0; 5] [10; 20] [30] 0 50 = Ret tr
    /\ Trace.get_bandwidth tr 7 = (Ret 30, tr')
    /\ Trace.get_delay tr 7 = (Ret 30, tr').
Proof.
  apply (@get_bandwidth_returns_the_delay_past_the_delays
           0 5 [] [] 10 20 30 0 50 7).
  - reflexivity.
  - by_computation.
Defined.


Lemma get_rate_reads_the_row_after_get_ts_witness :
  EmuReplay.get_rate
    (snd (EmuReplay.get_ts_times 1 (EmuReplay.init [1; 2] [8000; 16000])))
  = match nth_error [8000; 16000] 1 with
    | Some x => Ret (x /' 8 /' inject_Z BYTES_PER_PACKET)
    | None => Exc IndexError
    end.
Proof.
  apply (@get_rate_reads_the_row_after_get_ts _ [1; 2] [8000; 16000] 0).
  apply le_S, le_n.
Defined.

Lemma one_pacing_event_is_always_pending_witness :
  pacing_events (Network.q (Network.net (Example.started true))) = 1%nat
  /\ exists hd,
       py_first (Network.q (Network.net (Example.started true))) = Ret hd.
Proof.
  apply (@one_pacing_event_is_always_pending _ _ _ _ (Example.started true)).
  exact started_episode.
Defined.

Lemma step_before_the_first_reset_raises_TypeError_witness :
  exists e'',
    SimulatedNetworkEnv.step 10 [0] (Example.created true)
    = Raise TypeError e''.
Proof.
  apply (@step_before_the_first_reset_raises_TypeError
           _ Example.sender_obs Example.link Example.random
           (Example.mkWorld [] []) tt 1 [Example.trace10] 10
           ["avg latency"%string] "aurora"%string false 1 false
           (Example.created true) 10 [0] 0).
  - unfold Example.created, Example.env0, Example.init.
    apply returns_tt. vm_compute. reflexivity.
  - reflexivity.
Defined.

Lemma step_applies_action_and_runs_one_interval_witness :
  exists a0 s1 s2 e2 last_ts,
    py_index [3] 0 = Ret a0
    /\ Sender.apply_rate_delta a0 (Network.senders (Example.started true))
       = Ret s1
    /\ (if Network.use_cwnd (Example.started true)
        then exists a1,
            py_index [3] 1 = Ret a1
            /\ Sender.apply_cwnd_delta a1 s1 = Ret s2
        else s2 = s1)
    /\ Network.run_for_dur 1000 (Network.run_dur (Example.started true))
         (Network.with_senders s2 (Example.started true))
       = Ok tt e2
    /\ Network.senders (Example.congested true) = Network.senders e2
    /\ Network.net (Example.congested true) = Network.net e2
    /\ (exists mi,
           Sender.history (Network.senders (Example.congested true))
           = history_step
               (Sender.history (Network.senders (Example.started true))) mi)
    /\ Sender.rate (Network.senders (Example.congested true)) = Sender.rate s1
    /\ Network.steps_taken (Example.congested true)
       = (Network.steps_taken (Example.started true) + 1)%Z
    /\ Network.episodes_run (Example.congested true)
       = Network.episodes_run (Example.started true)
    /\ fst (Example.value_after ([], false) (Example.step true 1000 [3])
                                (Example.started true))
       = Sender.get_obs (Network.senders (Example.congested true))
    /\ py_last (Trace.timestamps
                  (Network.current_trace (Example.congested true)))
       = Ret last_ts
    /\ snd (Example.value_after ([], false) (Example.step true 1000 [3])
                                (Example.started true))
       = Qgeb (Network.cur_time (Network.net (Example.congested true)))
              last_ts.
Proof.
  apply (@step_applies_action_and_runs_one_interval _ _ _ _
           1000 [3] (Example.started true)
           (fst (Example.value_after ([], false) (Example.step true 1000 [3])
                                     (Example.started true)))
           (snd (Example.value_after ([], false) (Example.step true 1000 [3])
                                     (Example.started true)))
           (Example.congested true)).
  rewrite <- surjective_pairing.
  unfold Example.congested, Example.step.
  apply returns_ok. vm_compute. reflexivity.
Defined.



End Witnesses.

(** C4 fails as stated: after the first [reset()] the second and the third
    event taken from the queue have the same time, 0.044 s, and the one
    taken first (packet 6, arriving at hop 1) has the greater event id, so
    was inserted later than the other (packet 1, back at the sender).  This
    holds whichever of the two event-type constants is the smaller. *)
Lemma equal_times_dequeued_against_event_id :
  map Example.time_and_id
      (Example.dequeue 3 (Network.q (Network.net (Example.started true))))
  = [(1 # 25, 10%Z); (11 # 250, 6%Z); (11 # 250, 1%Z)]
  /\ map Example.time_and_id
         (Example.dequeue 3 (Network.q (Network.net (Example.started false))))
     = [(11 # 250, 11%Z); (11 # 250, 6%Z); (11 # 250, 1%Z)].
Proof. apply conj; vm_compute; reflexivity. Qed.

(** C2 fails as stated: once the rate is cut, the next interval sends one
    packet and receives the acknowledgements of the ten packets that were
    sent before it opened. *)
Lemma interval_acknowledges_more_than_it_sends :
  match Example.interval true (Example.slowed true) with
  | Ret mi => bytes_sent mi = 1500%Z /\ bytes_acked mi = 15000%Z
              /\ ~ (bytes_acked mi <= bytes_sent mi)%Z
  | Exc _ => False
  end.
Proof.
  vm_compute. apply conj; [reflexivity |]. apply conj; [reflexivity |].
  intros E. apply E. reflexivity.
Qed.

(** C6 fails as stated: the sender has left its start stage on a latency
    increase, and the next [run_for_dur] raises [max_tput] from about 3.2 to
    10 Mbps. *)
Lemma max_tput_changes_after_latency_increase :
  Sender.start_stage (Network.senders (Example.congested true)) = false
  /\ Sender.lat_diff (Network.senders (Example.congested true)) = 1 # 5000
  /\ Sender.max_tput (Network.senders (Example.congested true))
     = 640776699 # 200
  /\ Example.returns
       (Example.run_for_dur true 1000
          (Network.run_dur (Example.congested true)))
       (Example.congested true)
     = true
  /\ Sender.start_stage (Network.senders (Example.next true)) = false
  /\ Sender.max_tput (Network.senders (Example.next true)) = 10000000.
Proof. repeat (apply conj); vm_compute; reflexivity. Qed.
